(** * obsidian-list-modified: the plugin of [src/main.ts], embedded and verified

    The plugin keeps a list of the files modified today
    ([settings.trackedFiles]) and rewrites a section of today's daily note
    with one rendered line per tracked file.

    Layout of the development:
    - [JS]      the JavaScript string and array primitives the plugin calls,
                with the corner cases the ECMAScript text gives them;
    - [Host]    the Obsidian services the plugin consumes (vault, metadata
                cache, daily notes, notices), as an explicit state with a
                trace of the calls made, and a small state-and-exception
                monad for the asynchronous methods;
    - [Plugin]  the methods of [ListModified], one definition per method;
    - the vocabulary of the statements and the vaults of the examples,
      with the handlers cut at their [await]s and the queues of the four
      [serialize] wrappers, for the order in which invocations run;
    - the lemmas and theorems.

    A string is a sequence of UTF-16 code units, as in JavaScript; the
    development covers the texts whose code units are below 256 (Basic
    Latin and Latin-1 Supplement), and the character [ascii_of_nat n]
    stands for the code unit [n]. On these texts the white-space class and
    the case mapping below are the ones of ECMAScript; the other string
    primitives work on code units and do not look at their values. *)

From Stdlib Require Import String Ascii List ZArith Lia Bool Arith.
Import ListNotations.

Local Open Scope string_scope.
Local Open Scope list_scope.
Local Open Scope Z_scope.

(** The line feed, as a character and as a one-character string. *)
Definition LF : ascii := "010"%char.
Definition NL : string := String LF EmptyString.

(* ================================================================== *)
(** ** JavaScript primitives *)
(* ================================================================== *)

Module JS.

(** [Array.prototype.includes] on an array of strings. *)
Definition includes (xs : list string) (x : string) : bool :=
  existsb (String.eqb x) xs.

(** [Array.prototype.push]. *)
Definition push (xs : list string) (x : string) : list string :=
  (xs ++ [x])%list.

(** [Array.prototype.remove], which Obsidian adds to every array: it walks
    the array from the end and splices out each element equal to the
    target. *)
Definition remove (xs : list string) (x : string) : list string :=
  filter (fun y => negb (String.eqb y x)) xs.

(** [Array.prototype.splice (start, deleteCount, ...items)]: a negative
    [start] counts from the end, [start] is clamped to the length, and
    [deleteCount] is clamped between 0 and what is left after [start]. *)
Definition splice {A : Type} (start deleteCount : Z) (items xs : list A)
  : list A :=
  let len := Z.of_nat (List.length xs) in
  let actualStart :=
    if start <? 0 then Z.max (len + start) 0 else Z.min start len in
  let actualDeleteCount := Z.min (Z.max deleteCount 0) (len - actualStart) in
  (firstn (Z.to_nat actualStart) xs ++ items
     ++ skipn (Z.to_nat (actualStart + actualDeleteCount)) xs)%list.

(** [String.prototype.split] with a one-character separator. The result
    is never empty: the empty string splits into one empty string. *)
Fixpoint split (sep : ascii) (s : string) : list string :=
  match s with
  | EmptyString => [EmptyString]
  | String c r =>
      if Ascii.eqb c sep then EmptyString :: split sep r
      else match split sep r with
           | [] => [String c EmptyString]
           | l :: ls => String c l :: ls
           end
  end.

(** [Array.prototype.join]. *)
Definition join (sep : string) (ls : list string) : string :=
  String.concat sep ls.

(** [String.prototype.startsWith]. *)
Definition startsWith (s p : string) : bool := String.prefix p s.

(** [String.prototype.includes]. *)
Fixpoint strIncludes (s sub : string) : bool :=
  String.prefix sub s
  || match s with
     | EmptyString => false
     | String _ r => strIncludes r sub
     end.

(** The string without its first [n] characters. *)
Fixpoint drop (n : nat) (s : string) : string :=
  match n, s with
  | O, _ => s
  | S _, EmptyString => EmptyString
  | S k, String _ r => drop k r
  end.

(** The first occurrence of [pat] in [s]: what is before it and what is
    after it. *)
Fixpoint findFirst (pat s : string) : option (string * string) :=
  if String.prefix pat s then Some (EmptyString, drop (String.length pat) s)
  else match s with
       | EmptyString => None
       | String c r =>
           match findFirst pat r with
           | Some (pre, post) => Some (String c pre, post)
           | None => None
           end
       end.

(** [GetSubstitution] for a string pattern (no capture groups): in the
    replacement text [$$] stands for a dollar sign, [$&] for the match,
    [$`] for the text before the match and [$'] for the text after it;
    every other [$] is literal. *)
Fixpoint getSubstitution (matched before after tpl : string) : string :=
  match tpl with
  | EmptyString => EmptyString
  | String c t =>
      if Ascii.eqb c "$" then
        match t with
        | String d r =>
            if Ascii.eqb d "$" then String "$" (getSubstitution matched before after r)
            else if Ascii.eqb d "&" then matched ++ getSubstitution matched before after r
            else if Ascii.eqb d "`" then before ++ getSubstitution matched before after r
            else if Ascii.eqb d "'" then after ++ getSubstitution matched before after r
            else String c (getSubstitution matched before after t)
        | EmptyString => String c EmptyString
        end
      else String c (getSubstitution matched before after t)
  end.

(** [String.prototype.replace (pattern, replacement)] with a string
    pattern: only the first occurrence is replaced. *)
Definition replace (pat rep s : string) : string :=
  match findFirst pat s with
  | None => s
  | Some (pre, post) => pre ++ getSubstitution pat pre post rep ++ post
  end.

End JS.

(* ================================================================== *)
(** ** The host application, as the plugin sees it *)
(* ================================================================== *)

Module Host.

(** A file of the vault, with what the plugin reads of it: [file.path],
    [file.basename], [file.parent.path], [file.stat.ctime] already formatted
    as YYYY-MM-DD, the tags [getAllTags] finds in its metadata cache, and
    the link [fileManager.generateMarkdownLink] produces for it from the
    daily note. *)
Record TFile : Type := mkTFile {
  path : string;
  basename : string;
  parentPath : string;
  ctime : string;
  allTags : list string;
  mdLink : string
}.

(** An entry of [CachedMetadata.headings]: the heading's text, its level,
    [position.start.line] and [position.end.line]. The record has a module
    of its own because the settings have a field [heading] too. *)
Module Cache.
Record HeadingCache : Type := mkHeading {
  heading : string;
  level : nat;
  startLine : Z;
  endLine : Z
}.
End Cache.
Definition HeadingCache : Type := Cache.HeadingCache.

(** The settings record ([ListModifiedSettings]); the fields are the ones
    [main.ts] reads and writes. *)
Record ListModifiedSettings : Type := mkSettings {
  writeInterval : Z;
  heading : string;
  outputFormat : string;
  tags : string;
  excludedFolders : string;
  ignoredNameContains : string;
  automaticallyCreateDailyNote : bool;
  trackedFiles : list string;
  lastTrackedDate : string
}.

(** What the plugin asks of the host, in the order it asks. *)
Inductive Effect : Type :=
| ENotice (msg : string)
| EConsoleError (msg : string)
| ESaveData (s : ListModifiedSettings)
| ECreateDailyNote (p : string)
| EAppend (p text : string)
| EModify (p text : string).

(** The plugin object together with the host state it can observe.
    [today] is [moment().format("YYYY-MM-DD")]; [dailyNoteFile] is the file
    that is (or, once created, will be) today's daily note; [dailyFolder]
    says whether the daily-notes folder exists ([getAllDailyNotes] throws
    when it does not); [queued] counts the calls of [updateTrackedFiles]
    that were started and not awaited. *)
Record State : Type := mkState {
  settings : ListModifiedSettings;
  writeIntervalInMs : Z;
  files : list TFile;
  data : list (string * string);
  today : string;
  dailyFolder : bool;
  dailyNoteFile : TFile;
  dailyTemplate : string;
  trace : list Effect;
  queued : nat
}.

Definition with_settings (x : ListModifiedSettings) (s : State) : State :=
  mkState x (writeIntervalInMs s) (files s) (data s) (today s)
          (dailyFolder s) (dailyNoteFile s) (dailyTemplate s) (trace s) (queued s).

Definition with_writeIntervalInMs (x : Z) (s : State) : State :=
  mkState (settings s) x (files s) (data s) (today s)
          (dailyFolder s) (dailyNoteFile s) (dailyTemplate s) (trace s) (queued s).

Definition with_files (x : list TFile) (s : State) : State :=
  mkState (settings s) (writeIntervalInMs s) x (data s) (today s)
          (dailyFolder s) (dailyNoteFile s) (dailyTemplate s) (trace s) (queued s).

Definition with_data (x : list (string * string)) (s : State) : State :=
  mkState (settings s) (writeIntervalInMs s) (files s) x (today s)
          (dailyFolder s) (dailyNoteFile s) (dailyTemplate s) (trace s) (queued s).

Definition with_trace (x : list Effect) (s : State) : State :=
  mkState (settings s) (writeIntervalInMs s) (files s) (data s) (today s)
          (dailyFolder s) (dailyNoteFile s) (dailyTemplate s) x (queued s).

Definition with_queued (x : nat) (s : State) : State :=
  mkState (settings s) (writeIntervalInMs s) (files s) (data s) (today s)
          (dailyFolder s) (dailyNoteFile s) (dailyTemplate s) (trace s) x.

Definition with_trackedFiles (x : list string) (c : ListModifiedSettings)
  : ListModifiedSettings :=
  mkSettings (writeInterval c) (heading c) (outputFormat c) (tags c)
             (excludedFolders c) (ignoredNameContains c)
             (automaticallyCreateDailyNote c) x (lastTrackedDate c).

Definition with_lastTrackedDate (x : string) (c : ListModifiedSettings)
  : ListModifiedSettings :=
  mkSettings (writeInterval c) (heading c) (outputFormat c) (tags c)
             (excludedFolders c) (ignoredNameContains c)
             (automaticallyCreateDailyNote c) (trackedFiles c) x.

(** *** Asynchronous methods: state passing with exceptions

    An [async] method is run to completion on the state; it either returns
    or throws, and what it did to the state before throwing stays done. *)

Inductive Completion (A : Type) : Type :=
| Normal (a : A)
| Throw (e : string).
Arguments Normal {A} a.
Arguments Throw {A} e.

Definition Async (A : Type) : Type := State -> Completion A * State.

Definition ret {A : Type} (a : A) : Async A := fun s => (Normal a, s).

Definition bind {A B : Type} (m : Async A) (k : A -> Async B) : Async B :=
  fun s => match m s with
           | (Normal a, s') => k a s'
           | (Throw e, s') => (Throw e, s')
           end.

Definition throw {A : Type} (e : string) : Async A := fun s => (Throw e, s).

Definition tryCatch {A : Type} (m : Async A) (h : string -> Async A)
  : Async A :=
  fun s => match m s with
           | (Normal a, s') => (Normal a, s')
           | (Throw e, s') => h e s'
           end.

Definition get : Async State := fun s => (Normal s, s).
Definition modifyState (f : State -> State) : Async unit :=
  fun s => (Normal tt, f s).

Declare Scope async_scope.
Delimit Scope async_scope with async.
Notation "x <- m ;; k" := (bind m (fun x => k))
  (at level 61, m at next level, right associativity) : async_scope.
Notation "m ;; k" := (bind m (fun _ => k))
  (at level 61, right associativity) : async_scope.
Local Open Scope async_scope.

Fixpoint mapM {A B : Type} (f : A -> Async B) (xs : list A)
  : Async (list B) :=
  match xs with
  | [] => ret []
  | x :: r => y <- f x ;; ys <- mapM f r ;; ret (y :: ys)
  end.

Definition emit (e : Effect) : Async unit :=
  modifyState (fun s => with_trace (trace s ++ [e])%list s).

(** *** The services *)

(** [new Notice(msg)] and [console.error(msg)]. *)
Definition notice (msg : string) : Async unit := emit (ENotice msg).
Definition consoleError (msg : string) : Async unit := emit (EConsoleError msg).

(** [vault.getAbstractFileByPath]. *)
Definition getAbstractFileByPath (s : State) (p : string) : option TFile :=
  find (fun f => String.eqb (path f) p) (files s).

(** The content stored under a path. *)
Fixpoint lookup (p : string) (d : list (string * string)) : option string :=
  match d with
  | [] => None
  | (k, v) :: r => if String.eqb k p then Some v else lookup p r
  end.

Fixpoint store (p v : string) (d : list (string * string))
  : list (string * string) :=
  match d with
  | [] => [(p, v)]
  | (k, w) :: r => if String.eqb k p then (k, v) :: r else (k, w) :: store p v r
  end.

(** [vault.read], [vault.modify] and [vault.append]. *)
Definition read (f : TFile) : Async string :=
  fun s => match lookup (path f) (data s) with
           | Some v => (Normal v, s)
           | None => (Throw "ENOENT", s)
           end.

Definition modify (f : TFile) (text : string) : Async unit :=
  emit (EModify (path f) text) ;;
  modifyState (fun s => with_data (store (path f) text (data s)) s).

Definition append (f : TFile) (text : string) : Async unit :=
  old <- read f ;;
  emit (EAppend (path f) text) ;;
  modifyState (fun s => with_data (store (path f) (old ++ text) (data s)) s).

(** [getDailyNote(moment(), getAllDailyNotes())]: [getAllDailyNotes] throws
    when the daily-notes folder is missing; otherwise today's note is
    looked up and the result is null when there is none. *)
Definition getDailyNote : Async (option TFile) :=
  fun s => if dailyFolder s
           then (Normal (getAbstractFileByPath s (path (dailyNoteFile s))), s)
           else (Throw "Failed to find daily notes folder", s).

(** [createDailyNote(moment())]: the note is created from the template. *)
Definition createDailyNote : Async (option TFile) :=
  s <- get ;;
  let f := dailyNoteFile s in
  emit (ECreateDailyNote (path f)) ;;
  modifyState (fun s => with_data (store (path f) (dailyTemplate s) (data s))
                          (with_files (files s ++ [f])%list s)) ;;
  ret (Some f).

(** *** The metadata cache of the daily note

    The cache lists the headings the host finds in the note. The host's
    parser is modelled by ATX headings only: a line of one to six [#]
    followed by a space is a heading, whose text is the rest of the line
    without its leading spaces. *)

Fixpoint countHashes (s : string) : nat * string :=
  match s with
  | String c r =>
      if Ascii.eqb c "#" then let (n, t) := countHashes r in (S n, t)
      else (O, s)
  | EmptyString => (O, s)
  end.

Fixpoint dropSpaces (s : string) : string :=
  match s with
  | String c r => if Ascii.eqb c " " then dropSpaces r else s
  | EmptyString => s
  end.

Definition headingOfLine (line : string) : option (nat * string) :=
  let (n, t) := countHashes line in
  if ((1 <=? n)%nat && (n <=? 6)%nat)%bool then
    match t with
    | String c r => if Ascii.eqb c " " then Some (n, dropSpaces r) else None
    | EmptyString => None
    end
  else None.

Fixpoint headingsFrom (k : Z) (lines : list string) : list HeadingCache :=
  match lines with
  | [] => []
  | l :: r =>
      match headingOfLine l with
      | Some (n, t) => Cache.mkHeading t n k k :: headingsFrom (k + 1) r
      | None => headingsFrom (k + 1) r
      end
  end.

(** [getFileCache(note)?.headings]: undefined when the note has no
    heading. *)
Definition headingsOf (lines : list string) : option (list HeadingCache) :=
  match headingsFrom 0 lines with
  | [] => None
  | hs => Some hs
  end.

End Host.

(* ================================================================== *)
(** ** The plugin: class [ListModified] *)
(* ================================================================== *)

Module Plugin.
Import Host.
Local Open Scope async_scope.

(** *** Regular expressions used by the filters *)

(** The class [\s]: the white space and line terminators of ECMAScript.
    Below 256 these are the space, the tab, the line feed, the vertical
    tab, the form feed, the carriage return and the no-break space
    U+00A0. *)
Definition isSpace (c : ascii) : bool :=
  (Ascii.eqb c " " || Ascii.eqb c "009" || Ascii.eqb c "010"
   || Ascii.eqb c "011" || Ascii.eqb c "012" || Ascii.eqb c "013"
   || Ascii.eqb c "160")%bool.

(** The text without its spaces: [replace] with [/\s/g] and the empty
    string. *)
Fixpoint removeSpaces (s : string) : string :=
  match s with
  | EmptyString => EmptyString
  | String c r => if isSpace c then removeSpaces r else String c (removeSpaces r)
  end.

Fixpoint skipSpaces (s : string) : string :=
  match s with
  | String c r => if isSpace c then skipSpaces r else s
  | EmptyString => s
  end.

(** The two alternatives of [/\s*, | \s*,/] tried at the head of [s];
    the result is what follows the match. A greedy [\s*] that gave back
    spaces would leave a space where the comma is wanted, so only the
    whole run of spaces can match. *)
Definition matchSpacesCommaSpace (s : string) : option string :=
  match skipSpaces s with
  | String c (String d r) =>
      if (Ascii.eqb c "," && Ascii.eqb d " ")%bool then Some r else None
  | _ => None
  end.

Definition matchSpaceSpacesComma (s : string) : option string :=
  match s with
  | String c r =>
      if Ascii.eqb c " " then
        match skipSpaces r with
        | String d r' => if Ascii.eqb d "," then Some r' else None
        | EmptyString => None
        end
      else None
  | EmptyString => None
  end.

(** [s.replace(/\s*, | \s*,/, ",")]: the expression has no [g] flag, so
    only the leftmost match is replaced. *)
Fixpoint replaceCommaSpace (s : string) : string :=
  match matchSpacesCommaSpace s with
  | Some r => String "," r
  | None =>
      match matchSpaceSpacesComma s with
      | Some r => String "," r
      | None =>
          match s with
          | EmptyString => EmptyString
          | String c r => String c (replaceCommaSpace r)
          end
      end
  end.

Fixpoint dropLastSlash (s : string) : string :=
  match s with
  | EmptyString => EmptyString
  | String c EmptyString => if Ascii.eqb c "/" then EmptyString else s
  | String c r => String c (dropLastSlash r)
  end.

(** [replace] with [/^\/|\/$/g] and the empty string: one slash off the
    front and one off the end. *)
Definition trimSlashes (s : string) : string :=
  match s with
  | String c r => if Ascii.eqb c "/" then dropLastSlash r else dropLastSlash s
  | EmptyString => EmptyString
  end.

(** [String.prototype.toLowerCase], code unit by code unit. Below 256 the
    Unicode case mapping lowers the letters A-Z (65-90) and the capital
    letters of the Latin-1 Supplement, U+00C0-U+00DE (192-222) without the
    multiplication sign U+00D7 (215); each goes to the code unit 32 above
    it, and every other code unit is left as it is. *)
Definition lowerChar (c : ascii) : ascii :=
  let n := nat_of_ascii c in
  if (((65 <=? n)%nat && (n <=? 90)%nat)
      || ((192 <=? n)%nat && (n <=? 222)%nat && negb (n =? 215)%nat))%bool
  then ascii_of_nat (n + 32) else c.

Fixpoint toLowerCase (s : string) : string :=
  match s with
  | EmptyString => EmptyString
  | String c r => String (lowerChar c) (toLowerCase r)
  end.

(** *** The filters *)

(** [noteTitleContainsIgnoredText] (lines 89-102). *)
Definition noteTitleContainsIgnoredText (c : ListModifiedSettings)
  (noteTitle : string) : bool :=
  let ignoredText := JS.split "," (removeSpaces (ignoredNameContains c)) in
  existsb (fun ignored =>
             let title := toLowerCase noteTitle in
             let text := toLowerCase ignored in
             if String.eqb text EmptyString then false
             else JS.strIncludes title text) ignoredText.

(** [cacheContainsIgnoredTag] (lines 104-110); [currentFileTags] is
    [getAllTags(cache)]. *)
Definition cacheContainsIgnoredTag (c : ListModifiedSettings)
  (currentFileTags : list string) : bool :=
  let ignoredTags := JS.split "," (removeSpaces (tags c)) in
  existsb (fun ignoredTag => JS.includes currentFileTags ignoredTag) ignoredTags.

(** [pathIsExcluded] (lines 112-126). Reading [.parent] of a path that is
    not in the vault is a null dereference. *)
Definition pathIsExcluded (p : string) : Async bool :=
  s <- get ;;
  let excluded := excludedFolders (settings s) in
  if String.eqb excluded EmptyString then ret false
  else
    let excludedFolderPaths :=
      map trimSlashes (JS.split "," (replaceCommaSpace excluded)) in
    match getAbstractFileByPath s p with
    | None => throw "TypeError: Cannot read properties of null (reading 'parent')"
    | Some f =>
        let currentFilePath := parentPath f in
        ret (existsb (fun excludedFolder =>
                        JS.startsWith currentFilePath excludedFolder)
               excludedFolderPaths)
    end.

(** *** The formatter *)

(** The chain of four [replace] calls of [getFormattedOutput], on the
    values read from the file. *)
Definition renderTemplate (format : string) (file : TFile) : string :=
  JS.replace "[[ctime]]" (ctime file)
    (JS.replace "[[tags]]"
       (JS.join ", " (map (fun tag => String "\" tag) (allTags file)))
       (JS.replace "[[name]]" (basename file)
          (JS.replace "[[link]]" (mdLink file) format))).

(** [getFormattedOutput] (lines 240-259). The arguments of the chain are
    evaluated whether or not the template holds their placeholder, so a
    path that is not in the vault makes [file.basename] a null
    dereference, and a missing daily note does the same to
    [getDailyNote(...).path]. *)
Definition getFormattedOutput (p : string) : Async string :=
  s <- get ;;
  let file := getAbstractFileByPath s p in
  dailyNote <- getDailyNote ;;
  match dailyNote with
  | None => throw "TypeError: Cannot read properties of null (reading 'path')"
  | Some _ =>
      match file with
      | None =>
          throw "TypeError: Cannot read properties of null (reading 'basename')"
      | Some f => ret (renderTemplate (outputFormat (settings s)) f)
      end
  end.

(** [this.settings.trackedFiles.map((path) => this.getFormattedOutput(path))]. *)
Definition renderTracked : Async (list string) :=
  s <- get ;;
  mapM getFormattedOutput (trackedFiles (settings s)).

(** *** Saving and notices *)

Definition saveSettings : Async unit :=
  s <- get ;; emit (ESaveData (settings s)).

Definition displayNotice (message : string) : Async unit :=
  notice ("[Obsidian List Modified] " ++ message).

(** *** The update routine *)

(** The loop of lines 212-237 over the headings of the cache, from index
    [i] on: [hs] is [currentHeadings] from [i], [content] the array of
    lines, which every matching heading splices in place before the note
    is overwritten with it. The loop has no [break]: every heading whose
    text is the configured one is treated, at the line numbers the cache
    gave before the first change. *)
Fixpoint replaceSections (dailyNote : TFile) (hs : list HeadingCache)
  (content : list string) : Async unit :=
  match hs with
  | [] => ret tt
  | h :: rest =>
      s <- get ;;
      if String.eqb (Cache.heading h) (heading (settings s)) then
        let startPos := Cache.endLine h + 1 in
        content' <-
          match rest with
          | next :: _ =>
              let endPos := Cache.startLine next - 1 in
              items <- renderTracked ;;
              ret (JS.splice startPos (endPos - startPos) items content)
          | [] =>
              let endPos := Z.of_nat (List.length content) in
              items <- renderTracked ;;
              ret (JS.splice startPos (endPos - startPos) items content)
          end ;;
        modify dailyNote (JS.join NL content') ;;
        replaceSections dailyNote rest content'
      else replaceSections dailyNote rest content
  end.

(** The branch of lines 181-205: a notice, then a new section appended to
    the note, made of the heading line and the rendered list. The mock
    heading put in [currentHeadings] at lines 188-190 is not read again,
    the branch returns. *)
Definition appendDefaultSection (dailyNote : TFile) : Async unit :=
  displayNotice "Cannot find the designated heading in your file. Creating a default one for now..." ;;
  s <- get ;;
  items <- renderTracked ;;
  append dailyNote (NL ++ "# " ++ heading (settings s) ++ NL
                      ++ JS.join NL items) ;;
  saveSettings.

Definition isUndefined {A : Type} (x : option A) : bool :=
  match x with None => true | Some _ => false end.

(** [updateTrackedFiles] (lines 154-238). The call of itself at line 172
    is not awaited: it is counted in [queued] and its body runs after this
    one has completed. With no daily note in hand, [getFileCache] is a
    null dereference. The headings are the ones the cache has for the
    content read. [vault.modify] is not awaited either; its effect is
    taken at the call. *)
Definition updateTrackedFiles (doWrite : bool) : Async unit :=
  saveSettings ;;
  found <- tryCatch getDailyNote
             (fun e =>
                notice "Unable to load daily note. See console for details." ;;
                consoleError e ;;
                ret None) ;;
  dailyNote <-
    match found with
    | Some f => ret (Some f)
    | None =>
        s <- get ;;
        created <-
          (if automaticallyCreateDailyNote (settings s) then
             displayNotice "Creating daily note since it did not exist..." ;;
             createDailyNote
           else ret None) ;;
        modifyState (fun s => with_queued (S (queued s)) s) ;;
        ret created
    end ;;
  match dailyNote with
  | None => throw "TypeError: Cannot read properties of undefined (reading 'path')"
  | Some note =>
      text <- read note ;;
      let content := JS.split LF text in
      let currentHeadings := headingsOf content in
      s <- get ;;
      if (isUndefined currentHeadings
          || String.eqb (heading (settings s)) EmptyString)%bool
      then appendDefaultSection note
      else if (negb (writeIntervalInMs s =? 0) && negb doWrite)%bool then ret tt
      else
        replaceSections note
          (match currentHeadings with Some hs => hs | None => [] end) content
  end.

(** *** The event handlers

    Every handler is wrapped by [serialize]. Here a handler is a function
    that is run to completion on the state, one call after the other. *)

(** [onload] (lines 25-37), once the settings are loaded: the interval is
    stored in milliseconds, and the periodic call [updateTrackedFiles(true)]
    is registered unless the interval is zero, which the result says. *)
Definition onload (s : State) : State * bool :=
  let ms := writeInterval (settings s) * 1000 in
  (with_writeIntervalInMs ms s, negb (ms =? 0)).

(** What [vault.on("delete")] and [vault.on("rename")] pass: a file or a
    folder. *)
Inductive TAbstractFile : Type :=
| AFile (f : TFile)
| AFolder (p : string).

Definition setTrackedFiles (xs : list string) : Async unit :=
  modifyState (fun s =>
                 with_settings (with_trackedFiles xs (settings s)) s).

(** A write to the array that the handler's constant [trackedFiles] names.
    As long as [settings.trackedFiles] is that same array ([shared]), the
    settings see the write; after line 57 has put a new array in the
    settings they do not. *)
Definition writeLocal (shared : bool) (xs : list string) : Async unit :=
  if shared then setTrackedFiles xs else ret tt.

Definition isDailyNote (file : TFile) (dailyNote : option TFile) : bool :=
  match dailyNote with
  | Some d => String.eqb (path file) (path d)
  | None => false
  end.

(** [onCacheChange] (lines 49-87); [currentFileTags] is
    [getAllTags(cache)]. The conditions are evaluated left to right with
    the short circuits of [&&] and [||]. *)
Definition onCacheChange (file : TFile) (currentFileTags : list string)
  : Async unit :=
  s0 <- get ;;
  let trackedFiles0 := trackedFiles (settings s0) in
  let currentDate := today s0 in
  shared <-
    (if negb (String.eqb (lastTrackedDate (settings s0)) currentDate) then
       updateTrackedFiles false ;;
       setTrackedFiles [] ;;
       modifyState (fun s =>
         with_settings (with_lastTrackedDate currentDate (settings s)) s) ;;
       ret false
     else ret true) ;;
  let p := path file in
  dailyNote <- getDailyNote ;;
  if isDailyNote file dailyNote then ret tt
  else
    s <- get ;;
    let c := settings s in
    add <-
      (if JS.includes trackedFiles0 p then ret false
       else if cacheContainsIgnoredTag c currentFileTags then ret false
       else
         excluded <- pathIsExcluded p ;;
         if excluded then ret false
         else ret (negb (noteTitleContainsIgnoredText c (basename file)))) ;;
    let trackedFiles1 :=
      if add then JS.push trackedFiles0 p else trackedFiles0 in
    writeLocal shared trackedFiles1 ;;
    drop <-
      (if (JS.includes trackedFiles1 p
           && cacheContainsIgnoredTag c currentFileTags)%bool then ret true
       else
         excluded <- pathIsExcluded p ;;
         if excluded then ret true
         else ret (noteTitleContainsIgnoredText c (basename file))) ;;
    let trackedFiles2 :=
      if drop then JS.remove trackedFiles1 p else trackedFiles1 in
    writeLocal shared trackedFiles2 ;;
    updateTrackedFiles false.

(** [onVaultDelete] (lines 128-135). *)
Definition onVaultDelete (file : TAbstractFile) : Async unit :=
  match file with
  | AFile f =>
      s <- get ;;
      if JS.includes (trackedFiles (settings s)) (path f) then
        setTrackedFiles (JS.remove (trackedFiles (settings s)) (path f)) ;;
        updateTrackedFiles false
      else ret tt
  | AFolder _ => ret tt
  end.

(** [onVaultRename] (lines 137-152). *)
Definition onVaultRename (file : TAbstractFile) (oldPath : string)
  : Async unit :=
  match file with
  | AFile f =>
      s <- get ;;
      if JS.includes (trackedFiles (settings s)) oldPath then
        setTrackedFiles
          (JS.push (JS.remove (trackedFiles (settings s)) oldPath) (path f)) ;;
        saveSettings ;;
        s' <- get ;;
        if negb (JS.strIncludes (outputFormat (settings s')) "[[link]]") then
          updateTrackedFiles false
        else ret tt
      else ret tt
  | AFolder _ => ret tt
  end.

(** The interval callback of [onload] (lines 31-37), registered only when
    [writeIntervalInMs] is not zero. *)
Definition onInterval : Async unit := updateTrackedFiles true.

(** The calls of [updateTrackedFiles] left in [queued] are run one after
    the other, each to completion, at most [fuel] of them. *)
Fixpoint drain (fuel : nat) (s : State) : State :=
  match fuel with
  | O => s
  | S n =>
      match queued s with
      | O => s
      | S q => drain n (snd (updateTrackedFiles false (with_queued q s)))
      end
  end.

End Plugin.

Import Host Plugin.

(* ================================================================== *)
(** ** The vocabulary of the statements *)
(* ================================================================== *)

(** *** Reading the outcome of a run *)

(** The lines of today's daily note, as the next read would split them. *)
Definition noteLines (s : State) : option (list string) :=
  option_map (JS.split LF) (lookup (path (dailyNoteFile s)) (data s)).

(** The text of today's daily note. *)
Definition noteText (s : State) : option string :=
  lookup (path (dailyNoteFile s)) (data s).

Definition isWrite (e : Effect) : bool :=
  match e with
  | EAppend _ _ | EModify _ _ => true
  | _ => false
  end.

Definition isNotice (e : Effect) : bool :=
  match e with
  | ENotice _ | EConsoleError _ => true
  | _ => false
  end.

(** The writes a run asked of the vault, in order. *)
Definition writes (s : State) : list Effect := filter isWrite (trace s).

(** The notices and console messages of a run, in order. *)
Definition notices (s : State) : list Effect := filter isNotice (trace s).

(** *** Concrete vaults used in the examples *)

Definition plainFile (name : string) : TFile :=
  mkTFile (name ++ ".md") name "/" "2023-05-01" [] ("[[" ++ name ++ "]]").

Definition dailyFile : TFile := plainFile "2024-01-02".

Definition baseSettings : ListModifiedSettings :=
  mkSettings 0 "Heading" "- [[name]]" EmptyString EmptyString EmptyString
             false [] "2024-01-02".

(** A vault holding the named files and today's daily note with the given
    lines, once the plugin is loaded; the daily-notes folder exists. *)
Definition vault (c : ListModifiedSettings) (names : list string)
  (lines : list string) : State :=
  fst (onload
         (mkState c 0 (map plainFile names ++ [dailyFile])%list
                  [(path dailyFile, JS.join NL lines)]
                  "2024-01-02" true dailyFile EmptyString [] 0)).

(** The same vault before today's daily note exists. *)
Definition vaultWithoutNote (c : ListModifiedSettings) (names : list string)
  : State :=
  fst (onload
         (mkState c 0 (map plainFile names) []
                  "2024-01-02" true dailyFile EmptyString [] 0)).

Definition withTracked (xs : list string) : ListModifiedSettings :=
  with_trackedFiles xs baseSettings.

(** The note of the region-replacement example, with [c.md] tracked. *)
Definition regionExample : State :=
  vault (withTracked ["c.md"]) ["c"]
        ["# Heading"; "old1"; "old2"; "# Next"; "x"].

(** Two tracked files dated the day before, a write interval of sixty
    seconds, and today's note with its heading already there. *)
Definition rolloverSettings : ListModifiedSettings :=
  mkSettings 60 "Heading" "- [[name]]" EmptyString EmptyString EmptyString
             false ["a.md"; "b.md"] "2024-01-01".

Definition rolloverExample : State :=
  vault rolloverSettings ["a"; "b"; "c"] ["# Heading"; "old"].

(** [a.md] and [b.md] are tracked; [b.md] is the path [a.md] is renamed
    to. *)
Definition renameExample : State :=
  vault (withTracked ["a.md"; "b.md"]) ["b"] ["# Heading"; "old"].

(** No daily note for today, and no automatic creation. *)
Definition missingNoteExample : State :=
  vaultWithoutNote (withTracked ["c.md"]) ["c"].

(** A template with a link, no write interval, [a.md] tracked and about to
    be renamed to [b.md]. *)
Definition linkSettings : ListModifiedSettings :=
  mkSettings 0 "Heading" "- [[link]]" EmptyString EmptyString EmptyString
             false ["a.md"] "2024-01-02".

Definition linkExample : State :=
  vault linkSettings ["b"] ["# Heading"; "- [[a]]"].

(** No heading name configured. *)
Definition unnamedSettings : ListModifiedSettings :=
  mkSettings 0 EmptyString "- [[name]]" EmptyString EmptyString EmptyString
             false ["c.md"] "2024-01-02".

Definition unnamedExample : State := vault unnamedSettings ["c"] ["x"].

(** [gone.md] is tracked and no longer in the vault. *)
Definition goneExample : State :=
  vault (withTracked ["gone.md"; "c.md"]) ["c"] ["# Heading"; "old"].

(** The configured heading appears twice. *)
Definition twiceExample : State :=
  vault (withTracked ["c.md"]) ["c"] ["# Heading"; "x"; "# Heading"; "y"].

(** *** No daily note and no automatic creation *)

(** Today's note cannot be found although the daily-notes folder exists,
    and the plugin may not create it. *)
Definition noteMissing (s : State) : Prop :=
  dailyFolder s = true
  /\ getAbstractFileByPath s (path (dailyNoteFile s)) = None
  /\ automaticallyCreateDailyNote (settings s) = false.

(** A state in which one call is queued and nothing was written or
    signalled so far. *)
Definition stuck (s : State) : Prop :=
  noteMissing s /\ queued s = 1%nat /\ writes s = [] /\ notices s = [].

(** *** Rendering reads the state and leaves it alone *)

(** What [getFormattedOutput] completes with, as a function of the state. *)
Definition formatted (s : State) (p : string) : Completion string :=
  if dailyFolder s then
    match getAbstractFileByPath s (path (dailyNoteFile s)) with
    | None => Throw "TypeError: Cannot read properties of null (reading 'path')"
    | Some _ =>
        match getAbstractFileByPath s p with
        | None =>
            Throw "TypeError: Cannot read properties of null (reading 'basename')"
        | Some f => Normal (renderTemplate (outputFormat (settings s)) f)
        end
    end
  else Throw "Failed to find daily notes folder".

Fixpoint formattedAll (s : State) (ps : list string)
  : Completion (list string) :=
  match ps with
  | [] => Normal []
  | p :: r =>
      match formatted s p with
      | Normal y =>
          match formattedAll s r with
          | Normal ys => Normal (y :: ys)
          | Throw e => Throw e
          end
      | Throw e => Throw e
      end
  end.

(** The rendered list of the tracked set, or the exception that stops its
    rendering. *)
Definition rendered (s : State) : Completion (list string) :=
  formattedAll s (trackedFiles (settings s)).

(** Two states with the same settings, files and daily-note lookup. *)
Definition sameVault (s s' : State) : Prop :=
  settings s = settings s' /\ files s = files s'
  /\ dailyFolder s = dailyFolder s' /\ dailyNoteFile s = dailyNoteFile s'.

(** *** The routine once the daily note is in hand *)

(** Today's daily note is found and its text can be read. *)
Definition noteResolved (s : State) (note : TFile) (text : string) : Prop :=
  dailyFolder s = true
  /\ getAbstractFileByPath s (path (dailyNoteFile s)) = Some note
  /\ lookup (path note) (data s) = Some text.

(** The state after [saveSettings]. *)
Definition saved (s : State) : State :=
  with_trace (trace s ++ [ESaveData (settings s)])%list s.

(** The state after [vault.modify] has put [content] in the note. *)
Definition written (note : TFile) (content : list string) (s : State)
  : State :=
  with_data (store (path note) (JS.join NL content) (data s))
    (with_trace
       (trace s ++ [EModify (path note) (JS.join NL content)])%list s).

(** The lines left by the splice at heading [h], whose successors in the
    cache are [rest]. *)
Definition spliced (h : HeadingCache) (rest : list HeadingCache)
  (items content : list string) : list string :=
  let startPos := Cache.endLine h + 1 in
  let endPos :=
    match rest with
    | next :: _ => Cache.startLine next - 1
    | [] => Z.of_nat (List.length content)
    end in
  JS.splice startPos (endPos - startPos) items content.

Definition headingIs (name : string) (h : HeadingCache) : bool :=
  String.eqb (Cache.heading h) name.

(** *** A tracked path that is no longer in the vault *)

(** Whether the routine, on a note with this text, gets to render the
    tracked set: in the branch that appends a new section, or past the
    gate at a heading with the configured text. *)
Definition rendersList (doWrite : bool) (s : State) (text : string) : bool :=
  let content := JS.split LF text in
  if (isUndefined (headingsOf content)
      || String.eqb (heading (settings s)) EmptyString)%bool then true
  else if (negb (writeIntervalInMs s =? 0) && negb doWrite)%bool then false
  else existsb (headingIs (heading (settings s)))
         (match headingsOf content with Some hs => hs | None => [] end).

(** *** The gate on the write interval *)

(** The first half of the routine (lines 155-173): the settings are saved
    and the daily note looked up, created or given up. *)
Definition resolveNote : Async (option TFile) :=
  (saveSettings ;;
   found <- tryCatch getDailyNote
              (fun e =>
                 notice "Unable to load daily note. See console for details." ;;
                 consoleError e ;;
                 ret None) ;;
   match found with
   | Some f => ret (Some f)
   | None =>
       s <- get ;;
       created <-
         (if automaticallyCreateDailyNote (settings s) then
            displayNotice "Creating daily note since it did not exist..." ;;
            createDailyNote
          else ret None) ;;
       modifyState (fun s => with_queued (S (queued s)) s) ;;
       ret created
   end)%async.

(** The second half (lines 175-237), with the note in hand or not. *)
Definition writeNote (doWrite : bool) (dailyNote : option TFile)
  : Async unit :=
  match dailyNote with
  | None => throw "TypeError: Cannot read properties of undefined (reading 'path')"
  | Some note =>
      (text <- read note ;;
       let content := JS.split LF text in
       let currentHeadings := headingsOf content in
       s <- get ;;
       if (isUndefined currentHeadings
           || String.eqb (heading (settings s)) EmptyString)%bool
       then appendDefaultSection note
       else if (negb (writeIntervalInMs s =? 0) && negb doWrite)%bool then ret tt
       else
         replaceSections note
           (match currentHeadings with Some hs => hs | None => [] end) content)%async
  end.

(** The tracked set after a rename and after a delete. *)
Definition renamed (oldPath newPath : string) (s : State) : State :=
  with_settings
    (with_trackedFiles
       (JS.push (JS.remove (trackedFiles (settings s)) oldPath) newPath)
       (settings s)) s.

Definition deleted (p : string) (s : State) : State :=
  with_settings
    (with_trackedFiles (JS.remove (trackedFiles (settings s)) p) (settings s))
    s.

Definition added (p : string) (s : State) : State :=
  with_settings
    (with_trackedFiles (JS.push (trackedFiles (settings s)) p) (settings s))
    s.

(** A gated vault for the examples: the settings of the rollover example
    on the day they were stored. *)
Definition gatedExample : State :=
  vault (with_lastTrackedDate "2024-01-02" rolloverSettings) ["a"; "b"; "c"]
        ["# Heading"; "old"].

(** *** Lines: split, join and splice *)

(** A line without a line feed. *)
Fixpoint noLF (s : string) : bool :=
  match s with
  | EmptyString => true
  | String c r => (negb (Ascii.eqb c LF) && noLF r)%bool
  end.

(** *** The section under the configured heading *)

Definition isHeadingLine (l : string) : bool :=
  match headingOfLine l with Some _ => true | None => false end.

(** A heading line whose text is [name]. *)
Definition lineNamed (name l : string) : bool :=
  match headingOfLine l with
  | Some (_, t) => String.eqb t name
  | None => false
  end.

(** The note is [pre ++ hl :: region ++ post]: [hl] is the one heading
    line with the configured text, [region] the lines under it up to the
    next heading, and [post] starts with that next heading or is empty. *)
Definition sectionAt (name : string) (pre : list string) (hl : string)
  (region post : list string) : bool :=
  (lineNamed name hl
   && forallb (fun l => negb (lineNamed name l)) pre
   && forallb (fun l => negb (isHeadingLine l)) region
   && forallb (fun l => negb (lineNamed name l)) post
   && match post with
      | [] => true
      | next :: _ => isHeadingLine next
      end)%bool.

Definition lastLine (region : list string) : list string :=
  match rev region with
  | [] => []
  | x :: _ => [x]
  end.

(** What the splice leaves of the old region: nothing when the region
    runs to the end of the note, its last line when a heading follows. *)
Definition kept (region post : list string) : list string :=
  match post with
  | [] => []
  | _ :: _ => lastLine region
  end.

(** *** Writing twice *)

(** A rendered line that is one line of the note and not a heading. *)
Definition plainLine (l : string) : bool :=
  (noLF l && negb (isHeadingLine l))%bool.

(** *** Placeholders: how many a replacement can consume *)

(** The number of positions of [s] at which [pat] occurs. *)
Fixpoint occurrences (pat s : string) : nat :=
  match s with
  | EmptyString => 0%nat
  | String _ r =>
      ((if String.prefix pat s then 1 else 0) + occurrences pat r)%nat
  end.

(** No proper end of [p] begins [q] or is begun by [q]: an occurrence of
    [p] cannot start before a block [q] and run into it. *)
Definition clearBefore (p q : string) : bool :=
  forallb (fun j =>
             negb (String.prefix (JS.drop j p) q
                   || String.prefix q (JS.drop j p)))
          (seq 1 (String.length p - 1)).

(** No end of [q] is a proper beginning of [p]: an occurrence of [p]
    cannot start inside a block [q] and run out of it. *)
Definition clearAfter (p q : string) : bool :=
  forallb (fun i =>
             negb (String.prefix (JS.drop i q) p
                   && (String.length (JS.drop i q) <? String.length p)%nat))
          (seq 0 (String.length q)).

(** The four placeholders of the template. *)
Definition placeholders : list string :=
  ["[[link]]"; "[[name]]"; "[[tags]]"; "[[ctime]]"].

(** The template of the examples with the name asked for twice. *)
Definition twoNames : State :=
  vault (mkSettings 0 "Heading" "[[name]] and [[name]]" EmptyString
                    EmptyString EmptyString false ["Note.md"] "2024-01-02")
        ["Note"] ["# Heading"].

(** *** The tracked set as a set *)

(** A method that leaves the settings as they are, however it ends. *)
Definition keepsSettings {A : Type} (m : Async A) : Prop :=
  forall s, settings (snd (m s)) = settings s.

(** A method after which the tracked set is free of duplicates if it was
    before. *)
Definition keepsNoDup {A : Type} (m : Async A) : Prop :=
  forall s, NoDup (trackedFiles (settings s)) ->
            NoDup (trackedFiles (settings (snd (m s)))).

(** *** Further runs of the handlers *)

(** No daily note for today, automatic creation switched on. *)
Definition autoCreateExample : State :=
  vaultWithoutNote
    (mkSettings 0 "Heading" "- [[name]]" EmptyString EmptyString EmptyString
                true ["c.md"] "2024-01-02")
    ["c"].

(** The rollover example without a write interval. *)
Definition rolloverNoInterval : State :=
  vault (mkSettings 0 "Heading" "- [[name]]" EmptyString EmptyString
                    EmptyString false ["a.md"; "b.md"] "2024-01-01")
        ["a"; "b"; "c"] ["# Heading"; "old"].

(** *** One replacement *)

(** [q] occurs in [s] between [pre] and [post], and at no place of [s]
    before. *)
Definition firstOccurrence (q s pre post : string) : Prop :=
  s = (pre ++ q ++ post)%string
  /\ forall v u, pre = (v ++ u)%string -> u <> EmptyString ->
                 String.prefix q (u ++ q ++ post)%string = false.

(** [t] is [s] with the first occurrence of [q] replaced by some text,
    and all that follows it kept as it is; or [q] does not occur in [s]
    and [t] is [s]. *)
Definition replacesFirst (q s t : string) : Prop :=
  (occurrences q s = 0%nat /\ t = s)
  \/ exists pre post e,
       firstOccurrence q s pre post /\ t = (pre ++ e ++ post)%string.

(** *** The settings of the filters *)

(** Every character of [s] passes the test [P]. *)
Fixpoint allChars (P : ascii -> bool) (s : string) : bool :=
  match s with
  | EmptyString => true
  | String c r => (P c && allChars P r)%bool
  end.

(** A space or a comma: what a list setting may hold besides entries. *)
Definition isBlank (c : ascii) : bool :=
  (isSpace c || Ascii.eqb c ",")%bool.

Definition with_ignoredNameContains (x : string) (c : ListModifiedSettings)
  : ListModifiedSettings :=
  mkSettings (writeInterval c) (heading c) (outputFormat c) (tags c)
             (excludedFolders c) x (automaticallyCreateDailyNote c)
             (trackedFiles c) (lastTrackedDate c).

Definition with_tags (x : string) (c : ListModifiedSettings)
  : ListModifiedSettings :=
  mkSettings (writeInterval c) (heading c) (outputFormat c) x
             (excludedFolders c) (ignoredNameContains c)
             (automaticallyCreateDailyNote c) (trackedFiles c)
             (lastTrackedDate c).

(** The entries [pathIsExcluded] compares the parent folder with. *)
Definition excludedFolderPaths (c : ListModifiedSettings) : list string :=
  map trimSlashes (JS.split "," (replaceCommaSpace (excludedFolders c))).

Definition with_excludedFolders (x : string) (c : ListModifiedSettings)
  : ListModifiedSettings :=
  mkSettings (writeInterval c) (heading c) (outputFormat c) (tags c)
             x (ignoredNameContains c) (automaticallyCreateDailyNote c)
             (trackedFiles c) (lastTrackedDate c).

(** A note in the folder [Archive] and one in a folder below it. *)
Definition archivedFile : TFile :=
  mkTFile "Archive/m.md" "m" "Archive" "2023-05-01" [] "[[m]]".

Definition deepFile : TFile :=
  mkTFile "Archive/Sub/n.md" "n" "Archive/Sub" "2023-05-01" [] "[[n]]".

(** A note in a folder whose name begins like [Archive]. *)
Definition notesFile : TFile :=
  mkTFile "ArchiveNotes/k.md" "k" "ArchiveNotes" "2023-05-01" [] "[[k]]".

(** A vault with those three notes and [c.md], and the given setting of
    excluded folders. *)
Definition excluding (folders : string) : State :=
  let v := vault (with_excludedFolders folders baseSettings) ["c"]
                 ["# Heading"] in
  with_files (archivedFile :: deepFile :: notesFile :: files v) v.

(** *** The tracked set after a cache change *)

(** What [pathIsExcluded] answers for a file that is in the vault. *)
Definition folderExcluded (s : State) (f : TFile) : bool :=
  if String.eqb (excludedFolders (settings s)) EmptyString then false
  else existsb (fun excludedFolder =>
                  JS.startsWith (parentPath f) excludedFolder)
               (excludedFolderPaths (settings s)).

(** One of the three rules excludes the file: [vaultFile] is the file the
    vault has under the path of the event's file. *)
Definition excludedNow (s : State) (file vaultFile : TFile)
  (currentFileTags : list string) : bool :=
  (cacheContainsIgnoredTag (settings s) currentFileTags
   || folderExcluded s vaultFile
   || noteTitleContainsIgnoredText (settings s) (basename file))%bool.

Definition trackedAfterChange (s : State) (file vaultFile : TFile)
  (currentFileTags : list string) : list string :=
  let tracked := trackedFiles (settings s) in
  if excludedNow s file vaultFile currentFileTags
  then JS.remove tracked (path file)
  else if JS.includes tracked (path file) then tracked
       else JS.push tracked (path file).

(** The event is one of the day stored, for a file of the vault that is
    not the daily note. *)
Definition ordinaryChange (s : State) (file vaultFile : TFile) : Prop :=
  lastTrackedDate (settings s) = today s
  /\ dailyFolder s = true
  /\ isDailyNote file (getAbstractFileByPath s (path (dailyNoteFile s)))
     = false
  /\ getAbstractFileByPath s (path file) = Some vaultFile.

(** The vault of the examples on the day after the one stored, before
    today's daily note exists. *)
Definition newDayWithoutNote : State :=
  vaultWithoutNote rolloverSettings ["a"; "b"; "c"].

(** *** What a method may touch *)

(** An effect that, if it saves settings, saves [c]. *)
Definition savesOnly (c : ListModifiedSettings) (e : Effect) : Prop :=
  match e with
  | ESaveData c' => c' = c
  | _ => True
  end.

(** A method that changes nothing of the state but the content of the
    vault and the trace of the calls made, to which it only adds, and
    that saves no settings but the current ones. *)
Definition touchesOnlyVault {A : Type} (m : Async A) : Prop :=
  forall s, exists t d,
    snd (m s) = with_data d (with_trace (trace s ++ t)%list s)
    /\ Forall (savesOnly (settings s)) t.

(** The settings of the last [saveData] call of a trace. *)
Definition lastSaved (t : list Effect) : option ListModifiedSettings :=
  fold_left (fun acc e => match e with ESaveData c => Some c | _ => acc end)
            t None.

(** The daily-notes folder exists, today's note does not, and the plugin
    may create it. *)
Definition noteToCreate (s : State) : Prop :=
  dailyFolder s = true
  /\ getAbstractFileByPath s (path (dailyNoteFile s)) = None
  /\ automaticallyCreateDailyNote (settings s) = true.

(** The text of the section the routine appends when it finds no
    heading. *)
Definition defaultSection (c : ListModifiedSettings) (items : list string)
  : string :=
  (NL ++ "# " ++ heading c ++ NL ++ JS.join NL items)%string.

(** The configured heading is the last one of the note. *)
Definition lastSectionExample : State :=
  vault (withTracked ["c.md"]) ["c"] ["intro"; "# Heading"; "old1"; "old2"].

(** Nothing stands between the configured heading and the next one. *)
Definition emptySectionExample : State :=
  vault (withTracked ["c.md"]) ["c"] ["# Heading"; "# Next"].

(** The current settings are the ones of the last [saveData] call. *)
Definition settingsSaved (s : State) : Prop :=
  lastSaved (trace s) = Some (settings s).

(** The vault of the examples without its daily-notes folder. *)
Definition noFolderExample : State :=
  mkState (withTracked ["c.md"]) 0 [plainFile "c"] [] "2024-01-02" false
          dailyFile EmptyString [] 0.

(** *** The values of the placeholders *)

(** What [getFormattedOutput] passes to [replace] for each placeholder. *)
Definition placeholderValue (ph : string) (file : TFile) : string :=
  if String.eqb ph "[[link]]" then mdLink file
  else if String.eqb ph "[[name]]" then basename file
  else if String.eqb ph "[[tags]]"
       then JS.join ", " (map (fun tag => String "\" tag) (allTags file))
  else ctime file.

(** A text without a dollar sign: as a replacement it is taken as it
    is. *)
Definition noDollar (s : string) : bool :=
  allChars (fun c => negb (Ascii.eqb c "$")) s.

(** *** The write an event triggers *)







(** *** Invocations that interleave

    [serialize] (package monkey-around) gives the function it wraps a
    queue of its own: a call through the wrapper starts when the calls
    made earlier through the same wrapper have settled. [main.ts] wraps
    four functions, each by a call of [serialize] of its own (lines 49,
    128, 137 and 154), so there are four queues.

    An invocation runs from one [await] to the next without giving up
    control; at an [await] other invocations may run. The bodies below are
    the methods of [Plugin] cut at their awaits: a call that is awaited
    takes its effect where it is made, and the invocation is resumed
    later. *)

Inductive Wrapper : Type := WCacheChange | WDelete | WRename | WUpdate.

(** What is left of an invocation: its promise has settled, or it is
    suspended and will run [seg] up to its next [await] when resumed, or
    it awaits a call of [updateTrackedFiles] it has made through the
    wrapper. A [seg] that throws rejects the promise. *)
#[warnings="-register-all"] Inductive Task : Type :=
| Settle (r : Completion unit)
| Resume (seg : Async Task)
| AwaitUpdate (doWrite : bool) (k : Completion unit -> Task).

(** [updateTrackedFiles] from line 175 on: the cache and [vault.read] at
    lines 175-179, then the branch that appends (awaits at lines 192 and
    203), the gate, or the loop, which has no [await]. *)
Definition updateRest (doWrite : bool) (dailyNote : option TFile)
  : Async Task :=
  match dailyNote with
  | None => throw "TypeError: Cannot read properties of undefined (reading 'path')"
  | Some note =>
      (text <- read note ;;
       ret (Resume
              (let content := JS.split LF text in
               let currentHeadings := headingsOf content in
               s <- get ;;
               if (isUndefined currentHeadings
                   || String.eqb (heading (settings s)) EmptyString)%bool
               then
                 displayNotice "Cannot find the designated heading in your file. Creating a default one for now..." ;;
                 s' <- get ;;
                 items <- renderTracked ;;
                 append note (NL ++ "# " ++ heading (settings s') ++ NL
                                ++ JS.join NL items) ;;
                 ret (Resume
                        (saveSettings ;;
                         ret (Resume (ret (Settle (Normal tt))))))
               else if (negb (writeIntervalInMs s =? 0) && negb doWrite)%bool
               then ret (Settle (Normal tt))
               else
                 replaceSections note
                   (match currentHeadings with Some hs => hs | None => [] end)
                   content ;;
                 ret (Settle (Normal tt)))))%async
  end.

(** [updateTrackedFiles] (lines 154-238), cut at the awaits of lines 155
    and 169 and handed over to [updateRest]. *)
Definition updateBody (doWrite : bool) : Async Task :=
  (saveSettings ;;
   ret (Resume
          (found <- tryCatch getDailyNote
                      (fun e =>
                         notice "Unable to load daily note. See console for details." ;;
                         consoleError e ;;
                         ret None) ;;
           match found with
           | Some f => updateRest doWrite (Some f)
           | None =>
               s <- get ;;
               if automaticallyCreateDailyNote (settings s) then
                 displayNotice "Creating daily note since it did not exist..." ;;
                 created <- createDailyNote ;;
                 ret (Resume
                        (modifyState (fun s => with_queued (S (queued s)) s) ;;
                         updateRest doWrite created))
               else
                 modifyState (fun s => with_queued (S (queued s)) s) ;;
                 updateRest doWrite None
           end)))%async.

(** [onCacheChange] from line 61 on, up to the awaited call of line 85.
    [trackedFiles0] is the content of the array the constant of line 51
    names, when this part starts. *)
Definition cacheChangeRest (shared : bool) (trackedFiles0 : list string)
  (file : TFile) (currentFileTags : list string) : Async Task :=
  (let p := path file in
   dailyNote <- getDailyNote ;;
   if isDailyNote file dailyNote then ret (Settle (Normal tt))
   else
     s <- get ;;
     let c := settings s in
     add <-
       (if JS.includes trackedFiles0 p then ret false
        else if cacheContainsIgnoredTag c currentFileTags then ret false
        else
          excluded <- pathIsExcluded p ;;
          if excluded then ret false
          else ret (negb (noteTitleContainsIgnoredText c (basename file)))) ;;
     let trackedFiles1 :=
       if add then JS.push trackedFiles0 p else trackedFiles0 in
     writeLocal shared trackedFiles1 ;;
     drop <-
       (if (JS.includes trackedFiles1 p
            && cacheContainsIgnoredTag c currentFileTags)%bool then ret true
        else
          excluded <- pathIsExcluded p ;;
          if excluded then ret true
          else ret (noteTitleContainsIgnoredText c (basename file))) ;;
     let trackedFiles2 :=
       if drop then JS.remove trackedFiles1 p else trackedFiles1 in
     writeLocal shared trackedFiles2 ;;
     ret (AwaitUpdate false Settle))%async.

(** [onCacheChange] (lines 49-87), cut at the awaited call of line 56.
    While the invocation is suspended there the array of line 51 is still
    the one the settings hold, so what it contains on resumption is what
    the settings contain then. *)
Definition cacheChangeBody (file : TFile) (currentFileTags : list string)
  : Async Task :=
  (s0 <- get ;;
   let currentDate := today s0 in
   if negb (String.eqb (lastTrackedDate (settings s0)) currentDate) then
     ret (AwaitUpdate false
            (fun r =>
               match r with
               | Throw e => Settle (Throw e)
               | Normal _ =>
                   Resume
                     (s <- get ;;
                      let trackedFiles0 := trackedFiles (settings s) in
                      setTrackedFiles [] ;;
                      modifyState (fun s =>
                        with_settings
                          (with_lastTrackedDate currentDate (settings s)) s) ;;
                      cacheChangeRest false trackedFiles0 file currentFileTags)
               end))
   else cacheChangeRest true (trackedFiles (settings s0)) file
          currentFileTags)%async.

(** [onVaultDelete] (lines 128-135), up to the awaited call of line 132. *)
Definition deleteBody (file : TAbstractFile) : Async Task :=
  match file with
  | AFile f =>
      (s <- get ;;
       if JS.includes (trackedFiles (settings s)) (path f) then
         setTrackedFiles (JS.remove (trackedFiles (settings s)) (path f)) ;;
         ret (AwaitUpdate false Settle)
       else ret (Settle (Normal tt)))%async
  | AFolder _ => ret (Settle (Normal tt))
  end.

(** [onVaultRename] (lines 137-152), cut at the await of line 144. *)
Definition renameBody (file : TAbstractFile) (oldPath : string)
  : Async Task :=
  match file with
  | AFile f =>
      (s <- get ;;
       if JS.includes (trackedFiles (settings s)) oldPath then
         setTrackedFiles
           (JS.push (JS.remove (trackedFiles (settings s)) oldPath) (path f)) ;;
         saveSettings ;;
         ret (Resume
                (s' <- get ;;
                 if negb (JS.strIncludes (outputFormat (settings s'))
                            "[[link]]")
                 then ret (AwaitUpdate false Settle)
                 else ret (Settle (Normal tt))))
       else ret (Settle (Normal tt)))%async
  | AFolder _ => ret (Settle (Normal tt))
  end.

(** [onCacheChange] from line 61 on, as one run: what [cacheChangeRest]
    is cut from. *)
Definition cacheChangeTail (shared : bool) (trackedFiles0 : list string)
  (file : TFile) (currentFileTags : list string) : Async unit :=
  (let p := path file in
   dailyNote <- getDailyNote ;;
   if isDailyNote file dailyNote then ret tt
   else
     s <- get ;;
     let c := settings s in
     add <-
       (if JS.includes trackedFiles0 p then ret false
        else if cacheContainsIgnoredTag c currentFileTags then ret false
        else
          excluded <- pathIsExcluded p ;;
          if excluded then ret false
          else ret (negb (noteTitleContainsIgnoredText c (basename file)))) ;;
     let trackedFiles1 :=
       if add then JS.push trackedFiles0 p else trackedFiles0 in
     writeLocal shared trackedFiles1 ;;
     drop <-
       (if (JS.includes trackedFiles1 p
            && cacheContainsIgnoredTag c currentFileTags)%bool then ret true
        else
          excluded <- pathIsExcluded p ;;
          if excluded then ret true
          else ret (noteTitleContainsIgnoredText c (basename file))) ;;
     let trackedFiles2 :=
       if drop then JS.remove trackedFiles1 p else trackedFiles1 in
     writeLocal shared trackedFiles2 ;;
     updateTrackedFiles false)%async.

(** A body run with nothing else in between: every [await] is resumed at
    once, and an awaited call of [updateTrackedFiles] is run the same
    way. [fuel] bounds the number of resumptions. *)
Fixpoint runAlone (fuel : nat) (t : Task) (s : State)
  : option (Completion unit * State) :=
  match fuel with
  | O => None
  | S n =>
      match t with
      | Settle r => Some (r, s)
      | Resume seg =>
          match seg s with
          | (Normal t', s') => runAlone n t' s'
          | (Throw e, s') => Some (Throw e, s')
          end
      | AwaitUpdate doWrite k =>
          match runAlone n (Resume (updateBody doWrite)) s with
          | Some (r, s') => runAlone n (k r) s'
          | None => None
          end
      end
  end.

(** What the host calls: the three events the plugin listens to, and the
    tick of the interval of [onload]. *)
Inductive Event : Type :=
| CacheChanged (file : TFile) (currentFileTags : list string)
| Deleted (file : TAbstractFile)
| Renamed (file : TAbstractFile) (oldPath : string)
| Tick.

Definition wrapperOf (ev : Event) : Wrapper :=
  match ev with
  | CacheChanged _ _ => WCacheChange
  | Deleted _ => WDelete
  | Renamed _ _ => WRename
  | Tick => WUpdate
  end.

Definition bodyOf (ev : Event) : Async Task :=
  match ev with
  | CacheChanged file currentFileTags => cacheChangeBody file currentFileTags
  | Deleted file => deleteBody file
  | Renamed file oldPath => renameBody file oldPath
  | Tick => updateBody true
  end.

(** A call made through a wrapper: [external] says that the host made it
    (an event or a tick) and not a handler of the plugin; [started] that
    its body has begun to run; [awaited] is the index of the call of
    [updateTrackedFiles] it is waiting for. *)
Record Invocation : Type := mkInvocation {
  wrapper : Wrapper;
  external : bool;
  started : bool;
  task : Task;
  awaited : option nat
}.

(** The calls made so far, in the order they were made, and the plugin
    with the host state. *)
Record Config : Type := mkConfig {
  pool : list Invocation;
  plugin : State
}.

Definition wrapper_eqb (a b : Wrapper) : bool :=
  match a, b with
  | WCacheChange, WCacheChange | WDelete, WDelete
  | WRename, WRename | WUpdate, WUpdate => true
  | _, _ => false
  end.

Definition isSettled (inv : Invocation) : bool :=
  match task inv with Settle _ => true | _ => false end.

(** A call not started yet: its body is the first thing to resume. *)
Definition newCall (w : Wrapper) (ext : bool) (body : Async Task)
  : Invocation :=
  mkInvocation w ext false (Resume body) None.

(** The queue of [w] is free for a call: the calls in [earlier] made
    through [w] have settled. *)
Definition queueFree (w : Wrapper) (earlier : list Invocation) : bool :=
  forallb (fun inv => negb (wrapper_eqb (wrapper inv) w) || isSettled inv)
          earlier.

Fixpoint setNth {A : Type} (i : nat) (x : A) (l : list A) : list A :=
  match l, i with
  | [], _ => []
  | _ :: r, O => x :: r
  | y :: r, S k => y :: setNth k x r
  end.

(** The calls of [updateTrackedFiles] that were made and not awaited
    (line 172) join the queue of that wrapper. *)
Definition flushQueued (c : Config) : Config :=
  mkConfig
    (pool c ++ repeat (newCall WUpdate false (updateBody false))
                      (queued (plugin c)))
    (with_queued 0 (plugin c)).

(** Invocation [i] has run up to an [await] or to its end: [t] is what is
    left of it and [s] the state it leaves. An awaited call of
    [updateTrackedFiles] is made at that point. *)
Definition suspend (i : nat) (inv : Invocation) (t : Task) (s : State)
  (c : Config) : Config :=
  match t with
  | AwaitUpdate doWrite _ =>
      flushQueued
        (mkConfig
           (setNth i (mkInvocation (wrapper inv) (external inv) true t
                        (Some (List.length (pool c))))
              (pool c)
            ++ [newCall WUpdate false (updateBody doWrite)])
           s)
  | _ =>
      flushQueued
        (mkConfig
           (setNth i (mkInvocation (wrapper inv) (external inv) true t None)
              (pool c))
           s)
  end.

(** What the event loop does next: the host delivers an event, or control
    goes to the invocation of index [i]. *)
Inductive Action : Type :=
| Arrive (ev : Event)
| Run (i : nat).

(** One action, when it is possible. A call that has not started can run
    only when the queue of its wrapper is free; a suspended invocation can
    always be resumed; one that awaits [updateTrackedFiles] goes on once
    that call has settled. *)
Definition step (a : Action) (c : Config) : option Config :=
  match a with
  | Arrive ev =>
      Some (mkConfig (pool c ++ [newCall (wrapperOf ev) true (bodyOf ev)])
                     (plugin c))
  | Run i =>
      match nth_error (pool c) i with
      | None => None
      | Some inv =>
          match task inv with
          | Settle _ => None
          | Resume seg =>
              if (started inv || queueFree (wrapper inv) (firstn i (pool c)))%bool
              then
                match seg (plugin c) with
                | (Normal t, s) => Some (suspend i inv t s c)
                | (Throw e, s) => Some (suspend i inv (Settle (Throw e)) s c)
                end
              else None
          | AwaitUpdate _ k =>
              match awaited inv with
              | None => None
              | Some n =>
                  match nth_error (pool c) n with
                  | Some callee =>
                      match task callee with
                      | Settle r =>
                          Some (mkConfig
                                  (setNth i
                                     (mkInvocation (wrapper inv) (external inv)
                                        (started inv) (k r) None)
                                     (pool c))
                                  (plugin c))
                      | _ => None
                      end
                  | None => None
                  end
              end
          end
      end
  end.

(** A schedule is a list of actions; it is run from left to right and
    stops at the first action that is not possible. *)
Fixpoint schedule (acts : list Action) (c : Config) : option Config :=
  match acts with
  | [] => Some c
  | a :: r =>
      match step a c with
      | Some c' => schedule r c'
      | None => None
      end
  end.

(** No call has been made yet. *)
Definition idle (s : State) : Config := mkConfig [] s.

(** Of two calls made through the same wrapper, the later one has not
    started unless the earlier one has settled. *)
Definition serialPerWrapper (c : Config) : Prop :=
  forall i j a b,
    (i < j)%nat ->
    nth_error (pool c) i = Some a ->
    nth_error (pool c) j = Some b ->
    wrapper a = wrapper b ->
    started b = true ->
    isSettled a = true.

(** Of two calls the host made, through whichever wrappers, the later one
    has not started unless the earlier one has settled. *)
Definition serialAcrossWrappers (c : Config) : Prop :=
  forall i j a b,
    (i < j)%nat ->
    nth_error (pool c) i = Some a ->
    nth_error (pool c) j = Some b ->
    external a = true ->
    external b = true ->
    started b = true ->
    isSettled a = true.

(** The rollover example once [a.md] has been renamed to [d.md] in the
    vault: the set still lists [a.md]. *)
Definition renamedVault : State :=
  vault (mkSettings 0 "Heading" "- [[name]]" EmptyString EmptyString
                    EmptyString false ["a.md"; "b.md"] "2024-01-01")
        ["b"; "c"; "d"] ["# Heading"; "old"].

(** Summary of a pool: for each call its wrapper, whether the host made
    it, whether it has started and whether it has settled. *)
Definition callStates (c : Config)
  : list (Wrapper * bool * bool * bool) :=
  map (fun inv => (wrapper inv, external inv, started inv, isSettled inv))
      (pool c).

(** A cache change of [c.md] on the new day, and the rename of [a.md] to
    [d.md] delivered while the update routine called at the rollover
    (line 56) is suspended at its first [await] (line 155): the rename
    handler runs up to its own [await] (line 144). *)
Definition renameDuringRollover : list Action :=
  [Arrive (CacheChanged (plainFile "c") []); Run 0; Run 1;
   Arrive (Renamed (AFile (plainFile "d")) "a.md"); Run 2].

(** The same schedule run on until every call has settled. *)
Definition renameDuringRolloverToTheEnd : list Action :=
  renameDuringRollover
  ++ [Run 2; Run 1; Run 1; Run 0; Run 0; Run 3; Run 3; Run 3; Run 2;
      Run 4; Run 4; Run 4; Run 0].

(** Two cache changes delivered one after the other; the second is asked
    to start while the first awaits the update routine. *)
Definition secondChangeTooEarly : list Action :=
  [Arrive (CacheChanged (plainFile "c") []);
   Arrive (CacheChanged (plainFile "d") []); Run 0; Run 1].

(** *** The cache of headings, given apart from the note

    [getFileCache] answers from the cache the host keeps of the note, and
    the host brings that cache up to date some time after a write.
    [updateTrackedFiles] takes the cache to be in step with the text it
    reads; here the headings the cache hands over are an argument. *)

(** The second half of the routine (lines 175-237) when the cache hands
    over [cached] for the note. *)
Definition writeNoteCached (cached : option (list HeadingCache))
  (doWrite : bool) (dailyNote : option TFile) : Async unit :=
  match dailyNote with
  | None => throw "TypeError: Cannot read properties of undefined (reading 'path')"
  | Some note =>
      (text <- read note ;;
       let content := JS.split LF text in
       let currentHeadings := cached in
       s <- get ;;
       if (isUndefined currentHeadings
           || String.eqb (heading (settings s)) EmptyString)%bool
       then appendDefaultSection note
       else if (negb (writeIntervalInMs s =? 0) && negb doWrite)%bool then ret tt
       else
         replaceSections note
           (match currentHeadings with Some hs => hs | None => [] end) content)%async
  end.

(** [updateTrackedFiles] when the cache hands over [cached]. *)
Definition updateTrackedFilesCached (cached : option (list HeadingCache))
  (doWrite : bool) : Async unit :=
  bind resolveNote (writeNoteCached cached doWrite).

(** Two files tracked, and a section of two lines before the next
    heading. *)
Definition staleExample : State :=
  vault (mkSettings 0 "Heading" "- [[name]]" EmptyString EmptyString
                    EmptyString false ["a.md"; "b.md"] "2024-01-02")
        ["a"; "b"] ["# Heading"; "old1"; "old2"; "# Next"].

(** A note without any heading, and one file tracked. *)
Definition firstRunExample : State :=
  vault (withTracked ["c.md"]) ["c"] ["intro"].

(** *** The line the claim describes

    The template read from left to right: at the first occurrence of each
    placeholder of [todo] the value [val] gives it is put in its place,
    and the placeholder is looked for no more; everything else, a later
    occurrence of a placeholder with it, is copied as it is. [skip] counts
    the characters of an occurrence that are still to be passed over. *)
Fixpoint substituteFirsts (val : string -> string) (todo : list string)
  (skip : nat) (s : string) : string :=
  match s with
  | EmptyString => EmptyString
  | String c r =>
      match skip with
      | S k => substituteFirsts val todo k r
      | O =>
          match find (fun ph => String.prefix ph s) todo with
          | Some ph =>
              (val ph
               ++ substituteFirsts val (JS.remove todo ph)
                    (String.length ph - 1) r)%string
          | None => String c (substituteFirsts val todo O r)
          end
      end
  end.

(** The patterns of [todo] and the pattern [q] are apart: none is empty,
    none occurs in another, and no occurrence of one can run into an
    occurrence of another. *)
Definition apart (q : string) (todo : list string) : Prop :=
  q <> EmptyString
  /\ forall p, In p todo ->
       p <> EmptyString /\ p <> q
       /\ clearBefore q p = true /\ clearAfter q p = true
       /\ occurrences q p = 0%nat
       /\ clearAfter p q = true /\ occurrences p q = 0%nat.

(** The texts the chain of [getFormattedOutput] goes through. *)
Definition afterLink (format : string) (file : TFile) : string :=
  JS.replace "[[link]]" (mdLink file) format.

Definition afterName (format : string) (file : TFile) : string :=
  JS.replace "[[name]]" (basename file) (afterLink format file).

Definition afterTags (format : string) (file : TFile) : string :=
  JS.replace "[[tags]]"
    (JS.join ", " (map (fun tag => String "\" tag) (allTags file)))
    (afterName format file).

(** The substitutions do not disturb one another: the value of a
    placeholder of the template holds no dollar sign, and when the turn of
    a placeholder comes it occurs in the line as often as in the
    template, the substitutions made before it having brought none in. *)
Definition undisturbed (format : string) (file : TFile) : Prop :=
  (forall ph, In ph placeholders -> occurrences ph format <> 0%nat ->
              noDollar (placeholderValue ph file) = true)
  /\ occurrences "[[name]]" (afterLink format file)
     = occurrences "[[name]]" format
  /\ occurrences "[[tags]]" (afterName format file)
     = occurrences "[[tags]]" format
  /\ occurrences "[[ctime]]" (afterTags format file)
     = occurrences "[[ctime]]" format.

(** A note called [name], whose link is the placeholder of the name, and
    a template that asks for the link and for the name. *)
Definition nameExample : State :=
  vault (mkSettings 0 "Heading" "- [[link]] / [[name]]" EmptyString
                    EmptyString EmptyString false ["name.md"] "2024-01-02")
        ["name"] ["# Heading"].

(** A note with two tags, and a template that asks for everything and for
    the link twice. *)
Definition taggedNote : TFile :=
  mkTFile "Note.md" "Note" "/" "2023-05-01" ["#a"; "#b"] "[[Note]]".

Definition fullTemplate : string :=
  "- [[link]] ([[name]], [[tags]], [[ctime]]) see [[link]]".

Definition fullExample : State :=
  let v := vault (mkSettings 0 "Heading" fullTemplate EmptyString EmptyString
                             EmptyString false ["Note.md"] "2024-01-02")
                 [] ["# Heading"] in
  with_files (taggedNote :: files v) v.

(** *** Characters above the ASCII range *)

(** The no-break space U+00A0, the letter E with acute accent in capital
    (U+00C9) and in small (U+00E9), as one-character strings. *)
Definition nbsp : string := String "160"%char EmptyString.
Definition capitalEacute : string := String "201"%char EmptyString.
Definition smallEacute : string := String "233"%char EmptyString.

(* ================================================================== *)
(** ** The update routine on the examples *)
(* ================================================================== *)

(** C1. On the note [# Heading / old1 / old2 / # Next / x] with [c.md]
    tracked and rendered as [- c], the write removes one line less than
    the region holds: [endPos] is the last line of the region and
    [endPos - startPos] is used as the number of lines to delete, so
    [old2] stays and the result is not the four lines
    [# Heading / - c / # Next / x]. *)
Theorem region_replacement_leaves_last_line :
  fst (updateTrackedFiles true regionExample) = Normal tt
  /\ noteLines (snd (updateTrackedFiles true regionExample))
     = Some ["# Heading"; "- c"; "old2"; "# Next"; "x"]
  /\ noteLines (snd (updateTrackedFiles true regionExample))
     <> Some ["# Heading"; "- c"; "# Next"; "x"].
Proof.
  repeat split; try reflexivity.
  vm_compute. discriminate.
Qed.

(** C3. With a write interval configured and the heading present, the
    cache-change event of a new day writes nothing: the update called at
    the rollover is not a tick and returns at the gate. The two tracked
    paths are then dropped and the date stored, the note unchanged. *)
Theorem rollover_with_interval_writes_nothing :
  let s' := snd (onCacheChange (plainFile "c") [] rolloverExample) in
  fst (onCacheChange (plainFile "c") [] rolloverExample) = Normal tt
  /\ writes s' = []
  /\ noteLines s' = Some ["# Heading"; "old"]
  /\ trackedFiles (settings s') = []
  /\ lastTrackedDate (settings s') = "2024-01-02".
Proof.
  vm_compute. repeat split.
Qed.

(** C4. Renaming the tracked [a.md] to [b.md] while [b.md] is tracked
    leaves [b.md] twice in the tracked set: the rename handler pushes the
    new path without the membership test the cache-change handler makes. *)
Theorem rename_onto_tracked_path_duplicates :
  let s' := snd (onVaultRename (AFile (plainFile "b")) "a.md" renameExample) in
  NoDup (trackedFiles (settings renameExample))
  /\ trackedFiles (settings s') = ["b.md"; "b.md"]
  /\ ~ NoDup (trackedFiles (settings s')).
Proof.
  cbv zeta. split; [| split].
  - vm_compute. repeat constructor; simpl; intuition discriminate.
  - reflexivity.
  - vm_compute. intro H. inversion H as [| x l Hin _]; subst.
    apply Hin. left. reflexivity.
Qed.

(* ================================================================== *)
(** ** No daily note and no automatic creation *)
(* ================================================================== *)

(** In that state the routine saves the settings, queues one more call of
    itself and then fails on the note it does not have. Nothing else
    happens: no notice, no write. *)
Lemma updateTrackedFiles_noteMissing (doWrite : bool) (s : State) :
  noteMissing s ->
  updateTrackedFiles doWrite s
  = (Throw "TypeError: Cannot read properties of undefined (reading 'path')",
     with_queued (S (queued s))
       (with_trace (trace s ++ [ESaveData (settings s)])%list s)).
Proof.
  intros (Hfolder & Hnote & Hauto).
  unfold updateTrackedFiles, saveSettings, tryCatch, getDailyNote, bind, get,
    emit, modifyState, ret, throw; simpl.
  rewrite Hfolder. unfold getAbstractFileByPath in *; simpl.
  rewrite Hnote; simpl. rewrite Hauto; simpl. reflexivity.
Qed.

Lemma stuck_step (s : State) :
  stuck s -> stuck (snd (updateTrackedFiles false (with_queued 0 s))).
Proof.
  intros (Hm & Hq & Hw & Hn).
  assert (Hm' : noteMissing (with_queued 0 s)) by exact Hm.
  rewrite (updateTrackedFiles_noteMissing false _ Hm'); simpl.
  unfold stuck, noteMissing, writes, notices, getAbstractFileByPath in *;
    simpl.
  rewrite !filter_app; simpl.
  unfold writes, notices in *. rewrite Hw, Hn. repeat split; apply Hm.
Qed.

Lemma stuck_drain (n : nat) : forall s, stuck s -> stuck (drain n s).
Proof.
  induction n as [| n IH]; intros s Hs; simpl; [exact Hs |].
  destruct Hs as (Hm & Hq & Hw & Hn). rewrite Hq.
  apply IH. apply stuck_step. repeat split; try assumption; apply Hm.
Qed.

(** C7. With no daily note and automatic creation off, a call of the
    routine shows no notice and logs nothing, queues another call of
    itself and ends on a null dereference; the queued call does the same,
    so however many queued calls are run one is still waiting. The tracked
    set is untouched and nothing is written. *)
Theorem missing_note_requeues_without_notice :
  let s' := snd (updateTrackedFiles true missingNoteExample) in
  fst (updateTrackedFiles true missingNoteExample)
  = Throw "TypeError: Cannot read properties of undefined (reading 'path')"
  /\ notices s' = []
  /\ writes s' = []
  /\ trackedFiles (settings s') = ["c.md"]
  /\ queued s' = 1%nat
  /\ forall n, queued (drain n s') = 1%nat /\ notices (drain n s') = [].
Proof.
  cbv zeta.
  assert (Hs : stuck (snd (updateTrackedFiles true missingNoteExample))).
  { vm_compute. repeat split. }
  repeat split; try reflexivity.
  - apply (stuck_drain n _ Hs).
  - apply (stuck_drain n _ Hs).
Qed.

(* ================================================================== *)
(** ** Rendering reads the state and leaves it alone *)
(* ================================================================== *)

Lemma getFormattedOutput_formatted (p : string) (s : State) :
  getFormattedOutput p s = (formatted s p, s).
Proof.
  unfold getFormattedOutput, formatted, getDailyNote, bind, get, ret, throw.
  destruct (dailyFolder s); [| reflexivity].
  destruct (getAbstractFileByPath s (path (dailyNoteFile s))); [| reflexivity].
  destruct (getAbstractFileByPath s p); reflexivity.
Qed.

Lemma mapM_formattedAll (ps : list string) (s : State) :
  mapM getFormattedOutput ps s = (formattedAll s ps, s).
Proof.
  induction ps as [| p r IH]; simpl; [reflexivity |].
  unfold bind. rewrite getFormattedOutput_formatted.
  destruct (formatted s p); [| reflexivity].
  rewrite IH. destruct (formattedAll s r); reflexivity.
Qed.

Lemma renderTracked_rendered (s : State) :
  renderTracked s = (rendered s, s).
Proof.
  unfold renderTracked, bind, get. apply mapM_formattedAll.
Qed.

Lemma formattedAll_sameVault (s s' : State) (ps : list string) :
  sameVault s s' -> formattedAll s ps = formattedAll s' ps.
Proof.
  intros (Hc & Hf & Hd & Hn).
  induction ps as [| p r IH]; simpl; [reflexivity |].
  rewrite IH. unfold formatted, getAbstractFileByPath.
  rewrite Hc, Hf, Hd, Hn. reflexivity.
Qed.

Lemma rendered_sameVault (s s' : State) :
  sameVault s s' -> rendered s = rendered s'.
Proof.
  intros H. unfold rendered. rewrite (formattedAll_sameVault s s' _ H).
  destruct H as (Hc & _). rewrite Hc. reflexivity.
Qed.

(** A tracked path that is not in the vault stops the rendering. *)
Lemma formattedAll_missing (s : State) (ps : list string) (p : string) :
  In p ps -> getAbstractFileByPath s p = None ->
  exists e, formattedAll s ps = Throw e.
Proof.
  intros Hin Hnone.
  induction ps as [| q r IH]; simpl in *; [contradiction |].
  destruct (formatted s q) as [y | e] eqn:Hq; [| eauto].
  destruct Hin as [-> | Hin].
  - unfold formatted in Hq. rewrite Hnone in Hq.
    destruct (dailyFolder s); [| discriminate].
    destruct (getAbstractFileByPath s (path (dailyNoteFile s))); discriminate.
  - destruct (IH Hin) as [e He]. rewrite He. eauto.
Qed.

(* ================================================================== *)
(** ** The routine once the daily note is in hand *)
(* ================================================================== *)

Lemma updateTrackedFiles_resolved (doWrite : bool) (s : State)
  (note : TFile) (text : string) :
  noteResolved s note text ->
  updateTrackedFiles doWrite s
  = let content := JS.split LF text in
    if (isUndefined (headingsOf content)
        || String.eqb (heading (settings s)) EmptyString)%bool
    then appendDefaultSection note (saved s)
    else if (negb (writeIntervalInMs s =? 0) && negb doWrite)%bool
         then (Normal tt, saved s)
         else replaceSections note
                (match headingsOf content with Some hs => hs | None => [] end)
                content (saved s).
Proof.
  intros (Hfolder & Hnote & Htext).
  unfold updateTrackedFiles, saveSettings, tryCatch, getDailyNote, read, bind,
    get, emit, modifyState, ret; simpl.
  rewrite Hfolder. unfold getAbstractFileByPath in *; simpl.
  rewrite Hnote; simpl. rewrite Htext; simpl.
  destruct (isUndefined (headingsOf (JS.split LF text))
            || String.eqb (heading (settings s)) EmptyString)%bool;
    [reflexivity |].
  destruct (negb (writeIntervalInMs s =? 0) && negb doWrite)%bool;
    reflexivity.
Qed.

Lemma replaceSections_no_match (note : TFile) (hs : list HeadingCache) :
  forall content s,
    existsb (headingIs (heading (settings s))) hs = false ->
    replaceSections note hs content s = (Normal tt, s).
Proof.
  induction hs as [| h rest IH]; intros content s Hno; simpl in *.
  - reflexivity.
  - apply orb_false_iff in Hno as [Hh Hrest].
    unfold bind at 1, get at 1. unfold headingIs in Hh. rewrite Hh.
    apply IH, Hrest.
Qed.

Lemma replaceSections_match (note : TFile) (h : HeadingCache)
  (rest : list HeadingCache) (content items : list string) (s : State) :
  headingIs (heading (settings s)) h = true ->
  rendered s = Normal items ->
  replaceSections note (h :: rest) content s
  = replaceSections note rest (spliced h rest items content)
      (written note (spliced h rest items content) s).
Proof.
  intros Hh Hr. unfold headingIs in Hh.
  cbn [replaceSections]. unfold bind at 1, get at 1. rewrite Hh.
  unfold spliced.
  destruct rest as [| next rest'];
    unfold bind, ret, modify, emit, modifyState;
    rewrite renderTracked_rendered, Hr; reflexivity.
Qed.

Lemma replaceSections_throw (note : TFile) (hs : list HeadingCache) (e : string) :
  forall content s,
    rendered s = Throw e ->
    replaceSections note hs content s
    = (if existsb (headingIs (heading (settings s))) hs
       then Throw e else Normal tt, s).
Proof.
  induction hs as [| h rest IH]; intros content s Hr; simpl.
  - reflexivity.
  - unfold bind at 1, get at 1. unfold headingIs at 1.
    destruct (String.eqb (Cache.heading h) (heading (settings s))); simpl.
    + destruct rest as [| next rest'];
        unfold bind; rewrite renderTracked_rendered, Hr; reflexivity.
    + apply IH, Hr.
Qed.

(* ================================================================== *)
(** ** A tracked path that is no longer in the vault *)
(* ================================================================== *)

Lemma appendDefaultSection_throw (note : TFile) (s : State) (e : string) :
  rendered s = Throw e ->
  appendDefaultSection note s
  = (Throw e,
     with_trace
       (trace s ++ [ENotice "[Obsidian List Modified] Cannot find the designated heading in your file. Creating a default one for now..."])%list s).
Proof.
  intros Hr.
  unfold appendDefaultSection, displayNotice, notice, emit, modifyState, bind,
    get.
  rewrite renderTracked_rendered.
  rewrite (rendered_sameVault _ s), Hr; [reflexivity |].
  repeat split.
Qed.

(** C8 (as the code has it). When a tracked path is no longer in the
    vault, rendering it is a null dereference and the routine has nothing
    that catches it: whenever the routine gets to render the list it ends
    with the exception, the note keeps its text, no write is asked of the
    vault and the path is still in the tracked set. *)
Theorem missing_file_stops_the_write (doWrite : bool) (s : State)
  (note : TFile) (text p : string) :
  noteResolved s note text ->
  In p (trackedFiles (settings s)) ->
  getAbstractFileByPath s p = None ->
  data (snd (updateTrackedFiles doWrite s)) = data s
  /\ writes (snd (updateTrackedFiles doWrite s)) = writes s
  /\ settings (snd (updateTrackedFiles doWrite s)) = settings s
  /\ (rendersList doWrite s text = true ->
      exists e, fst (updateTrackedFiles doWrite s) = Throw e)
  /\ (rendersList doWrite s text = false ->
      fst (updateTrackedFiles doWrite s) = Normal tt).
Proof.
  intros Hres Hin Hnone.
  destruct (formattedAll_missing s _ p Hin Hnone) as [e He].
  assert (Hr : rendered (saved s) = Throw e).
  { rewrite <- (rendered_sameVault s (saved s)); [exact He | repeat split]. }
  rewrite (updateTrackedFiles_resolved doWrite s note text Hres).
  unfold rendersList. cbv zeta.
  destruct (isUndefined (headingsOf (JS.split LF text))
            || String.eqb (heading (settings s)) EmptyString)%bool.
  - rewrite (appendDefaultSection_throw note _ e Hr). unfold writes; simpl.
    rewrite !filter_app; simpl. rewrite !app_nil_r.
    repeat split; eauto; discriminate.
  - destruct (negb (writeIntervalInMs s =? 0) && negb doWrite)%bool.
    + unfold writes; simpl. rewrite filter_app; simpl. rewrite app_nil_r.
      repeat split; discriminate.
    + rewrite (replaceSections_throw note _ e _ _ Hr).
      unfold writes; simpl. rewrite filter_app; simpl. rewrite app_nil_r.
      repeat split.
      * intros ->. eauto.
      * intros ->. reflexivity.
Qed.

(** C8, the claim refuted: with [gone.md] tracked and absent, the write
    does not complete with the remaining entry: the routine throws, the
    note is as it was, and no notice names the missing file. *)
Lemma missing_file_is_not_skipped :
  ~ (fst (updateTrackedFiles true goneExample) = Normal tt
     /\ noteLines (snd (updateTrackedFiles true goneExample))
        = Some ["# Heading"; "- c"]).
Proof.
  vm_compute. intros [H _]. discriminate H.
Qed.

Lemma missing_file_stops_the_write_witness :
  data (snd (updateTrackedFiles true goneExample)) = data goneExample
  /\ writes (snd (updateTrackedFiles true goneExample)) = writes goneExample
  /\ settings (snd (updateTrackedFiles true goneExample))
     = settings goneExample
  /\ (rendersList true goneExample (JS.join NL ["# Heading"; "old"]) = true ->
      exists e, fst (updateTrackedFiles true goneExample) = Throw e)
  /\ (rendersList true goneExample (JS.join NL ["# Heading"; "old"]) = false ->
      fst (updateTrackedFiles true goneExample) = Normal tt).
Proof.
  apply (missing_file_stops_the_write true goneExample dailyFile
           (JS.join NL ["# Heading"; "old"]) "gone.md").
  - vm_compute. repeat split.
  - simpl. left. reflexivity.
  - reflexivity.
Defined.

(* ================================================================== *)
(** ** The gate on the write interval *)
(* ================================================================== *)

Lemma updateTrackedFiles_halves (doWrite : bool) (s : State) :
  updateTrackedFiles doWrite s
  = bind resolveNote (writeNote doWrite) s.
Proof.
  unfold updateTrackedFiles, resolveNote, writeNote, bind.
  destruct (saveSettings s) as [[[] | e] s1]; [| reflexivity].
  destruct (tryCatch getDailyNote _ s1) as [[[f |] | e] s2]; reflexivity.
Qed.

Lemma resolveNote_writeIntervalInMs (s : State) :
  writeIntervalInMs (snd (resolveNote s)) = writeIntervalInMs s.
Proof.
  unfold resolveNote, saveSettings, tryCatch, getDailyNote, createDailyNote,
    displayNotice, notice, consoleError, emit, modifyState, bind, get, ret;
    simpl.
  destruct (dailyFolder s); simpl.
  - destruct (getAbstractFileByPath _ _); simpl; [reflexivity |].
    destruct (automaticallyCreateDailyNote (settings s)); reflexivity.
  - destruct (automaticallyCreateDailyNote (settings s)); reflexivity.
Qed.

Lemma writeNote_without_interval (dailyNote : option TFile) (s : State) :
  writeIntervalInMs s = 0 ->
  writeNote false dailyNote s = writeNote true dailyNote s.
Proof.
  intros Hz. destruct dailyNote as [note |]; [| reflexivity].
  unfold writeNote, bind, read, get.
  destruct (lookup (path note) (data s)); [| reflexivity].
  rewrite Hz. reflexivity.
Qed.

(** With no write interval the routine makes no difference between a tick
    and any other call. *)
Lemma updateTrackedFiles_without_interval (s : State) :
  writeIntervalInMs s = 0 ->
  updateTrackedFiles false s = updateTrackedFiles true s.
Proof.
  intros Hz. rewrite !updateTrackedFiles_halves. unfold bind.
  pose proof (resolveNote_writeIntervalInMs s) as Hk.
  destruct (resolveNote s) as [[dn | e] s1]; [| reflexivity].
  simpl in Hk. apply writeNote_without_interval. congruence.
Qed.


Lemma onVaultRename_tracked (f : TFile) (oldPath : string) (s : State) :
  JS.includes (trackedFiles (settings s)) oldPath = true ->
  onVaultRename (AFile f) oldPath s
  = if JS.strIncludes (outputFormat (settings s)) "[[link]]"
    then (Normal tt, saved (renamed oldPath (path f) s))
    else updateTrackedFiles false (saved (renamed oldPath (path f) s)).
Proof.
  intros Hin.
  unfold onVaultRename, bind, get. rewrite Hin.
  unfold setTrackedFiles, saveSettings, modifyState, emit, bind, get; simpl.
  destruct (JS.strIncludes (outputFormat (settings s)) "[[link]]");
    reflexivity.
Qed.

Lemma onVaultDelete_tracked (f : TFile) (s : State) :
  JS.includes (trackedFiles (settings s)) (path f) = true ->
  onVaultDelete (AFile f) s = updateTrackedFiles false (deleted (path f) s).
Proof.
  intros Hin. unfold onVaultDelete, bind, get. rewrite Hin. reflexivity.
Qed.

(** A cache change of a file that is not tracked yet, not the daily note
    and not excluded by any rule, on the day already stored. *)
Lemma onCacheChange_new_file (file : TFile) (fileTags : list string)
  (s : State) :
  lastTrackedDate (settings s) = today s ->
  dailyFolder s = true ->
  isDailyNote file (getAbstractFileByPath s (path (dailyNoteFile s))) = false ->
  JS.includes (trackedFiles (settings s)) (path file) = false ->
  cacheContainsIgnoredTag (settings s) fileTags = false ->
  excludedFolders (settings s) = EmptyString ->
  noteTitleContainsIgnoredText (settings s) (basename file) = false ->
  onCacheChange file fileTags s
  = updateTrackedFiles false (added (path file) s).
Proof.
  intros Hdate Hfolder Hdaily Hnew Htag Hex Htitle.
  unfold onCacheChange, writeLocal, setTrackedFiles, pathIsExcluded,
    getDailyNote, modifyState, bind, get, ret.
  rewrite Hdate, String.eqb_refl. cbn -[updateTrackedFiles].
  rewrite Hfolder, Hdaily, Hnew, Htag, Hex. cbn -[updateTrackedFiles].
  rewrite Htitle. cbn -[updateTrackedFiles].
  rewrite andb_false_r. cbn -[updateTrackedFiles].
  rewrite Hex. reflexivity.
Qed.

(* ================================================================== *)
(** ** Lines: split, join and splice *)
(* ================================================================== *)

Lemma split_not_nil (s : string) : JS.split LF s <> [].
Proof.
  destruct s as [| c r]; simpl; [discriminate |].
  destruct (Ascii.eqb c LF); [discriminate |].
  destruct (JS.split LF r); discriminate.
Qed.

Lemma split_noLF (s : string) : forallb noLF (JS.split LF s) = true.
Proof.
  induction s as [| c r IH]; simpl; [reflexivity |].
  destruct (Ascii.eqb c LF) eqn:Hc; simpl; [exact IH |].
  destruct (JS.split LF r) as [| l ls]; simpl in *.
  - rewrite Hc. reflexivity.
  - rewrite Hc. exact IH.
Qed.

Lemma split_line (a : string) : noLF a = true -> JS.split LF a = [a].
Proof.
  induction a as [| c r IH]; simpl; [reflexivity |].
  intros H. apply andb_true_iff in H as [Hc Hr].
  apply negb_true_iff in Hc. rewrite Hc, (IH Hr). reflexivity.
Qed.

Lemma split_line_LF (a t : string) :
  noLF a = true ->
  JS.split LF (a ++ String LF t) = a :: JS.split LF t.
Proof.
  induction a as [| c r IH]; simpl; intros H.
  - reflexivity.
  - apply andb_true_iff in H as [Hc Hr].
    apply negb_true_iff in Hc. rewrite Hc, (IH Hr). reflexivity.
Qed.

(** Joining lines and splitting the text again gives the lines back. *)
Lemma split_join (ls : list string) :
  ls <> [] -> forallb noLF ls = true ->
  JS.split LF (JS.join NL ls) = ls.
Proof.
  induction ls as [| a r IH]; intros Hne Hall; [contradiction |].
  simpl in Hall. apply andb_true_iff in Hall as [Ha Hr].
  destruct r as [| b r'].
  - simpl. apply split_line, Ha.
  - change (JS.join NL (a :: b :: r'))
      with (a ++ String LF (JS.join NL (b :: r')))%string.
    rewrite (split_line_LF _ _ Ha), IH; [reflexivity | discriminate | exact Hr].
Qed.

(** Splicing [items] over the block [b] of [a ++ b ++ c]. A count of
    lines to delete below zero deletes nothing. *)
Lemma splice_block {A : Type} (a b c items : list A) (deleteCount : Z) :
  Z.max deleteCount 0 = Z.of_nat (List.length b) ->
  JS.splice (Z.of_nat (List.length a)) deleteCount items (a ++ b ++ c)
  = a ++ items ++ c.
Proof.
  intros Hd. unfold JS.splice. rewrite Hd.
  rewrite !length_app.
  destruct (Z.ltb_spec (Z.of_nat (List.length a)) 0) as [Hneg | _]; [lia |].
  rewrite Z.min_l by lia. rewrite Z.min_l by lia.
  rewrite Nat2Z.id.
  rewrite firstn_app, firstn_all, Nat.sub_diag, firstn_O, app_nil_r.
  rewrite <- Nat2Z.inj_add, Nat2Z.id.
  rewrite skipn_app, skipn_all2 by lia. simpl.
  replace (List.length a + List.length b - List.length a)%nat
    with (List.length b) by lia.
  rewrite skipn_app, skipn_all, Nat.sub_diag. reflexivity.
Qed.

Lemma lookup_store (p v : string) (d : list (string * string)) :
  lookup p (store p v d) = Some v.
Proof.
  induction d as [| [k w] r IH]; simpl.
  - rewrite String.eqb_refl. reflexivity.
  - destruct (String.eqb k p) eqn:Hk; simpl; rewrite Hk; [reflexivity | exact IH].
Qed.

Lemma getAbstractFileByPath_path (s : State) (p : string) (f : TFile) :
  getAbstractFileByPath s p = Some f -> path f = p.
Proof.
  unfold getAbstractFileByPath. intros H.
  apply find_some in H as [_ H]. apply String.eqb_eq, H.
Qed.

(* ================================================================== *)
(** ** The section under the configured heading *)
(* ================================================================== *)

Lemma headingsFrom_app (a b : list string) :
  forall k,
    headingsFrom k (a ++ b)
    = headingsFrom k a ++ headingsFrom (k + Z.of_nat (List.length a)) b.
Proof.
  induction a as [| l r IH]; intros k.
  - simpl. rewrite Z.add_0_r. reflexivity.
  - cbn [headingsFrom app List.length]. rewrite IH.
    replace (k + 1 + Z.of_nat (List.length r))
      with (k + Z.of_nat (S (List.length r))) by lia.
    destruct (headingOfLine l) as [[n t] |]; reflexivity.
Qed.

Lemma headingsFrom_plain (a : list string) :
  forall k,
    forallb (fun l => negb (isHeadingLine l)) a = true ->
    headingsFrom k a = [].
Proof.
  induction a as [| l r IH]; intros k H; simpl in *; [reflexivity |].
  apply andb_true_iff in H as [Hl Hr]. unfold isHeadingLine in Hl.
  destruct (headingOfLine l); [discriminate |]. apply IH, Hr.
Qed.

Lemma headingsFrom_unnamed (name : string) (a : list string) :
  forall k,
    forallb (fun l => negb (lineNamed name l)) a = true ->
    existsb (headingIs name) (headingsFrom k a) = false.
Proof.
  induction a as [| l r IH]; intros k H; simpl in *; [reflexivity |].
  apply andb_true_iff in H as [Hl Hr]. unfold lineNamed in Hl.
  destruct (headingOfLine l) as [[n t] |]; simpl.
  - unfold headingIs at 1; simpl. apply negb_true_iff in Hl. rewrite Hl.
    apply IH, Hr.
  - apply IH, Hr.
Qed.

Lemma replaceSections_skip (note : TFile) (hs1 hs2 : list HeadingCache) :
  forall content s,
    existsb (headingIs (heading (settings s))) hs1 = false ->
    replaceSections note (hs1 ++ hs2) content s
    = replaceSections note hs2 content s.
Proof.
  induction hs1 as [| h rest IH]; intros content s Hno; simpl in *.
  - reflexivity.
  - apply orb_false_iff in Hno as [Hh Hrest].
    unfold bind at 1, get at 1. unfold headingIs in Hh. rewrite Hh.
    apply IH, Hrest.
Qed.

Lemma lastLine_snoc (r : list string) (x : string) : lastLine (r ++ [x]) = [x].
Proof.
  unfold lastLine. rewrite rev_app_distr. reflexivity.
Qed.

(** The splice at a heading on line [length pre], followed in the cache
    by nothing or by the heading that opens [post]. *)
Lemma spliced_section (pre : list string) (hl : string)
  (region post items : list string) (h : HeadingCache)
  (rest : list HeadingCache) :
  Cache.endLine h = Z.of_nat (List.length pre) ->
  match post, rest with
  | [], [] => True
  | _ :: _, next :: _ =>
      Cache.startLine next
      = Z.of_nat (List.length pre) + 1 + Z.of_nat (List.length region)
  | _, _ => False
  end ->
  spliced h rest items (pre ++ hl :: region ++ post)
  = pre ++ hl :: items ++ kept region post ++ post.
Proof.
  intros He Hrest. unfold spliced. rewrite He.
  replace (Z.of_nat (List.length pre) + 1)
    with (Z.of_nat (List.length (pre ++ [hl])))
    by (rewrite length_app; simpl; lia).
  replace (pre ++ hl :: region ++ post)
    with ((pre ++ [hl]) ++ region ++ post)
    by (rewrite <- app_assoc; reflexivity).
  destruct post as [| nl post']; destruct rest as [| next rest'];
    try contradiction.
  - rewrite splice_block.
    + simpl. rewrite <- !app_assoc. reflexivity.
    + rewrite !length_app. simpl. lia.
  - rewrite Hrest. cbn [kept].
    destruct (list_eq_dec string_dec region []) as [-> | Hne].
    + cbn [lastLine rev app].
      rewrite (splice_block (pre ++ [hl]) [] (nl :: post')).
      * rewrite <- !app_assoc. reflexivity.
      * rewrite length_app. simpl. lia.
    + destruct (exists_last Hne) as (r & x & ->).
      rewrite lastLine_snoc. rewrite <- (app_assoc r [x]).
      rewrite (splice_block (pre ++ [hl]) r ([x] ++ nl :: post')).
      * rewrite <- !app_assoc. reflexivity.
      * rewrite !length_app. simpl. lia.
Qed.

Lemma headingsFrom_section (name : string) (pre : list string) (hl : string)
  (region post : list string) :
  sectionAt name pre hl region post = true ->
  exists n,
    headingsFrom 0 (pre ++ hl :: region ++ post)
    = headingsFrom 0 pre
        ++ Cache.mkHeading name n (Z.of_nat (List.length pre))
                     (Z.of_nat (List.length pre))
        :: headingsFrom
             (Z.of_nat (List.length pre) + 1 + Z.of_nat (List.length region))
             post.
Proof.
  unfold sectionAt. intros H.
  repeat (apply andb_true_iff in H as [H ?]).
  unfold lineNamed in H.
  destruct (headingOfLine hl) as [[n t] |] eqn:Hhl; [| discriminate].
  apply String.eqb_eq in H. subst t. exists n.
  rewrite headingsFrom_app. cbn [headingsFrom]. rewrite Hhl.
  rewrite headingsFrom_app, (headingsFrom_plain region) by assumption.
  reflexivity.
Qed.

(** The loop on a note with one section under the configured heading:
    one splice, one write. *)
Lemma replaceSections_section (note : TFile) (s : State)
  (pre : list string) (hl : string) (region post items : list string) :
  sectionAt (heading (settings s)) pre hl region post = true ->
  rendered s = Normal items ->
  replaceSections note (headingsFrom 0 (pre ++ hl :: region ++ post))
    (pre ++ hl :: region ++ post) s
  = (Normal tt,
     written note (pre ++ hl :: items ++ kept region post ++ post) s).
Proof.
  intros Hsec Hr.
  destruct (headingsFrom_section _ _ _ _ _ Hsec) as [n Hhs]. rewrite Hhs.
  unfold sectionAt in Hsec.
  repeat (apply andb_true_iff in Hsec as [Hsec ?]).
  rewrite replaceSections_skip by (apply headingsFrom_unnamed; assumption).
  rewrite (replaceSections_match note _ _ _ items);
    [| unfold headingIs; simpl; apply String.eqb_refl | exact Hr].
  rewrite spliced_section.
  - apply replaceSections_no_match. simpl.
    apply headingsFrom_unnamed. assumption.
  - reflexivity.
  - destruct post as [| nl post']; simpl; [exact I |].
    unfold isHeadingLine in *.
    destruct (headingOfLine nl) as [[n' t'] |]; [reflexivity | discriminate].
Qed.

(** The routine on such a note, past the gate. *)
Lemma updateTrackedFiles_section (doWrite : bool) (s : State) (note : TFile)
  (text : string) (pre : list string) (hl : string)
  (region post items : list string) :
  noteResolved s note text ->
  JS.split LF text = pre ++ hl :: region ++ post ->
  sectionAt (heading (settings s)) pre hl region post = true ->
  heading (settings s) <> EmptyString ->
  (negb (writeIntervalInMs s =? 0) && negb doWrite)%bool = false ->
  rendered s = Normal items ->
  updateTrackedFiles doWrite s
  = (Normal tt,
     written note (pre ++ hl :: items ++ kept region post ++ post) (saved s)).
Proof.
  intros Hres Hsplit Hsec Hname Hgate Hr.
  rewrite (updateTrackedFiles_resolved doWrite s note text Hres). cbv zeta.
  rewrite Hsplit, Hgate.
  destruct (headingsFrom_section _ _ _ _ _ Hsec) as [n Hhs].
  assert (Hof : headingsOf (pre ++ hl :: region ++ post)
                = Some (headingsFrom 0 (pre ++ hl :: region ++ post))).
  { unfold headingsOf. rewrite Hhs.
    destruct (headingsFrom 0 pre); reflexivity. }
  rewrite Hof. simpl isUndefined.
  destruct (String.eqb_spec (heading (settings s)) EmptyString);
    [contradiction |].
  simpl orb. cbv iota.
  apply (replaceSections_section note (saved s)); [exact Hsec |].
  rewrite <- (rendered_sameVault s (saved s)); [exact Hr | repeat split].
Qed.

Lemma noteText_written (s : State) (note : TFile) (content : list string) :
  path note = path (dailyNoteFile s) ->
  noteText (written note content s) = Some (JS.join NL content).
Proof.
  intros Hp. unfold noteText, written; simpl. rewrite <- Hp.
  apply lookup_store.
Qed.

(* ================================================================== *)
(** ** What a write leaves of the note *)
(* ================================================================== *)

(** C9 (as the code has it). When the configured heading is the text of
    exactly one heading of the note, a write replaces lines of that
    heading's section only: the lines up to and including the heading, and
    the lines from the next heading on, are in the new text as they were.
    (The loop treats every heading with the configured text, so nothing
    is stated for a note that has the heading twice.) *)
Theorem write_keeps_lines_outside_section (doWrite : bool) (s : State)
  (note : TFile) (text : string) (pre : list string) (hl : string)
  (region post items : list string) :
  noteResolved s note text ->
  JS.split LF text = pre ++ hl :: region ++ post ->
  sectionAt (heading (settings s)) pre hl region post = true ->
  heading (settings s) <> EmptyString ->
  (negb (writeIntervalInMs s =? 0) && negb doWrite)%bool = false ->
  rendered s = Normal items ->
  fst (updateTrackedFiles doWrite s) = Normal tt
  /\ exists section,
       noteText (snd (updateTrackedFiles doWrite s))
       = Some (JS.join NL (pre ++ hl :: section ++ post)).
Proof.
  intros Hres Hsplit Hsec Hname Hgate Hr.
  rewrite (updateTrackedFiles_section doWrite s note text pre hl region post
             items Hres Hsplit Hsec Hname Hgate Hr).
  split; [reflexivity |].
  exists (items ++ kept region post). simpl snd.
  rewrite noteText_written.
  - rewrite <- app_assoc. reflexivity.
  - destruct Hres as (_ & Hnote & _).
    apply (getAbstractFileByPath_path s _ _ Hnote).
Qed.

(** C9, the claim refuted: the note has the configured heading on lines 0
    and 2. After the write the second heading line and the line under it
    are gone, although both are outside the section of the first: the new
    text is not the first heading, some section, and the old lines from
    the second heading on. *)
Lemma second_heading_is_rewritten_too :
  noteLines twiceExample = Some ["# Heading"; "x"; "# Heading"; "y"]
  /\ noteLines (snd (updateTrackedFiles true twiceExample))
     = Some ["# Heading"; "- c"; "x"; "- c"]
  /\ ~ exists section,
        noteLines (snd (updateTrackedFiles true twiceExample))
        = Some (["# Heading"] ++ section ++ ["# Heading"; "y"]).
Proof.
  split; [reflexivity | split; [reflexivity |]].
  intros [section H].
  assert (Hl : noteLines (snd (updateTrackedFiles true twiceExample))
               = Some ["# Heading"; "- c"; "x"; "- c"]) by reflexivity.
  rewrite Hl in H. injection H as H.
  apply (f_equal (@rev string)) in H.
  rewrite rev_app_distr in H. simpl in H. discriminate H.
Qed.

Lemma write_keeps_lines_outside_section_witness :
  fst (updateTrackedFiles true regionExample) = Normal tt
  /\ exists section,
       noteText (snd (updateTrackedFiles true regionExample))
       = Some (JS.join NL (["# Heading"] ++ section ++ ["# Next"; "x"])).
Proof.
  apply (write_keeps_lines_outside_section true regionExample dailyFile
           (JS.join NL ["# Heading"; "old1"; "old2"; "# Next"; "x"])
           [] "# Heading" ["old1"; "old2"] ["# Next"; "x"] ["- c"]).
  - vm_compute. repeat split.
  - reflexivity.
  - reflexivity.
  - discriminate.
  - reflexivity.
  - reflexivity.
Defined.

(* ================================================================== *)
(** ** Writing twice *)
(* ================================================================== *)

Lemma kept_forallb (P : string -> bool) (region post : list string) :
  forallb P region = true -> forallb P (kept region post) = true.
Proof.
  intros H. destruct post as [| nl post']; [reflexivity |]. cbn [kept].
  destruct (list_eq_dec string_dec region []) as [-> | Hne]; [reflexivity |].
  destruct (exists_last Hne) as (r & x & ->). rewrite lastLine_snoc.
  rewrite forallb_app in H. apply andb_true_iff in H as [_ H]. exact H.
Qed.

Lemma kept_again (items region post : list string) :
  post = [] \/ region <> [] ->
  kept (items ++ kept region post) post = kept region post.
Proof.
  intros H. destruct post as [| nl post']; [reflexivity |]. cbn [kept].
  destruct H as [H | Hne]; [discriminate |].
  destruct (exists_last Hne) as (r & x & ->). rewrite lastLine_snoc.
  apply lastLine_snoc.
Qed.

(** When the first of two successive writes finds the configured heading,
    once in the note, above a section that runs to the end of the note or
    is not empty, and the rendered lines are plain lines, the second write
    leaves the text of the note as the first one left it, provided it is
    given the headings of that text. *)
Lemma second_write_section (s : State) (note : TFile)
  (text : string) (pre : list string) (hl : string)
  (region post items : list string) :
  noteResolved s note text ->
  JS.split LF text = pre ++ hl :: region ++ post ->
  sectionAt (heading (settings s)) pre hl region post = true ->
  heading (settings s) <> EmptyString ->
  rendered s = Normal items ->
  forallb plainLine items = true ->
  post = [] \/ region <> [] ->
  fst (updateTrackedFiles true s) = Normal tt
  /\ fst (updateTrackedFiles true (snd (updateTrackedFiles true s)))
     = Normal tt
  /\ noteText (snd (updateTrackedFiles true (snd (updateTrackedFiles true s))))
     = noteText (snd (updateTrackedFiles true s)).
Proof.
  intros Hres Hsplit Hsec Hname Hr Hplain Hshape.
  assert (Hpath : path note = path (dailyNoteFile s)).
  { destruct Hres as (_ & Hnote & _).
    apply (getAbstractFileByPath_path s _ _ Hnote). }
  assert (Hgate : forall s0,
             (negb (writeIntervalInMs s0 =? 0) && negb true)%bool = false)
    by (intros s0; apply andb_false_r).
  rewrite (updateTrackedFiles_section true s note text pre hl region post
             items Hres Hsplit Hsec Hname (Hgate s) Hr).
  cbn [fst snd].
  set (lines1 := pre ++ hl :: items ++ kept region post ++ post).
  set (s1 := written note lines1 (saved s)).
  (* the lines of the first text hold no line feed *)
  pose proof (split_noLF text) as Hlf. rewrite Hsplit in Hlf.
  rewrite forallb_app in Hlf. apply andb_true_iff in Hlf as [Hlf_pre Hlf].
  cbn [forallb] in Hlf. apply andb_true_iff in Hlf as [Hlf_hl Hlf].
  rewrite forallb_app in Hlf. apply andb_true_iff in Hlf as [Hlf_reg Hlf_post].
  assert (Hitems_lf : forallb noLF items = true).
  { apply forallb_forall. intros l Hl.
    apply (proj1 (forallb_forall _ _) Hplain) in Hl.
    unfold plainLine in Hl. apply andb_true_iff in Hl as [Hl _]. exact Hl. }
  assert (Hitems_h : forallb (fun l => negb (isHeadingLine l)) items = true).
  { apply forallb_forall. intros l Hl.
    apply (proj1 (forallb_forall _ _) Hplain) in Hl.
    unfold plainLine in Hl. apply andb_true_iff in Hl as [_ Hl]. exact Hl. }
  (* the second run reads the lines the first one wrote *)
  assert (Hsplit1 : JS.split LF (JS.join NL lines1)
                    = pre ++ hl :: (items ++ kept region post) ++ post).
  { rewrite split_join.
    - unfold lines1. rewrite <- app_assoc. reflexivity.
    - unfold lines1. destruct pre; discriminate.
    - unfold lines1. rewrite forallb_app. cbn [forallb].
      rewrite !forallb_app.
      rewrite Hlf_pre, Hlf_hl, Hitems_lf, Hlf_post.
      rewrite (kept_forallb noLF region post Hlf_reg). reflexivity. }
  assert (Hres1 : noteResolved s1 note (JS.join NL lines1)).
  { destruct Hres as (Hfolder & Hnote & _).
    repeat split; [exact Hfolder | exact Hnote |].
    unfold s1, written; simpl. apply lookup_store. }
  assert (Hsec1 : sectionAt (heading (settings s1)) pre hl
                    (items ++ kept region post) post = true).
  { unfold sectionAt in *. change (settings s1) with (settings s).
    repeat (apply andb_true_iff in Hsec as [Hsec ?]).
    rewrite forallb_app, Hitems_h, kept_forallb by assumption.
    repeat (apply andb_true_iff; split); assumption || reflexivity. }
  assert (Hr1 : rendered s1 = Normal items).
  { rewrite <- (rendered_sameVault s s1); [exact Hr | repeat split]. }
  rewrite (updateTrackedFiles_section true s1 note (JS.join NL lines1) pre hl
             (items ++ kept region post) post items Hres1 Hsplit1 Hsec1 Hname
             (Hgate s1) Hr1).
  cbn [fst snd]. repeat split.
  unfold s1.
  rewrite (noteText_written (saved s) note lines1 Hpath).
  rewrite noteText_written by exact Hpath.
  rewrite (kept_again items region post Hshape). reflexivity.
Qed.

(* ================================================================== *)
(** ** Placeholders: how many a replacement can consume *)
(* ================================================================== *)

Section Occurrences.
Local Open Scope string_scope.
Local Open Scope nat_scope.
Lemma append_assoc (a b c : string) : (a ++ b) ++ c = a ++ (b ++ c).
Proof.
  induction a as [| x a IH]; simpl; [reflexivity | rewrite IH; reflexivity].
Qed.

Lemma length_append (a b : string) :
  String.length (a ++ b) = String.length a + String.length b.
Proof.
  induction a as [| x a IH]; simpl; [reflexivity | rewrite IH; reflexivity].
Qed.

Lemma drop_append (a b : string) : JS.drop (String.length a) (a ++ b) = b.
Proof.
  induction a as [| x a IH]; simpl; [reflexivity | exact IH].
Qed.

Lemma prefix_append (p : string) :
  forall u w, String.prefix p u = true -> String.prefix p (u ++ w) = true.
Proof.
  induction p as [| a p IH]; intros u w H; simpl.
  - destruct (u ++ w); reflexivity.
  - destruct u as [| c u]; simpl in *; [discriminate |].
    destruct (ascii_dec a c); [apply IH, H | discriminate].
Qed.

Lemma prefix_self_append (q r : string) : String.prefix q (q ++ r) = true.
Proof.
  induction q as [| a q IH]; simpl.
  - destruct r; reflexivity.
  - destruct (ascii_dec a a); [exact IH | contradiction].
Qed.

Lemma prefix_drop (q : string) :
  forall s, String.prefix q s = true -> s = q ++ JS.drop (String.length q) s.
Proof.
  induction q as [| a q IH]; intros s H; simpl.
  - reflexivity.
  - destruct s as [| c s]; simpl in H; [discriminate |].
    destruct (ascii_dec a c) as [-> |]; [| discriminate].
    simpl. f_equal. apply IH, H.
Qed.

(** An occurrence of [p] at the head of [u ++ w] lies within [u] or runs
    over the end of [u] into [w]. *)
Lemma prefix_append_inv (u : string) :
  forall p w,
    String.prefix p (u ++ w) = true ->
    String.prefix p u = true
    \/ exists p', p' <> EmptyString /\ p = u ++ p'
                  /\ String.prefix p' w = true.
Proof.
  induction u as [| c u IH]; intros p w H.
  - destruct p as [| a p]; [left; reflexivity |].
    right. exists (String a p). repeat split; [discriminate | exact H].
  - destruct p as [| a p]; [left; reflexivity |].
    simpl in H. destruct (ascii_dec a c) as [-> |]; [| discriminate].
    destruct (IH p w H) as [Hin | (p' & Hne & -> & Hp')].
    + left. simpl. destruct (ascii_dec c c); [exact Hin | contradiction].
    + right. exists p'. repeat split; assumption.
Qed.

Lemma occurrences_append_ge (p x y : string) :
  occurrences p x + occurrences p y <= occurrences p (x ++ y).
Proof.
  induction x as [| c x IH]; cbn [occurrences String.append]; [lia |].
  destruct (String.prefix p (String c x)) eqn:Hp.
  - change (String c (x ++ y)) with (String c x ++ y).
    rewrite (prefix_append p _ y Hp). lia.
  - destruct (String.prefix p (String c (x ++ y))); lia.
Qed.

(** When no occurrence of [p] starts in [x] and runs into [z], the
    occurrences in [x ++ z] are those of [x] and those of [z]. *)
Lemma occurrences_append_le (p z : string) :
  forall x,
    (forall v u, x = v ++ u -> u <> EmptyString ->
                 String.prefix p (u ++ z) = true -> String.prefix p u = true) ->
    occurrences p (x ++ z) <= occurrences p x + occurrences p z.
Proof.
  induction x as [| c x IH]; intros Hx; cbn [occurrences String.append];
    [lia |].
  assert (Hrec : occurrences p (x ++ z) <= occurrences p x + occurrences p z).
  { apply IH. intros v u -> Hu Hp. apply (Hx (String c v) u); auto. }
  change (String c (x ++ z)) with (String c x ++ z).
  destruct (String.prefix p (String c x ++ z)) eqn:Hp.
  - rewrite (Hx EmptyString (String c x) eq_refl) by (discriminate || exact Hp).
    lia.
  - destruct (String.prefix p (String c x)); lia.
Qed.

Lemma occurrences_block (p q : string) :
  clearBefore p q = true -> clearAfter p q = true ->
  forall x y,
    occurrences p (x ++ q ++ y)
    <= occurrences p x + occurrences p q + occurrences p y.
Proof.
  intros Hb Ha x y.
  assert (H1 : occurrences p (x ++ q ++ y)
               <= occurrences p x + occurrences p (q ++ y)).
  { apply occurrences_append_le. intros v u -> Hu Hp.
    destruct (prefix_append_inv u p _ Hp) as [Hin | (p' & Hne & -> & Hp')];
      [exact Hin | exfalso].
    assert (Hj : In (String.length u) (seq 1 (String.length (u ++ p') - 1))).
    { apply in_seq. rewrite length_append.
      destruct u; [contradiction |]. destruct p'; [contradiction |].
      simpl. lia. }
    apply (proj1 (forallb_forall _ _) Hb) in Hj.
    rewrite drop_append in Hj. apply negb_true_iff, orb_false_iff in Hj.
    destruct Hj as [Hj1 Hj2].
    destruct (prefix_append_inv q p' y Hp') as [Hin | (p'' & _ & -> & _)].
    - rewrite Hin in Hj1. discriminate.
    - rewrite prefix_self_append in Hj2. discriminate. }
  assert (H2 : occurrences p (q ++ y) <= occurrences p q + occurrences p y).
  { apply occurrences_append_le. intros v u Hq Hu Hp.
    destruct (prefix_append_inv u p _ Hp) as [Hin | (p' & Hne & -> & Hp')];
      [exact Hin | exfalso].
    assert (Hi : In (String.length v) (seq 0 (String.length q))).
    { apply in_seq. rewrite Hq, length_append.
      destruct u; [contradiction |]. simpl. lia. }
    apply (proj1 (forallb_forall _ _) Ha) in Hi.
    rewrite Hq, drop_append in Hi.
    rewrite prefix_self_append, length_append in Hi.
    apply negb_true_iff, andb_false_iff in Hi.
    destruct Hi as [Hi | Hi]; [discriminate |].
    apply Nat.ltb_ge in Hi. destruct p'; [contradiction |]. simpl in Hi. lia. }
  lia.
Qed.

Lemma findFirst_split (q : string) :
  forall s pre post,
    JS.findFirst q s = Some (pre, post) -> s = pre ++ q ++ post.
Proof.
  induction s as [| c s IH]; intros pre post H; cbn [JS.findFirst] in H.
  - destruct (String.prefix q EmptyString) eqn:Hp; [| discriminate].
    injection H as <- <-. apply (prefix_drop q _ Hp).
  - destruct (String.prefix q (String c s)) eqn:Hp.
    + injection H as <- <-. apply (prefix_drop q _ Hp).
    + destruct (JS.findFirst q s) as [[pre' post'] |]; [| discriminate].
      injection H as <- <-. cbn [String.append]. f_equal. apply IH.
      reflexivity.
Qed.

(** One call of [replace] with pattern [q] takes away at most the
    occurrences of [p] that lie in [q]: none when [q] is another
    placeholder, one when it is [p] itself. *)
Lemma replace_occurrences (p q v s : string) :
  clearBefore p q = true -> clearAfter p q = true ->
  occurrences p s <= occurrences p (JS.replace q v s) + occurrences p q.
Proof.
  intros Hb Ha. unfold JS.replace.
  destruct (JS.findFirst q s) as [[pre post] |] eqn:Hf; [| lia].
  rewrite (findFirst_split q s pre post Hf) at 1.
  pose proof (occurrences_block p q Hb Ha pre post) as H1.
  pose proof (occurrences_append_ge p pre
                (JS.getSubstitution q pre post v ++ post)) as H2.
  pose proof (occurrences_append_ge p
                (JS.getSubstitution q pre post v) post) as H3.
  lia.
Qed.

End Occurrences.
(** [findFirst] finds the first occurrence: the pattern does not occur at
    any position of the text before it. *)
Lemma findFirst_first (q : string) :
  forall s pre post,
    JS.findFirst q s = Some (pre, post) ->
    forall v u, pre = (v ++ u)%string -> u <> EmptyString ->
                String.prefix q (u ++ q ++ post)%string = false.
Proof.
  induction s as [| c s IH]; intros pre post H v u Hpre Hu;
    cbn [JS.findFirst] in H.
  - destruct (String.prefix q EmptyString); [| discriminate].
    injection H as <- <-. destruct v; destruct u; try discriminate.
    contradiction.
  - destruct (String.prefix q (String c s)) eqn:Hp.
    + injection H as <- <-. destruct v; destruct u; try discriminate.
      contradiction.
    + destruct (JS.findFirst q s) as [[pre' post'] |] eqn:Hf; [| discriminate].
      injection H as <- <-.
      destruct v as [| a v].
      * simpl in Hpre. subst u. cbn [String.append].
        rewrite <- (findFirst_split q s pre' post' Hf). exact Hp.
      * injection Hpre as _ Hpre. apply (IH pre' post' eq_refl v u Hpre Hu).
Qed.

(** No placeholder overlaps another one or itself, and none holds
    another one. *)
Lemma placeholders_clear :
  forallb (fun p =>
             forallb (fun q =>
                        (clearBefore p q && clearAfter p q
                         && Nat.eqb (occurrences p q)
                                    (if String.eqb p q then 1 else 0))%bool)
                     placeholders)
          placeholders = true.
Proof. vm_compute. reflexivity. Qed.

Lemma replace_placeholder (p q v s : string) :
  In p placeholders -> In q placeholders ->
  (occurrences p s
   <= occurrences p (JS.replace q v s) + (if String.eqb p q then 1 else 0))%nat.
Proof.
  intros Hp Hq.
  pose proof placeholders_clear as H.
  apply (proj1 (forallb_forall _ _) H) in Hp.
  apply (proj1 (forallb_forall _ _) Hp) in Hq.
  apply andb_true_iff in Hq as [Hq Hn].
  apply andb_true_iff in Hq as [Hb Ha].
  apply Nat.eqb_eq in Hn. rewrite <- Hn.
  apply replace_occurrences; assumption.
Qed.

(** The chain of replacements takes away at most one occurrence of each
    placeholder. *)
Lemma renderTemplate_occurrences (format : string) (file : TFile)
  (ph : string) :
  In ph placeholders ->
  (occurrences ph format <= occurrences ph (renderTemplate format file) + 1)%nat.
Proof.
  intros Hin. unfold renderTemplate.
  set (tagList := JS.join ", " (map (fun tag => String "\" tag) (allTags file))).
  set (t1 := JS.replace "[[link]]" (mdLink file) format).
  set (t2 := JS.replace "[[name]]" (basename file) t1).
  set (t3 := JS.replace "[[tags]]" tagList t2).
  assert (H1 := replace_placeholder ph "[[link]]" (mdLink file) format Hin).
  assert (H2 := replace_placeholder ph "[[name]]" (basename file) t1 Hin).
  assert (H3 := replace_placeholder ph "[[tags]]" tagList t2 Hin).
  assert (H4 := replace_placeholder ph "[[ctime]]" (ctime file) t3 Hin).
  fold t1 in H1. fold t2 in H2. fold t3 in H3.
  assert (Hl : In "[[link]]" placeholders) by (simpl; auto).
  assert (Hn : In "[[name]]" placeholders) by (simpl; auto).
  assert (Ht : In "[[tags]]" placeholders) by (simpl; auto).
  assert (Hc : In "[[ctime]]" placeholders) by (simpl; auto 6).
  specialize (H1 Hl). specialize (H2 Hn). specialize (H3 Ht).
  specialize (H4 Hc).
  simpl in Hin.
  destruct Hin as [<- | [<- | [<- | [<- | []]]]];
    cbn [String.eqb Ascii.eqb Bool.eqb] in H1, H2, H3, H4; lia.
Qed.

Lemma findFirst_none (q : string) :
  forall s, JS.findFirst q s = None -> occurrences q s = 0%nat.
Proof.
  induction s as [| c s IH]; intros H; [reflexivity |].
  cbn [JS.findFirst] in H. cbn [occurrences].
  destruct (String.prefix q (String c s)); [discriminate |].
  destruct (JS.findFirst q s) as [[pre post] |]; [discriminate |].
  rewrite IH; reflexivity.
Qed.

(** A call of [replace] with a string pattern replaces the first
    occurrence and nothing else. *)
Lemma replace_replacesFirst (q v s : string) :
  replacesFirst q s (JS.replace q v s).
Proof.
  unfold replacesFirst, JS.replace.
  destruct (JS.findFirst q s) as [[pre post] |] eqn:Hf.
  - right. exists pre, post, (JS.getSubstitution q pre post v).
    split; [| reflexivity]. split.
    + apply findFirst_split, Hf.
    + apply (findFirst_first q s pre post Hf).
  - left. split; [apply findFirst_none, Hf | reflexivity].
Qed.

Example getFormattedOutput_two_names :
  fst (getFormattedOutput "Note.md" twoNames) = Normal "Note and [[name]]".
Proof. reflexivity. Qed.

(* ================================================================== *)
(** ** The tracked set as a set *)
(* ================================================================== *)

Lemma keeps_bind {A B : Type} (m : Async A) (k : A -> Async B) :
  keepsSettings m -> (forall a, keepsSettings (k a)) ->
  keepsSettings (bind m k).
Proof.
  intros Hm Hk s. unfold bind. specialize (Hm s).
  destruct (m s) as [[a | e] s1]; simpl in *.
  - rewrite (Hk a s1). exact Hm.
  - exact Hm.
Qed.

Lemma keeps_ret {A : Type} (a : A) : keepsSettings (ret a).
Proof. intros s. reflexivity. Qed.

Lemma keeps_throw {A : Type} (e : string) : keepsSettings (@throw A e).
Proof. intros s. reflexivity. Qed.

Lemma keeps_get : keepsSettings get.
Proof. intros s. reflexivity. Qed.

Lemma keeps_emit (e : Effect) : keepsSettings (emit e).
Proof. intros s. reflexivity. Qed.

Lemma keeps_tryCatch {A : Type} (m : Async A) (h : string -> Async A) :
  keepsSettings m -> (forall e, keepsSettings (h e)) ->
  keepsSettings (tryCatch m h).
Proof.
  intros Hm Hh s. unfold tryCatch. specialize (Hm s).
  destruct (m s) as [[a | e] s1]; simpl in *.
  - exact Hm.
  - rewrite (Hh e s1). exact Hm.
Qed.

Lemma keeps_getDailyNote : keepsSettings getDailyNote.
Proof. intros s. unfold getDailyNote. destruct (dailyFolder s); reflexivity. Qed.

Lemma keeps_read (f : TFile) : keepsSettings (read f).
Proof.
  intros s. unfold read. destruct (lookup (path f) (data s)); reflexivity.
Qed.

Lemma keeps_modify (f : TFile) (text : string) : keepsSettings (modify f text).
Proof. intros s. reflexivity. Qed.

Lemma keeps_append (f : TFile) (text : string) : keepsSettings (append f text).
Proof.
  intros s. unfold append, bind, read.
  destruct (lookup (path f) (data s)); reflexivity.
Qed.

Lemma keeps_createDailyNote : keepsSettings createDailyNote.
Proof. intros s. reflexivity. Qed.

Lemma keeps_renderTracked : keepsSettings renderTracked.
Proof. intros s. rewrite renderTracked_rendered. reflexivity. Qed.

Lemma keeps_pathIsExcluded (p : string) : keepsSettings (pathIsExcluded p).
Proof.
  intros s. unfold pathIsExcluded, bind, get.
  destruct (String.eqb (excludedFolders (settings s)) EmptyString);
    [reflexivity |].
  destruct (getAbstractFileByPath s p); reflexivity.
Qed.

Lemma keeps_saveSettings : keepsSettings saveSettings.
Proof. intros s. reflexivity. Qed.

Lemma keeps_displayNotice (m : string) : keepsSettings (displayNotice m).
Proof. intros s. reflexivity. Qed.

Lemma keeps_replaceSections (note : TFile) (hs : list HeadingCache) :
  forall content, keepsSettings (replaceSections note hs content).
Proof.
  induction hs as [| h rest IH]; intros content; cbn [replaceSections].
  - apply keeps_ret.
  - apply keeps_bind; [apply keeps_get | intros s0].
    destruct (String.eqb (Cache.heading h) (heading (settings s0)));
      [| apply IH].
    apply keeps_bind.
    + destruct rest; (apply keeps_bind;
                      [apply keeps_renderTracked | intros; apply keeps_ret]).
    + intros content'. apply keeps_bind; [apply keeps_modify | intros; apply IH].
Qed.

Lemma keeps_appendDefaultSection (note : TFile) :
  keepsSettings (appendDefaultSection note).
Proof.
  unfold appendDefaultSection.
  apply keeps_bind; [apply keeps_displayNotice | intros _].
  apply keeps_bind; [apply keeps_get | intros s0].
  apply keeps_bind; [apply keeps_renderTracked | intros items].
  apply keeps_bind; [apply keeps_append | intros _].
  apply keeps_saveSettings.
Qed.

Lemma keeps_resolveNote : keepsSettings resolveNote.
Proof.
  unfold resolveNote.
  apply keeps_bind; [apply keeps_saveSettings | intros _].
  apply keeps_bind.
  - apply keeps_tryCatch; [apply keeps_getDailyNote | intros e].
    apply keeps_bind; [apply keeps_emit | intros _].
    apply keeps_bind; [apply keeps_emit | intros _; apply keeps_ret].
  - intros [f |]; [apply keeps_ret |].
    apply keeps_bind; [apply keeps_get | intros s0].
    apply keeps_bind.
    + destruct (automaticallyCreateDailyNote (settings s0));
        [| apply keeps_ret].
      apply keeps_bind; [apply keeps_displayNotice | intros _].
      apply keeps_createDailyNote.
    + intros created. apply keeps_bind; [| intros; apply keeps_ret].
      intros s. reflexivity.
Qed.

Lemma keeps_writeNote (doWrite : bool) (dailyNote : option TFile) :
  keepsSettings (writeNote doWrite dailyNote).
Proof.
  destruct dailyNote as [note |]; [| apply keeps_throw]. unfold writeNote.
  apply keeps_bind; [apply keeps_read | intros text].
  apply keeps_bind; [apply keeps_get | intros s0].
  destruct (isUndefined _ || _)%bool; [apply keeps_appendDefaultSection |].
  destruct (negb _ && negb doWrite)%bool; [apply keeps_ret |].
  apply keeps_replaceSections.
Qed.

(** The update routine never changes the settings, and so never the
    tracked set, whatever happens to the note. *)
Lemma updateTrackedFiles_settings (doWrite : bool) :
  keepsSettings (updateTrackedFiles doWrite).
Proof.
  intros s. rewrite updateTrackedFiles_halves.
  apply (keeps_bind resolveNote (writeNote doWrite));
    [apply keeps_resolveNote | apply keeps_writeNote].
Qed.

Lemma includes_In (xs : list string) (x : string) :
  JS.includes xs x = true <-> In x xs.
Proof.
  unfold JS.includes. rewrite existsb_exists. split.
  - intros (y & Hy & Heq). apply String.eqb_eq in Heq. subst. exact Hy.
  - intros H. exists x. split; [exact H | apply String.eqb_refl].
Qed.

Lemma remove_NoDup (xs : list string) (x : string) :
  NoDup xs -> NoDup (JS.remove xs x).
Proof. intros H. unfold JS.remove. apply NoDup_filter, H. Qed.

Lemma push_NoDup (xs : list string) (x : string) :
  NoDup xs -> JS.includes xs x = false -> NoDup (JS.push xs x).
Proof.
  intros H Hx. unfold JS.push. apply NoDup_app; [exact H | | ].
  - repeat constructor. intros [].
  - intros a Ha [<- | []]. apply includes_In in Ha. congruence.
Qed.

(** A rename keeps the tracked set free of duplicates when the new path
    is not tracked already. *)
Lemma rename_NoDup (xs : list string) (oldPath newPath : string) :
  NoDup xs -> JS.includes xs newPath = false ->
  NoDup (JS.push (JS.remove xs oldPath) newPath).
Proof.
  intros H Hnew. apply push_NoDup; [apply remove_NoDup, H |].
  destruct (JS.includes (JS.remove xs oldPath) newPath) eqn:E; [| reflexivity].
  apply includes_In in E. unfold JS.remove in E.
  apply filter_In in E as [E _]. apply includes_In in E. congruence.
Qed.

(** The delete handler keeps the tracked set free of duplicates. *)
Lemma onVaultDelete_NoDup (file : TAbstractFile) (s : State) :
  NoDup (trackedFiles (settings s)) ->
  NoDup (trackedFiles (settings (snd (onVaultDelete file s)))).
Proof.
  intros H. destruct file as [f | p]; [| exact H].
  unfold onVaultDelete, bind, get.
  destruct (JS.includes (trackedFiles (settings s)) (path f)); [| exact H].
  unfold setTrackedFiles, modifyState.
  rewrite updateTrackedFiles_settings. simpl. apply remove_NoDup, H.
Qed.

Lemma keepsNoDup_keepsSettings {A : Type} (m : Async A) :
  keepsSettings m -> keepsNoDup m.
Proof. intros Hm s H. rewrite (Hm s). exact H. Qed.

Lemma keepsNoDup_bind {A B : Type} (m : Async A) (k : A -> Async B) :
  keepsNoDup m -> (forall a, keepsNoDup (k a)) -> keepsNoDup (bind m k).
Proof.
  intros Hm Hk s H. unfold bind. specialize (Hm s H).
  destruct (m s) as [[a | e] s1]; simpl in *.
  - apply (Hk a s1 Hm).
  - exact Hm.
Qed.

Lemma keepsNoDup_setTrackedFiles (xs : list string) :
  NoDup xs -> keepsNoDup (setTrackedFiles xs).
Proof. intros Hxs s _. exact Hxs. Qed.

Lemma keepsNoDup_writeLocal (shared : bool) (xs : list string) :
  NoDup xs -> keepsNoDup (writeLocal shared xs).
Proof.
  intros Hxs. destruct shared; simpl.
  - apply keepsNoDup_setTrackedFiles, Hxs.
  - apply keepsNoDup_keepsSettings, keeps_ret.
Qed.

(** The cache-change handler keeps the tracked set free of duplicates,
    on a new day as on the same day, whatever the filters answer and
    however the handler ends. *)
Lemma onCacheChange_NoDup (file : TFile) (fileTags : list string) :
  keepsNoDup (onCacheChange file fileTags).
Proof.
  intros s H. unfold onCacheChange. unfold bind at 1, get at 1. cbv zeta.
  set (tracked0 := trackedFiles (settings s)) in *.
  refine (keepsNoDup_bind _ _ _ _ s H).
  - destruct (negb _); [| apply keepsNoDup_keepsSettings, keeps_ret].
    apply keepsNoDup_bind;
      [apply keepsNoDup_keepsSettings, updateTrackedFiles_settings | intros _].
    apply keepsNoDup_bind;
      [apply keepsNoDup_setTrackedFiles; constructor | intros _].
    apply keepsNoDup_bind;
      [| intros _; apply keepsNoDup_keepsSettings, keeps_ret].
    intros s1 H1. exact H1.
  - intros shared.
    apply keepsNoDup_bind;
      [apply keepsNoDup_keepsSettings, keeps_getDailyNote | intros dailyNote].
    destruct (isDailyNote file dailyNote);
      [apply keepsNoDup_keepsSettings, keeps_ret |].
    apply keepsNoDup_bind;
      [apply keepsNoDup_keepsSettings, keeps_get | intros s1].
    match goal with
    | |- keepsNoDup (bind _ ?k) =>
        assert (Hrest : forall add : bool,
                   (add = true -> JS.includes tracked0 (path file) = false) ->
                   keepsNoDup (k add))
    end.
    { intros add Hadd. cbv beta.
      assert (Ht1 : NoDup (if add then JS.push tracked0 (path file)
                           else tracked0)).
      { destruct add; [apply push_NoDup; auto | exact H]. }
      apply keepsNoDup_bind;
        [apply keepsNoDup_writeLocal, Ht1 | intros _].
      apply keepsNoDup_bind.
      - apply keepsNoDup_keepsSettings.
        destruct (_ && _)%bool; [apply keeps_ret |].
        apply keeps_bind; [apply keeps_pathIsExcluded | intros e].
        destruct e; apply keeps_ret.
      - intros drop.
        apply keepsNoDup_bind;
          [| intros _;
             apply keepsNoDup_keepsSettings, updateTrackedFiles_settings].
        apply keepsNoDup_writeLocal.
        destruct drop; [apply remove_NoDup |]; exact Ht1. }
    destruct (JS.includes tracked0 (path file)) eqn:Hinc.
    + intros s2 H2. unfold bind at 1, ret at 1.
      apply (Hrest false); [discriminate | exact H2].
    + apply keepsNoDup_bind; [| intros add; apply Hrest; reflexivity].
      apply keepsNoDup_keepsSettings.
      destruct (cacheContainsIgnoredTag (settings s1) fileTags);
        [apply keeps_ret |].
      apply keeps_bind; [apply keeps_pathIsExcluded | intros e].
      destruct e; apply keeps_ret.
Qed.

(* ================================================================== *)
(** ** Further runs of the handlers *)
(* ================================================================== *)

(** With automatic creation the note is created and written in the same
    call, and the one call queued at line 172 finds the note and queues
    nothing more. *)
Example created_note_is_retried_once :
  let s' := snd (updateTrackedFiles true autoCreateExample) in
  fst (updateTrackedFiles true autoCreateExample) = Normal tt
  /\ noteLines s' = Some [EmptyString; "# Heading"; "- c"]
  /\ queued s' = 1%nat
  /\ queued (drain 1 s') = 0%nat
  /\ noteLines (drain 1 s') = Some [EmptyString; "# Heading"; "- c"].
Proof. vm_compute. repeat split. Qed.

(** Without a write interval the event of a new day does write the two
    tracked paths first, into the note of the new day; the set is then
    cleared, and the update that ends the handler writes the empty list
    over them. The path of the event itself is pushed on the array the
    settings no longer hold, so it is not tracked. *)
Example rollover_without_interval :
  let s' := snd (onCacheChange (plainFile "c") [] rolloverNoInterval) in
  writes s'
  = [EModify "2024-01-02.md" (JS.join NL ["# Heading"; "- a"; "- b"]);
     EModify "2024-01-02.md" (JS.join NL ["# Heading"])]
  /\ trackedFiles (settings s') = []
  /\ lastTrackedDate (settings s') = "2024-01-02".
Proof. vm_compute. repeat split. Qed.

(** On the day already stored the same event tracks the path. *)
Example same_day_event_tracks_the_file :
  trackedFiles
    (settings (snd (onCacheChange (plainFile "c") [] gatedExample)))
  = ["a.md"; "b.md"; "c.md"].
Proof. reflexivity. Qed.

(* ================================================================== *)
(** ** Lines and text: the round trip *)
(* ================================================================== *)

Lemma join_cons_char (c : ascii) (l : string) (ls : list string) :
  JS.join NL (String c l :: ls) = String c (JS.join NL (l :: ls)).
Proof. destruct ls; reflexivity. Qed.

(** X1. Splitting a text in lines and joining the lines gives the text back,
    whatever the text: a write that changes no line changes no byte. *)
Theorem join_split_text (s : string) : JS.join NL (JS.split LF s) = s.
Proof.
  induction s as [| c r IH]; [reflexivity |].
  cbn [JS.split]. destruct (Ascii.eqb c LF) eqn:Hc.
  - apply Ascii.eqb_eq in Hc. subst c.
    pose proof (split_not_nil r) as Hne.
    destruct (JS.split LF r) as [| l ls]; [contradiction |].
    change (JS.join NL (EmptyString :: l :: ls))
      with (String LF (JS.join NL (l :: ls))).
    rewrite IH. reflexivity.
  - pose proof (split_not_nil r) as Hne.
    destruct (JS.split LF r) as [| l ls]; [contradiction |].
    rewrite join_cons_char, IH. reflexivity.
Qed.

(** X2. Joining lines that hold no line feed and splitting the text gives the
    lines back; the empty list of lines is the one exception, it comes
    back as one empty line. *)
Theorem split_join_lines (ls : list string) :
  forallb noLF ls = true ->
  JS.split LF (JS.join NL ls)
  = match ls with [] => [EmptyString] | _ :: _ => ls end.
Proof.
  intros H. destruct ls as [| l r]; [reflexivity |].
  apply split_join; [discriminate | exact H].
Qed.

Lemma split_join_lines_witness :
  JS.split LF (JS.join NL ["# Heading"; EmptyString; "- c"])
  = ["# Heading"; EmptyString; "- c"].
Proof.
  apply (split_join_lines ["# Heading"; EmptyString; "- c"]). reflexivity.
Defined.

(* ================================================================== *)
(** ** The filters on titles and tags *)
(* ================================================================== *)

Lemma lowerChar_idem (c : ascii) : lowerChar (lowerChar c) = lowerChar c.
Proof. destruct c as [[] [] [] [] [] [] [] []]; vm_compute; reflexivity. Qed.

Lemma isSpace_lowerChar (c : ascii) : isSpace (lowerChar c) = isSpace c.
Proof. destruct c as [[] [] [] [] [] [] [] []]; vm_compute; reflexivity. Qed.

Lemma comma_lowerChar (c : ascii) :
  Ascii.eqb (lowerChar c) "," = Ascii.eqb c ",".
Proof. destruct c as [[] [] [] [] [] [] [] []]; vm_compute; reflexivity. Qed.

Lemma toLowerCase_idem (s : string) :
  toLowerCase (toLowerCase s) = toLowerCase s.
Proof.
  induction s as [| c r IH]; simpl; [reflexivity |].
  rewrite lowerChar_idem, IH. reflexivity.
Qed.

Lemma removeSpaces_toLowerCase (s : string) :
  removeSpaces (toLowerCase s) = toLowerCase (removeSpaces s).
Proof.
  induction s as [| c r IH]; simpl; [reflexivity |].
  rewrite isSpace_lowerChar. destruct (isSpace c); simpl; rewrite IH;
    reflexivity.
Qed.

Lemma removeSpaces_idem (s : string) :
  removeSpaces (removeSpaces s) = removeSpaces s.
Proof.
  induction s as [| c r IH]; simpl; [reflexivity |].
  destruct (isSpace c) eqn:Hc; simpl; [exact IH |].
  rewrite Hc, IH. reflexivity.
Qed.

Lemma split_comma_toLowerCase (s : string) :
  JS.split "," (toLowerCase s) = map toLowerCase (JS.split "," s).
Proof.
  induction s as [| c r IH]; simpl; [reflexivity |].
  rewrite comma_lowerChar. destruct (Ascii.eqb c ","); simpl.
  - rewrite IH. reflexivity.
  - rewrite IH. destruct (JS.split "," r); reflexivity.
Qed.

Lemma existsb_map_eq {A B : Type} (f : B -> bool) (g : A -> B) (l : list A) :
  existsb f (map g l) = existsb (fun x => f (g x)) l.
Proof.
  induction l as [| x r IH]; simpl; [reflexivity | rewrite IH; reflexivity].
Qed.

Lemma existsb_same {A : Type} (f g : A -> bool) (l : list A) :
  (forall x, f x = g x) -> existsb f l = existsb g l.
Proof.
  intros H. induction l as [| x r IH]; simpl; [reflexivity |].
  rewrite H, IH. reflexivity.
Qed.

Lemma split_nonempty (sep : ascii) (s : string) : JS.split sep s <> [].
Proof.
  destruct s as [| c r]; simpl; [discriminate |].
  destruct (Ascii.eqb c sep); [discriminate |].
  destruct (JS.split sep r); discriminate.
Qed.

(** X21. The title filter does not see the case of letters, in the title or in
    the setting, nor the spaces of the setting. *)
Theorem noteTitle_ignores_case_and_spaces (c : ListModifiedSettings)
  (noteTitle : string) :
  noteTitleContainsIgnoredText
    (with_ignoredNameContains
       (toLowerCase (removeSpaces (ignoredNameContains c))) c)
    (toLowerCase noteTitle)
  = noteTitleContainsIgnoredText c noteTitle.
Proof.
  unfold noteTitleContainsIgnoredText; simpl.
  rewrite removeSpaces_toLowerCase, removeSpaces_idem,
    split_comma_toLowerCase, existsb_map_eq.
  apply existsb_same. intros x.
  rewrite !toLowerCase_idem. reflexivity.
Qed.

Lemma removeSpaces_blank (s : string) :
  allChars isBlank s = true ->
  allChars (fun c => Ascii.eqb c ",") (removeSpaces s) = true.
Proof.
  induction s as [| c r IH]; simpl; intros H; [reflexivity |].
  apply andb_true_iff in H as [Hc Hr]. unfold isBlank in Hc.
  destruct (isSpace c); simpl in *; [apply IH, Hr |].
  rewrite Hc. apply IH, Hr.
Qed.

Lemma split_commas (s : string) :
  allChars (fun c => Ascii.eqb c ",") s = true ->
  forall x, In x (JS.split "," s) -> x = EmptyString.
Proof.
  induction s as [| c r IH]; simpl; intros H x Hx.
  - destruct Hx as [<- | []]. reflexivity.
  - apply andb_true_iff in H as [Hc Hr]. rewrite Hc in Hx.
    destruct Hx as [<- | Hx]; [reflexivity | apply (IH Hr x Hx)].
Qed.

(** X22. A setting of ignored title texts that holds spaces and commas only
    (the empty setting is one) excludes no title: an empty entry never
    matches. *)
Theorem noteTitle_blank_setting (c : ListModifiedSettings)
  (noteTitle : string) :
  allChars isBlank (ignoredNameContains c) = true ->
  noteTitleContainsIgnoredText c noteTitle = false.
Proof.
  intros H. unfold noteTitleContainsIgnoredText.
  pose proof (split_commas _ (removeSpaces_blank _ H)) as Hall.
  destruct (existsb _ _) eqn:E; [| reflexivity].
  apply existsb_exists in E as (x & Hx & Hm).
  rewrite (Hall x Hx) in Hm. discriminate Hm.
Qed.

Lemma noteTitle_blank_setting_witness :
  noteTitleContainsIgnoredText
    (with_ignoredNameContains " , ," baseSettings) "Any Title" = false.
Proof.
  apply (noteTitle_blank_setting
           (with_ignoredNameContains " , ," baseSettings) "Any Title").
  reflexivity.
Defined.

(** X23. With a tag setting that holds spaces and commas only, the one entry
    the filter looks for is the empty tag: a file is ignored exactly when
    the empty string is among its tags. *)
Theorem cacheContainsIgnoredTag_blank_setting (c : ListModifiedSettings)
  (currentFileTags : list string) :
  allChars isBlank (tags c) = true ->
  cacheContainsIgnoredTag c currentFileTags
  = JS.includes currentFileTags EmptyString.
Proof.
  intros H. unfold cacheContainsIgnoredTag.
  pose proof (split_commas _ (removeSpaces_blank _ H)) as Hall.
  pose proof (split_nonempty "," (removeSpaces (tags c))) as Hne.
  destruct (JS.split "," (removeSpaces (tags c))) as [| x r];
    [contradiction |].
  destruct (JS.includes currentFileTags EmptyString) eqn:Hi.
  - simpl. rewrite (Hall x (or_introl eq_refl)), Hi. reflexivity.
  - destruct (existsb _ _) eqn:E; [| reflexivity].
    apply existsb_exists in E as (y & Hy & Hm).
    rewrite (Hall y Hy) in Hm. congruence.
Qed.

Lemma cacheContainsIgnoredTag_blank_setting_witness :
  cacheContainsIgnoredTag baseSettings ["#todo"; "#idea"]
  = JS.includes ["#todo"; "#idea"] EmptyString.
Proof.
  apply (cacheContainsIgnoredTag_blank_setting baseSettings
           ["#todo"; "#idea"]).
  reflexivity.
Defined.

(** The tag filter does not see the spaces of the setting. *)
Theorem cacheContainsIgnoredTag_ignores_spaces (c : ListModifiedSettings)
  (currentFileTags : list string) :
  cacheContainsIgnoredTag (with_tags (removeSpaces (tags c)) c) currentFileTags
  = cacheContainsIgnoredTag c currentFileTags.
Proof.
  unfold cacheContainsIgnoredTag; simpl. rewrite removeSpaces_idem.
  reflexivity.
Qed.

(** A file is ignored for its tags exactly when one of its tags is, as it
    stands, an entry of the setting once the spaces are removed and the
    setting is cut at the commas. *)
Theorem cacheContainsIgnoredTag_iff (c : ListModifiedSettings)
  (currentFileTags : list string) :
  cacheContainsIgnoredTag c currentFileTags = true
  <-> exists tag, In tag currentFileTags
                  /\ In tag (JS.split "," (removeSpaces (tags c))).
Proof.
  unfold cacheContainsIgnoredTag. rewrite existsb_exists. split.
  - intros (t & Ht & Hi). apply includes_In in Hi. eauto.
  - intros (t & Hf & Hs). exists t. split; [exact Hs |].
    apply includes_In, Hf.
Qed.

(* ================================================================== *)
(** ** The filter on folders *)
(* ================================================================== *)

Lemma pathIsExcluded_found (s : State) (p : string) (f : TFile) :
  getAbstractFileByPath s p = Some f ->
  pathIsExcluded p s
  = (Normal (if String.eqb (excludedFolders (settings s)) EmptyString
             then false
             else existsb (fun excludedFolder =>
                             JS.startsWith (parentPath f) excludedFolder)
                          (excludedFolderPaths (settings s))), s).
Proof.
  intros Hf. unfold pathIsExcluded, excludedFolderPaths, bind, get.
  destruct (String.eqb (excludedFolders (settings s)) EmptyString);
    [reflexivity |].
  rewrite Hf. reflexivity.
Qed.

(** X24. A path that is not in the vault: with no excluded folder configured
    the filter answers no without looking the path up; with any setting
    it fails on the parent of the missing file. *)
Theorem pathIsExcluded_missing_path (s : State) (p : string) :
  getAbstractFileByPath s p = None ->
  pathIsExcluded p s
  = (if String.eqb (excludedFolders (settings s)) EmptyString
     then Normal false
     else Throw "TypeError: Cannot read properties of null (reading 'parent')",
     s).
Proof.
  intros Hf. unfold pathIsExcluded, bind, get.
  destruct (String.eqb (excludedFolders (settings s)) EmptyString);
    [reflexivity |].
  rewrite Hf. reflexivity.
Qed.

Lemma pathIsExcluded_missing_path_witness :
  pathIsExcluded "gone.md" goneExample = (Normal false, goneExample).
Proof.
  apply (pathIsExcluded_missing_path goneExample "gone.md"). reflexivity.
Defined.

(** X26. An empty entry among the excluded folders (left by a comma at the end
    of the setting, or by an entry that is a lone slash) is a prefix of
    every folder: every file of the vault is excluded. *)
Theorem pathIsExcluded_empty_entry (s : State) (p : string) (f : TFile) :
  getAbstractFileByPath s p = Some f ->
  excludedFolders (settings s) <> EmptyString ->
  In EmptyString (excludedFolderPaths (settings s)) ->
  pathIsExcluded p s = (Normal true, s).
Proof.
  intros Hf Hne Hin. rewrite (pathIsExcluded_found s p f Hf).
  destruct (String.eqb_spec (excludedFolders (settings s)) EmptyString);
    [contradiction |].
  replace (existsb _ _) with true; [reflexivity |].
  symmetry. apply existsb_exists. exists EmptyString. split; [exact Hin |].
  unfold JS.startsWith. destruct (parentPath f); reflexivity.
Qed.

(** A file in a folder below an excluded folder is excluded: the
    comparison is a prefix test on the path of the parent folder. *)
Theorem pathIsExcluded_below (s : State) (p1 p2 : string) (f1 f2 : TFile)
  (rest : string) :
  getAbstractFileByPath s p1 = Some f1 ->
  getAbstractFileByPath s p2 = Some f2 ->
  parentPath f2 = (parentPath f1 ++ rest)%string ->
  pathIsExcluded p1 s = (Normal true, s) ->
  pathIsExcluded p2 s = (Normal true, s).
Proof.
  intros H1 H2 Hp. rewrite (pathIsExcluded_found s p1 f1 H1),
    (pathIsExcluded_found s p2 f2 H2).
  destruct (String.eqb (excludedFolders (settings s)) EmptyString);
    [discriminate |].
  intros H. injection H as H.
  replace (existsb _ _) with true; [reflexivity |].
  symmetry. apply existsb_exists. apply existsb_exists in H as (e & He & Hpre).
  exists e. split; [exact He |]. unfold JS.startsWith in *.
  rewrite Hp. apply prefix_append, Hpre.
Qed.

Lemma pathIsExcluded_empty_entry_witness :
  pathIsExcluded "c.md" (excluding "Archive,")
  = (Normal true, excluding "Archive,").
Proof.
  apply (pathIsExcluded_empty_entry (excluding "Archive,") "c.md"
           (plainFile "c")).
  - reflexivity.
  - discriminate.
  - vm_compute. right. left. reflexivity.
Defined.

Lemma pathIsExcluded_below_witness :
  pathIsExcluded "Archive/Sub/n.md" (excluding "Archive")
  = (Normal true, excluding "Archive").
Proof.
  apply (pathIsExcluded_below (excluding "Archive") "Archive/m.md"
           "Archive/Sub/n.md" archivedFile deepFile "/Sub");
    reflexivity.
Defined.

Lemma allChars_skipSpaces (P : ascii -> bool) (s : string) :
  allChars P s = true -> allChars P (skipSpaces s) = true.
Proof.
  induction s as [| c r IH]; simpl; intros H; [reflexivity |].
  apply andb_true_iff in H as [Hc Hr].
  destruct (isSpace c); [apply IH, Hr |]. simpl. rewrite Hc, Hr. reflexivity.
Qed.

(** A setting of excluded folders that holds no space character is taken
    as it is: the entries are what stands between its commas. *)
Theorem replaceCommaSpace_without_space (s : string) :
  allChars (fun c => negb (Ascii.eqb c " ")) s = true ->
  replaceCommaSpace s = s.
Proof.
  induction s as [| c r IH]; intros H; [reflexivity |].
  cbn [replaceCommaSpace].
  assert (H1 : matchSpacesCommaSpace (String c r) = None).
  { unfold matchSpacesCommaSpace.
    pose proof (allChars_skipSpaces _ _ H) as Hs.
    destruct (skipSpaces (String c r)) as [| a [| b t]]; try reflexivity.
    simpl in Hs. apply andb_true_iff in Hs as [_ Hs].
    apply andb_true_iff in Hs as [Hb _]. apply negb_true_iff in Hb.
    rewrite Hb, andb_false_r. reflexivity. }
  assert (H2 : matchSpaceSpacesComma (String c r) = None).
  { simpl in H. apply andb_true_iff in H as [Hc _].
    apply negb_true_iff in Hc. simpl. rewrite Hc. reflexivity. }
  rewrite H1, H2. simpl in H. apply andb_true_iff in H as [_ Hr].
  rewrite (IH Hr). reflexivity.
Qed.

Lemma replaceCommaSpace_without_space_witness :
  replaceCommaSpace "Archive/Old,Templates" = "Archive/Old,Templates".
Proof.
  apply (replaceCommaSpace_without_space "Archive/Old,Templates").
  reflexivity.
Defined.

(** X27. The first separator written as a comma and a space is turned into a
    comma, whatever follows it: the expression is applied once, so a
    second separator written that way keeps its space. *)
Theorem replaceCommaSpace_first_separator (a b : string) :
  allChars (fun c => negb (isSpace c)) a = true ->
  replaceCommaSpace (a ++ String "," (String " " b)) = (a ++ String "," b)%string.
Proof.
  induction a as [| c r IH]; intros H; [reflexivity |].
  simpl in H. apply andb_true_iff in H as [Hc Hr].
  apply negb_true_iff in Hc.
  cbn [String.append replaceCommaSpace].
  assert (H1 : matchSpacesCommaSpace
                 (String c (r ++ String "," (String " " b))) = None).
  { unfold matchSpacesCommaSpace. cbn [skipSpaces]. rewrite Hc.
    destruct r as [| d r'].
    - cbn [String.append]. rewrite andb_false_r. reflexivity.
    - cbn [String.append]. simpl in Hr.
      apply andb_true_iff in Hr as [Hd _]. apply negb_true_iff in Hd.
      destruct (Ascii.eqb d " ") eqn:E.
      + apply Ascii.eqb_eq in E. subst d. discriminate Hd.
      + rewrite andb_false_r. reflexivity. }
  assert (H2 : matchSpaceSpacesComma
                 (String c (r ++ String "," (String " " b))) = None).
  { cbn [matchSpaceSpacesComma].
    destruct (Ascii.eqb c " ") eqn:E; [| reflexivity].
    apply Ascii.eqb_eq in E. subst c. discriminate Hc. }
  rewrite H1, H2, (IH Hr). reflexivity.
Qed.

Lemma replaceCommaSpace_first_separator_witness :
  replaceCommaSpace "Archive, Templates, Inbox" = "Archive,Templates, Inbox".
Proof.
  apply (replaceCommaSpace_first_separator "Archive" "Templates, Inbox").
  reflexivity.
Defined.

(* ================================================================== *)
(** ** The cache-change handler on the day stored *)
(* ================================================================== *)

Lemma remove_not_included (xs : list string) (x : string) :
  JS.includes xs x = false -> JS.remove xs x = xs.
Proof.
  unfold JS.includes, JS.remove. induction xs as [| y r IH]; simpl;
    [reflexivity |].
  intros H. apply orb_false_iff in H as [Hy Hr].
  rewrite String.eqb_sym, Hy. simpl. rewrite (IH Hr). reflexivity.
Qed.

Lemma includes_push_same (xs : list string) (x : string) :
  JS.includes (JS.push xs x) x = true.
Proof.
  unfold JS.includes, JS.push. rewrite existsb_app. simpl.
  rewrite String.eqb_refl. apply orb_true_r.
Qed.

Lemma pathIsExcluded_at (s s0 : State) (p : string) (f : TFile) :
  getAbstractFileByPath s p = Some f ->
  files s0 = files s ->
  excludedFolders (settings s0) = excludedFolders (settings s) ->
  pathIsExcluded p s0 = (Normal (folderExcluded s f), s0).
Proof.
  intros Hf Hfiles Hex.
  assert (Hf0 : getAbstractFileByPath s0 p = Some f).
  { unfold getAbstractFileByPath in *. rewrite Hfiles. exact Hf. }
  rewrite (pathIsExcluded_found s0 p f Hf0).
  unfold folderExcluded, excludedFolderPaths. rewrite Hex. reflexivity.
Qed.

(** On the day stored, and for a file that is not the daily note, the
    handler computes the new tracked set and hands over to the update
    routine. *)
Lemma onCacheChange_ordinary (file vaultFile : TFile)
  (currentFileTags : list string) (s : State) :
  ordinaryChange s file vaultFile ->
  onCacheChange file currentFileTags s
  = updateTrackedFiles false
      (with_settings
         (with_trackedFiles
            (trackedAfterChange s file vaultFile currentFileTags)
            (settings s)) s).
Proof.
  intros (Hdate & Hfolder & Hdaily & Hfile).
  unfold trackedAfterChange, excludedNow.
  unfold onCacheChange, writeLocal, setTrackedFiles,
    getDailyNote, modifyState, bind, get, ret.
  rewrite Hdate, String.eqb_refl.
  cbn -[updateTrackedFiles pathIsExcluded JS.includes JS.remove JS.push].
  rewrite Hfolder, Hdaily.
  destruct (JS.includes (trackedFiles (settings s)) (path file)) eqn:Hi;
    destruct (cacheContainsIgnoredTag (settings s) currentFileTags) eqn:Ht;
    destruct (folderExcluded s vaultFile) eqn:Hx;
    destruct (noteTitleContainsIgnoredText (settings s) (basename file)) eqn:Hn;
    repeat (cbn -[updateTrackedFiles pathIsExcluded JS.includes JS.remove
                  JS.push];
            rewrite ?(pathIsExcluded_at s _ _ _ Hfile) by reflexivity;
            rewrite ?includes_push_same, ?Hi, ?Hx, ?Hn, ?andb_false_r,
              ?andb_true_r);
    rewrite ?(remove_not_included _ _ Hi);
    reflexivity.
Qed.

Lemma remove_not_In (xs : list string) (x : string) : ~ In x (JS.remove xs x).
Proof.
  unfold JS.remove. intros H. apply filter_In in H as [_ H].
  rewrite String.eqb_refl in H. discriminate H.
Qed.

(** X12. A cache change of a file that a rule excludes (an ignored tag, an
    excluded folder or an ignored text in the title) leaves the file out
    of the tracked set, whether it was tracked or not; the other paths
    keep their places. *)
Theorem onCacheChange_excluded_file (file vaultFile : TFile)
  (currentFileTags : list string) (s : State) :
  ordinaryChange s file vaultFile ->
  excludedNow s file vaultFile currentFileTags = true ->
  trackedFiles (settings (snd (onCacheChange file currentFileTags s)))
  = JS.remove (trackedFiles (settings s)) (path file)
  /\ ~ In (path file)
       (trackedFiles (settings (snd (onCacheChange file currentFileTags s)))).
Proof.
  intros Hord Hex.
  rewrite (onCacheChange_ordinary file vaultFile currentFileTags s Hord).
  rewrite updateTrackedFiles_settings. unfold trackedAfterChange.
  rewrite Hex. simpl. split; [reflexivity | apply remove_not_In].
Qed.

(** X13. A cache change of a file that no rule excludes leaves the file
    tracked: a path already tracked keeps its place, a new path goes to
    the end, and in a set without duplicates the path is there once. *)
Theorem onCacheChange_tracked_file (file vaultFile : TFile)
  (currentFileTags : list string) (s : State) :
  ordinaryChange s file vaultFile ->
  excludedNow s file vaultFile currentFileTags = false ->
  NoDup (trackedFiles (settings s)) ->
  trackedFiles (settings (snd (onCacheChange file currentFileTags s)))
  = (if JS.includes (trackedFiles (settings s)) (path file)
     then trackedFiles (settings s)
     else (trackedFiles (settings s) ++ [path file])%list)
  /\ count_occ string_dec
       (trackedFiles (settings (snd (onCacheChange file currentFileTags s))))
       (path file) = 1%nat.
Proof.
  intros Hord Hex Hnd.
  pose proof (onCacheChange_NoDup file currentFileTags s Hnd) as Hnd'.
  rewrite (onCacheChange_ordinary file vaultFile currentFileTags s Hord)
    in *.
  rewrite updateTrackedFiles_settings in *. unfold trackedAfterChange in *.
  rewrite Hex in *. simpl in *. split; [reflexivity |].
  apply (proj1 (NoDup_count_occ' string_dec _) Hnd').
  destruct (JS.includes (trackedFiles (settings s)) (path file)) eqn:Hi.
  - apply includes_In, Hi.
  - unfold JS.push. apply in_or_app. right. left. reflexivity.
Qed.

Lemma onCacheChange_excluded_file_witness :
  trackedFiles
    (settings (snd (onCacheChange archivedFile []
                      (with_settings
                         (with_trackedFiles ["c.md"; "Archive/m.md"]
                            (settings (excluding "Archive")))
                         (excluding "Archive")))))
  = JS.remove ["c.md"; "Archive/m.md"] "Archive/m.md"
  /\ ~ In "Archive/m.md"
       (trackedFiles
          (settings (snd (onCacheChange archivedFile []
                            (with_settings
                               (with_trackedFiles ["c.md"; "Archive/m.md"]
                                  (settings (excluding "Archive")))
                               (excluding "Archive")))))).
Proof.
  apply (onCacheChange_excluded_file archivedFile archivedFile []
           (with_settings
              (with_trackedFiles ["c.md"; "Archive/m.md"]
                 (settings (excluding "Archive")))
              (excluding "Archive"))).
  - vm_compute. repeat split.
  - reflexivity.
Defined.

Lemma onCacheChange_tracked_file_witness :
  trackedFiles
    (settings (snd (onCacheChange (plainFile "c") [] gatedExample)))
  = (if JS.includes (trackedFiles (settings gatedExample))
          (path (plainFile "c"))
     then trackedFiles (settings gatedExample)
     else (trackedFiles (settings gatedExample) ++ [path (plainFile "c")])%list)
  /\ count_occ string_dec
       (trackedFiles
          (settings (snd (onCacheChange (plainFile "c") [] gatedExample))))
       (path (plainFile "c")) = 1%nat.
Proof.
  apply (onCacheChange_tracked_file (plainFile "c") (plainFile "c") []
           gatedExample).
  - vm_compute. repeat split.
  - reflexivity.
  - vm_compute. repeat constructor; simpl; intuition discriminate.
Defined.

(** X14. On the day stored, a cache change of the daily note itself does
    nothing at all: nothing is tracked or untracked, saved or written,
    even when the path of the note is in the tracked set. *)
Theorem onCacheChange_daily_note (file : TFile)
  (currentFileTags : list string) (s : State) :
  lastTrackedDate (settings s) = today s ->
  dailyFolder s = true ->
  isDailyNote file (getAbstractFileByPath s (path (dailyNoteFile s))) = true ->
  onCacheChange file currentFileTags s = (Normal tt, s).
Proof.
  intros Hdate Hfolder Hdaily.
  unfold onCacheChange, getDailyNote, bind, get, ret.
  rewrite Hdate, String.eqb_refl. cbn -[updateTrackedFiles pathIsExcluded].
  rewrite Hfolder, Hdaily. reflexivity.
Qed.

Lemma onCacheChange_daily_note_witness :
  onCacheChange dailyFile [] gatedExample = (Normal tt, gatedExample).
Proof.
  apply (onCacheChange_daily_note dailyFile [] gatedExample); reflexivity.
Defined.

(* ================================================================== *)
(** ** The cache-change handler on a new day *)
(* ================================================================== *)

Lemma bind_settings_after {A B : Type} (m : Async A) (k : A -> Async B)
  (s s1 : State) (a : A) :
  m s = (Normal a, s1) -> keepsSettings (k a) ->
  settings (snd (bind m k s)) = settings s1.
Proof.
  intros Hm Hk. unfold bind. rewrite Hm. apply Hk.
Qed.

(** X15. On the first cache change of a new day, once the update called at the
    rollover has returned, the tracked set is empty and the new date is
    stored however the handler goes on: the path of the event is pushed on
    the array the settings no longer hold, so the file that changed is not
    tracked. *)
Theorem onCacheChange_new_day (file : TFile) (currentFileTags : list string)
  (s : State) :
  lastTrackedDate (settings s) <> today s ->
  fst (updateTrackedFiles false s) = Normal tt ->
  trackedFiles (settings (snd (onCacheChange file currentFileTags s))) = []
  /\ lastTrackedDate (settings (snd (onCacheChange file currentFileTags s)))
     = today s.
Proof.
  intros Hdate Hu.
  pose proof (updateTrackedFiles_settings false s) as Hk.
  destruct (updateTrackedFiles false s) as [[[] | e] s1] eqn:Hrun;
    [| discriminate Hu].
  simpl in Hk.
  assert (Hs : settings (snd (onCacheChange file currentFileTags s))
               = with_lastTrackedDate (today s)
                   (with_trackedFiles [] (settings s1)));
    [| rewrite Hs; split; reflexivity].
  unfold onCacheChange. unfold bind at 1, get at 1. cbv zeta.
  destruct (String.eqb_spec (lastTrackedDate (settings s)) (today s));
    [contradiction |].
  cbn [negb].
  match goal with
  | |- context [bind ?m ?k] =>
      assert (Hm : m s
                   = (Normal false,
                      with_settings
                        (with_lastTrackedDate (today s)
                           (with_trackedFiles [] (settings s1))) s1));
      [| rewrite (bind_settings_after m k s _ false Hm)]
  end.
  - unfold bind, setTrackedFiles, modifyState, ret. rewrite Hrun.
    reflexivity.
  - reflexivity.
  - apply keeps_bind; [apply keeps_getDailyNote | intros dailyNote].
    destruct (isDailyNote file dailyNote); [apply keeps_ret |].
    apply keeps_bind; [apply keeps_get | intros s2].
    assert (Hpath : keepsSettings
                      (bind (pathIsExcluded (path file))
                         (fun excluded : bool =>
                            if excluded then ret false
                            else ret (negb (noteTitleContainsIgnoredText
                                              (settings s2) (basename file)))))).
    { apply keeps_bind; [apply keeps_pathIsExcluded | intros x].
      destruct x; apply keeps_ret. }
    apply keeps_bind.
    + destruct (JS.includes _ _); [apply keeps_ret |].
      destruct (cacheContainsIgnoredTag _ _); [apply keeps_ret | exact Hpath].
    + intros add. apply keeps_bind; [apply keeps_ret | intros _].
      apply keeps_bind.
      * destruct (_ && _)%bool; [apply keeps_ret |].
        apply keeps_bind; [apply keeps_pathIsExcluded | intros x].
        destruct x; apply keeps_ret.
      * intros drop. apply keeps_bind; [apply keeps_ret | intros _].
        apply updateTrackedFiles_settings.
Qed.

Lemma onCacheChange_new_day_witness :
  trackedFiles
    (settings (snd (onCacheChange (plainFile "c") [] rolloverNoInterval))) = []
  /\ lastTrackedDate
       (settings (snd (onCacheChange (plainFile "c") [] rolloverNoInterval)))
     = today rolloverNoInterval.
Proof.
  apply (onCacheChange_new_day (plainFile "c") [] rolloverNoInterval).
  - vm_compute. discriminate.
  - reflexivity.
Defined.

(** X16. On a new day with no daily note and no automatic creation, a cache
    change ends on the exception of the update called at the rollover:
    the tracked set is not cleared, the date is not stored and the file
    of the event is not tracked. *)
Theorem onCacheChange_new_day_without_note (file : TFile)
  (currentFileTags : list string) (s : State) :
  lastTrackedDate (settings s) <> today s ->
  noteMissing s ->
  fst (onCacheChange file currentFileTags s)
  = Throw "TypeError: Cannot read properties of undefined (reading 'path')"
  /\ settings (snd (onCacheChange file currentFileTags s)) = settings s.
Proof.
  intros Hdate Hmiss.
  assert (Hrun : onCacheChange file currentFileTags s
                 = updateTrackedFiles false s);
    [| rewrite Hrun, (updateTrackedFiles_noteMissing false s Hmiss);
       split; reflexivity].
  rewrite (updateTrackedFiles_noteMissing false s Hmiss).
  unfold onCacheChange. unfold bind at 1, get at 1. cbv zeta.
  destruct (String.eqb_spec (lastTrackedDate (settings s)) (today s));
    [contradiction |].
  cbn [negb]. unfold bind at 1. unfold bind at 1.
  rewrite (updateTrackedFiles_noteMissing false s Hmiss). reflexivity.
Qed.

Lemma onCacheChange_new_day_without_note_witness :
  fst (onCacheChange (plainFile "c") [] newDayWithoutNote)
  = Throw "TypeError: Cannot read properties of undefined (reading 'path')"
  /\ settings (snd (onCacheChange (plainFile "c") [] newDayWithoutNote))
     = settings newDayWithoutNote.
Proof.
  apply (onCacheChange_new_day_without_note (plainFile "c") []
           newDayWithoutNote).
  - vm_compute. discriminate.
  - vm_compute. repeat split.
Defined.

(* ================================================================== *)
(** ** The delete and rename handlers *)
(* ================================================================== *)

(** X18. After a file is deleted its path is not in the tracked set, whatever
    the update routine does to the note; the other paths keep their
    order. A file that was not tracked, and a folder, leave the plugin
    untouched: nothing is saved and nothing written. *)
Theorem onVaultDelete_untracks (f : TFile) (s : State) :
  trackedFiles (settings (snd (onVaultDelete (AFile f) s)))
  = JS.remove (trackedFiles (settings s)) (path f)
  /\ ~ In (path f) (trackedFiles (settings (snd (onVaultDelete (AFile f) s))))
  /\ (JS.includes (trackedFiles (settings s)) (path f) = false ->
      onVaultDelete (AFile f) s = (Normal tt, s))
  /\ forall p, onVaultDelete (AFolder p) s = (Normal tt, s).
Proof.
  assert (H : trackedFiles (settings (snd (onVaultDelete (AFile f) s)))
              = JS.remove (trackedFiles (settings s)) (path f)).
  { destruct (JS.includes (trackedFiles (settings s)) (path f)) eqn:Hi.
    - rewrite (onVaultDelete_tracked f s Hi), updateTrackedFiles_settings.
      reflexivity.
    - unfold onVaultDelete, bind, get. rewrite Hi. simpl.
      symmetry. apply remove_not_included, Hi. }
  rewrite H. repeat split.
  - apply remove_not_In.
  - intros Hi. unfold onVaultDelete, bind, get. rewrite Hi. reflexivity.
Qed.

Lemma onVaultRename_tracked_set (f : TFile) (oldPath : string) (s : State) :
  trackedFiles (settings (snd (onVaultRename (AFile f) oldPath s)))
  = (if JS.includes (trackedFiles (settings s)) oldPath
     then (JS.remove (trackedFiles (settings s)) oldPath ++ [path f])%list
     else trackedFiles (settings s)).
Proof.
  destruct (JS.includes (trackedFiles (settings s)) oldPath) eqn:Hi.
  - rewrite (onVaultRename_tracked f oldPath s Hi).
    destruct (JS.strIncludes (outputFormat (settings s)) "[[link]]");
      [reflexivity |].
    rewrite updateTrackedFiles_settings. reflexivity.
  - unfold onVaultRename, bind, get. rewrite Hi. reflexivity.
Qed.

(** X19. A rename of a tracked file takes the old path out of the tracked set
    and puts the new path at its end, whether or not the note is written
    afterwards; a rename of a file that is not tracked leaves the plugin
    untouched, the new path is not tracked. *)
Theorem onVaultRename_moves_path (f : TFile) (oldPath : string) (s : State) :
  trackedFiles (settings (snd (onVaultRename (AFile f) oldPath s)))
  = (if JS.includes (trackedFiles (settings s)) oldPath
     then (JS.remove (trackedFiles (settings s)) oldPath ++ [path f])%list
     else trackedFiles (settings s))
  /\ (JS.includes (trackedFiles (settings s)) oldPath = false ->
      onVaultRename (AFile f) oldPath s = (Normal tt, s)).
Proof.
  split; [apply onVaultRename_tracked_set |].
  intros Hi. unfold onVaultRename, bind, get. rewrite Hi. reflexivity.
Qed.

(** X20. A rename to a path that is not tracked keeps the tracked set free of
    duplicates. *)
Theorem onVaultRename_NoDup (file : TAbstractFile) (oldPath : string)
  (s : State) :
  NoDup (trackedFiles (settings s)) ->
  (forall f, file = AFile f ->
             JS.includes (trackedFiles (settings s)) (path f) = false) ->
  NoDup (trackedFiles (settings (snd (onVaultRename file oldPath s)))).
Proof.
  intros Hnd Hnew. destruct file as [f | p]; [| exact Hnd].
  rewrite (onVaultRename_tracked_set f oldPath s).
  destruct (JS.includes (trackedFiles (settings s)) oldPath); [| exact Hnd].
  apply (rename_NoDup _ oldPath (path f) Hnd). apply Hnew. reflexivity.
Qed.

Lemma onVaultRename_NoDup_witness :
  NoDup (trackedFiles
           (settings (snd (onVaultRename (AFile (plainFile "b")) "a.md"
                             linkExample)))).
Proof.
  apply (onVaultRename_NoDup (AFile (plainFile "b")) "a.md" linkExample).
  - vm_compute. repeat constructor; simpl; intuition discriminate.
  - intros f Hf. injection Hf as <-. reflexivity.
Defined.

(** X17. The delete handler and the cache-change handler keep the tracked set
    free of duplicates, for every event and every state, however the
    handler ends. *)
Theorem delete_and_change_keep_NoDup (s : State) :
  NoDup (trackedFiles (settings s)) ->
  (forall file,
      NoDup (trackedFiles (settings (snd (onVaultDelete file s)))))
  /\ (forall file currentFileTags,
         NoDup (trackedFiles
                  (settings (snd (onCacheChange file currentFileTags s))))).
Proof.
  intros H. split.
  - intros file. apply onVaultDelete_NoDup, H.
  - intros file currentFileTags. apply onCacheChange_NoDup, H.
Qed.

Lemma delete_and_change_keep_NoDup_witness :
  (forall file,
      NoDup (trackedFiles (settings (snd (onVaultDelete file gatedExample)))))
  /\ (forall file currentFileTags,
         NoDup (trackedFiles
                  (settings (snd (onCacheChange file currentFileTags
                                    gatedExample))))).
Proof.
  apply (delete_and_change_keep_NoDup gatedExample).
  vm_compute. repeat constructor; simpl; intuition discriminate.
Defined.

(* ================================================================== *)
(** ** What the update routine touches *)
(* ================================================================== *)

Lemma state_eta (s : State) :
  with_data (data s) (with_trace (trace s ++ [])%list s) = s.
Proof. destruct s. simpl. rewrite app_nil_r. reflexivity. Qed.

Lemma touches_nothing {A : Type} (m : Async A) :
  (forall s, snd (m s) = s) -> touchesOnlyVault m.
Proof.
  intros H s. exists [], (data s). rewrite H. split; [| constructor].
  symmetry. apply state_eta.
Qed.

Lemma touches_ret {A : Type} (a : A) : touchesOnlyVault (ret a).
Proof. apply touches_nothing. reflexivity. Qed.

Lemma touches_throw {A : Type} (e : string) : touchesOnlyVault (@throw A e).
Proof. apply touches_nothing. reflexivity. Qed.

Lemma touches_get : touchesOnlyVault get.
Proof. apply touches_nothing. reflexivity. Qed.

Lemma touches_bind {A B : Type} (m : Async A) (k : A -> Async B) :
  touchesOnlyVault m -> (forall a, touchesOnlyVault (k a)) ->
  touchesOnlyVault (bind m k).
Proof.
  intros Hm Hk s. unfold bind. destruct (Hm s) as (t & d & H & Hs).
  destruct (m s) as [[a | e] s1]; simpl in H; subst s1.
  - destruct (Hk a (with_data d (with_trace (trace s ++ t) s)))
      as (t' & d' & H' & Hs').
    exists (t ++ t')%list, d'. rewrite H'. simpl. rewrite app_assoc.
    split; [reflexivity |]. apply Forall_app. split; assumption.
  - exists t, d. split; [reflexivity | exact Hs].
Qed.

Lemma touches_emit (e : Effect) :
  (forall s, savesOnly (settings s) e) -> touchesOnlyVault (emit e).
Proof.
  intros He s. exists [e], (data s). split.
  - destruct s. reflexivity.
  - constructor; [apply He | constructor].
Qed.

Lemma touches_read (f : TFile) : touchesOnlyVault (read f).
Proof.
  apply touches_nothing. intros s. unfold read.
  destruct (lookup (path f) (data s)); reflexivity.
Qed.

Lemma touches_modify (f : TFile) (text : string) :
  touchesOnlyVault (modify f text).
Proof.
  intros s.
  exists [EModify (path f) text], (store (path f) text (data s)). split.
  - destruct s. reflexivity.
  - repeat constructor.
Qed.

Lemma touches_append (f : TFile) (text : string) :
  touchesOnlyVault (append f text).
Proof.
  unfold append. apply touches_bind; [apply touches_read | intros old].
  apply touches_bind; [apply touches_emit; intros; exact I | intros _].
  intros s. exists [], (store (path f) (old ++ text) (data s)). split.
  - destruct s. simpl. rewrite app_nil_r. reflexivity.
  - constructor.
Qed.

Lemma touches_renderTracked : touchesOnlyVault renderTracked.
Proof.
  apply touches_nothing. intros s. rewrite renderTracked_rendered.
  reflexivity.
Qed.

Lemma touches_saveSettings : touchesOnlyVault saveSettings.
Proof.
  intros s. exists [ESaveData (settings s)], (data s). split.
  - destruct s. reflexivity.
  - repeat constructor.
Qed.

Lemma touches_replaceSections (note : TFile) (hs : list HeadingCache) :
  forall content, touchesOnlyVault (replaceSections note hs content).
Proof.
  induction hs as [| h rest IH]; intros content; cbn [replaceSections].
  - apply touches_ret.
  - apply touches_bind; [apply touches_get | intros s0].
    destruct (String.eqb (Cache.heading h) (heading (settings s0)));
      [| apply IH].
    apply touches_bind.
    + destruct rest; (apply touches_bind;
                      [apply touches_renderTracked | intros; apply touches_ret]).
    + intros content'.
      apply touches_bind; [apply touches_modify | intros; apply IH].
Qed.

Lemma touches_appendDefaultSection (note : TFile) :
  touchesOnlyVault (appendDefaultSection note).
Proof.
  unfold appendDefaultSection, displayNotice, notice.
  apply touches_bind; [apply touches_emit; intros; exact I | intros _].
  apply touches_bind; [apply touches_get | intros s0].
  apply touches_bind; [apply touches_renderTracked | intros items].
  apply touches_bind; [apply touches_append | intros _].
  apply touches_saveSettings.
Qed.

Lemma touches_writeNote (doWrite : bool) (dailyNote : option TFile) :
  touchesOnlyVault (writeNote doWrite dailyNote).
Proof.
  destruct dailyNote as [note |]; [| apply touches_throw]. unfold writeNote.
  apply touches_bind; [apply touches_read | intros text].
  apply touches_bind; [apply touches_get | intros s0].
  destruct (isUndefined _ || _)%bool; [apply touches_appendDefaultSection |].
  destruct (negb _ && negb doWrite)%bool; [apply touches_ret |].
  apply touches_replaceSections.
Qed.

Lemma resolveNote_found (s : State) (note : TFile) :
  dailyFolder s = true ->
  getAbstractFileByPath s (path (dailyNoteFile s)) = Some note ->
  resolveNote s = (Normal (Some note), saved s).
Proof.
  intros Hfolder Hnote.
  unfold resolveNote, saveSettings, tryCatch, getDailyNote, bind, get, emit,
    modifyState, ret; simpl.
  rewrite Hfolder. unfold getAbstractFileByPath in *; simpl.
  rewrite Hnote. reflexivity.
Qed.

(** X3. The update routine never changes the settings: neither the tracked
    set nor the stored date, whether it writes, returns at the gate or
    fails. *)
Theorem updateTrackedFiles_keeps_settings (doWrite : bool) (s : State) :
  settings (snd (updateTrackedFiles doWrite s)) = settings s.
Proof. apply updateTrackedFiles_settings. Qed.

Lemma updateTrackedFiles_found_frame (doWrite : bool) (s : State)
  (note : TFile) :
  dailyFolder s = true ->
  getAbstractFileByPath s (path (dailyNoteFile s)) = Some note ->
  exists t d,
    snd (updateTrackedFiles doWrite s)
    = with_data d (with_trace (trace s ++ t)%list s).
Proof.
  intros Hfolder Hnote. rewrite updateTrackedFiles_halves. unfold bind.
  rewrite (resolveNote_found s note Hfolder Hnote).
  destruct (touches_writeNote doWrite (Some note) (saved s))
    as (t & d & H & _).
  exists (ESaveData (settings s) :: t), d. rewrite H. simpl.
  rewrite <- app_assoc. reflexivity.
Qed.

(** X4. When today's daily note is in the vault, the routine changes nothing
    but the content of the vault and the trace of its calls, which only
    grows: no file is created and no further call of the routine is
    queued. *)
Theorem updateTrackedFiles_note_found (doWrite : bool) (s : State)
  (note : TFile) :
  dailyFolder s = true ->
  getAbstractFileByPath s (path (dailyNoteFile s)) = Some note ->
  exists t d,
    snd (updateTrackedFiles doWrite s)
    = with_data d (with_trace (trace s ++ t)%list s).
Proof. apply updateTrackedFiles_found_frame. Qed.

Lemma updateTrackedFiles_note_found_witness :
  exists t d,
    snd (updateTrackedFiles true regionExample)
    = with_data d (with_trace (trace regionExample ++ t)%list regionExample).
Proof.
  apply (updateTrackedFiles_note_found true regionExample dailyFile);
    reflexivity.
Defined.

(* ================================================================== *)
(** ** The branches of the update routine *)
(* ================================================================== *)

Lemma appendDefaultSection_normal (note : TFile) (s : State)
  (text : string) (items : list string) :
  lookup (path note) (data s) = Some text ->
  rendered s = Normal items ->
  appendDefaultSection note s
  = (Normal tt,
     with_trace
       (trace s
        ++ [ENotice "[Obsidian List Modified] Cannot find the designated heading in your file. Creating a default one for now...";
            EAppend (path note) (defaultSection (settings s) items);
            ESaveData (settings s)])%list
       (with_data
          (store (path note) (text ++ defaultSection (settings s) items)
             (data s)) s)).
Proof.
  intros Htext Hr.
  unfold appendDefaultSection, displayNotice, notice, emit, modifyState.
  unfold bind at 1. unfold bind at 1, get at 1. unfold bind at 1.
  rewrite renderTracked_rendered.
  rewrite (rendered_sameVault _ s), Hr by (repeat split).
  unfold append, read, saveSettings, emit, modifyState, bind, get; simpl.
  rewrite Htext. simpl. rewrite <- !app_assoc. reflexivity.
Qed.

(** X5. When the note has no heading, or no heading name is configured, the
    routine appends a section to the text of the note (a line feed, the
    heading line, the rendered lines) and saves the settings again; this
    does not depend on the write interval or on the call being a tick. *)
Theorem updateTrackedFiles_appends_section (doWrite : bool) (s : State)
  (note : TFile) (text : string) (items : list string) :
  noteResolved s note text ->
  (isUndefined (headingsOf (JS.split LF text))
   || String.eqb (heading (settings s)) EmptyString)%bool = true ->
  rendered s = Normal items ->
  fst (updateTrackedFiles doWrite s) = Normal tt
  /\ noteText (snd (updateTrackedFiles doWrite s))
     = Some (text ++ defaultSection (settings s) items)%string
  /\ writes (snd (updateTrackedFiles doWrite s))
     = (writes s
        ++ [EAppend (path note) (defaultSection (settings s) items)])%list.
Proof.
  intros Hres Hno Hr.
  rewrite (updateTrackedFiles_resolved doWrite s note text Hres). cbv zeta.
  rewrite Hno.
  assert (Hpath : path note = path (dailyNoteFile s)).
  { destruct Hres as (_ & Hnote & _).
    apply (getAbstractFileByPath_path s _ _ Hnote). }
  rewrite (appendDefaultSection_normal note (saved s) text items).
  - repeat split.
    + unfold noteText; simpl. rewrite <- Hpath. apply lookup_store.
    + unfold writes; simpl. rewrite !filter_app; simpl.
      rewrite app_nil_r. reflexivity.
  - apply Hres.
  - rewrite <- (rendered_sameVault s (saved s)); [exact Hr | repeat split].
Qed.

Lemma updateTrackedFiles_appends_section_witness :
  fst (updateTrackedFiles false (vault rolloverSettings ["a"; "b"] ["x"]))
  = Normal tt
  /\ noteText
       (snd (updateTrackedFiles false
               (vault rolloverSettings ["a"; "b"] ["x"])))
     = Some ("x" ++ defaultSection rolloverSettings ["- a"; "- b"])%string
  /\ writes
       (snd (updateTrackedFiles false
               (vault rolloverSettings ["a"; "b"] ["x"])))
     = (writes (vault rolloverSettings ["a"; "b"] ["x"])
        ++ [EAppend (path dailyFile)
              (defaultSection rolloverSettings ["- a"; "- b"])])%list.
Proof.
  apply (updateTrackedFiles_appends_section false
           (vault rolloverSettings ["a"; "b"] ["x"]) dailyFile "x"
           ["- a"; "- b"]).
  - vm_compute. repeat split.
  - reflexivity.
  - reflexivity.
Defined.

(** X6. When the note has headings and none of them has the configured text,
    the routine writes nothing, on a tick no more than otherwise: the
    section is not created. *)
Theorem updateTrackedFiles_no_matching_heading (doWrite : bool) (s : State)
  (note : TFile) (text : string) (hs : list HeadingCache) :
  noteResolved s note text ->
  headingsOf (JS.split LF text) = Some hs ->
  heading (settings s) <> EmptyString ->
  existsb (headingIs (heading (settings s))) hs = false ->
  updateTrackedFiles doWrite s = (Normal tt, saved s).
Proof.
  intros Hres Hhs Hname Hno.
  rewrite (updateTrackedFiles_resolved doWrite s note text Hres). cbv zeta.
  rewrite Hhs. simpl isUndefined.
  destruct (String.eqb_spec (heading (settings s)) EmptyString);
    [contradiction |].
  simpl orb. cbv iota.
  destruct (negb (writeIntervalInMs s =? 0) && negb doWrite)%bool;
    [reflexivity |].
  apply replaceSections_no_match. exact Hno.
Qed.

Lemma updateTrackedFiles_no_matching_heading_witness :
  updateTrackedFiles true
    (vault (withTracked ["c.md"]) ["c"] ["# Other"; "x"])
  = (Normal tt, saved (vault (withTracked ["c.md"]) ["c"] ["# Other"; "x"])).
Proof.
  apply (updateTrackedFiles_no_matching_heading true
           (vault (withTracked ["c.md"]) ["c"] ["# Other"; "x"]) dailyFile
           (JS.join NL ["# Other"; "x"])
           [Cache.mkHeading "Other" 1 0 0]).
  - vm_compute. repeat split.
  - reflexivity.
  - discriminate.
  - reflexivity.
Defined.

(** X7. When the configured heading is the last heading of the note, a write
    replaces everything under it, to the end of the note, by the rendered
    list; an empty tracked set leaves the heading line alone. *)
Theorem updateTrackedFiles_last_section (doWrite : bool) (s : State)
  (note : TFile) (text : string) (pre : list string) (hl : string)
  (region items : list string) :
  noteResolved s note text ->
  JS.split LF text = pre ++ hl :: region ->
  sectionAt (heading (settings s)) pre hl region [] = true ->
  heading (settings s) <> EmptyString ->
  (negb (writeIntervalInMs s =? 0) && negb doWrite)%bool = false ->
  rendered s = Normal items ->
  fst (updateTrackedFiles doWrite s) = Normal tt
  /\ noteText (snd (updateTrackedFiles doWrite s))
     = Some (JS.join NL (pre ++ hl :: items)).
Proof.
  intros Hres Hsplit Hsec Hname Hgate Hr.
  rewrite <- (app_nil_r region) in Hsplit.
  rewrite (updateTrackedFiles_section doWrite s note text pre hl region []
             items Hres Hsplit Hsec Hname Hgate Hr).
  split; [reflexivity |]. simpl snd. rewrite noteText_written.
  - simpl. rewrite app_nil_r. reflexivity.
  - destruct Hres as (_ & Hnote & _).
    apply (getAbstractFileByPath_path s _ _ Hnote).
Qed.

Lemma updateTrackedFiles_last_section_witness :
  fst (updateTrackedFiles true lastSectionExample) = Normal tt
  /\ noteText (snd (updateTrackedFiles true lastSectionExample))
     = Some (JS.join NL (["intro"] ++ "# Heading" :: ["- c"])).
Proof.
  apply (updateTrackedFiles_last_section true lastSectionExample dailyFile
           (JS.join NL ["intro"; "# Heading"; "old1"; "old2"])
           ["intro"] "# Heading" ["old1"; "old2"] ["- c"]).
  - vm_compute. repeat split.
  - reflexivity.
  - reflexivity.
  - discriminate.
  - reflexivity.
  - reflexivity.
Defined.

(** X8. When another heading follows the configured one, a write puts the
    rendered list under the heading and keeps the last line of the old
    section before the next heading; with nothing between the two
    headings the list is inserted and no line is removed. *)
Theorem updateTrackedFiles_inner_section (doWrite : bool) (s : State)
  (note : TFile) (text : string) (pre : list string) (hl : string)
  (region : list string) (next : string) (post items : list string) :
  noteResolved s note text ->
  JS.split LF text = pre ++ hl :: region ++ next :: post ->
  sectionAt (heading (settings s)) pre hl region (next :: post) = true ->
  heading (settings s) <> EmptyString ->
  (negb (writeIntervalInMs s =? 0) && negb doWrite)%bool = false ->
  rendered s = Normal items ->
  fst (updateTrackedFiles doWrite s) = Normal tt
  /\ noteText (snd (updateTrackedFiles doWrite s))
     = Some (JS.join NL
               (pre ++ hl :: items ++ lastLine region ++ next :: post)).
Proof.
  intros Hres Hsplit Hsec Hname Hgate Hr.
  rewrite (updateTrackedFiles_section doWrite s note text pre hl region
             (next :: post) items Hres Hsplit Hsec Hname Hgate Hr).
  split; [reflexivity |]. simpl snd. rewrite noteText_written.
  - reflexivity.
  - destruct Hres as (_ & Hnote & _).
    apply (getAbstractFileByPath_path s _ _ Hnote).
Qed.

Lemma updateTrackedFiles_inner_section_witness :
  fst (updateTrackedFiles true emptySectionExample) = Normal tt
  /\ noteText (snd (updateTrackedFiles true emptySectionExample))
     = Some (JS.join NL
               ([] ++ "# Heading" :: ["- c"] ++ lastLine [] ++ "# Next" :: [])).
Proof.
  apply (updateTrackedFiles_inner_section true emptySectionExample dailyFile
           (JS.join NL ["# Heading"; "# Next"])
           [] "# Heading" [] "# Next" [] ["- c"]).
  - vm_compute. repeat split.
  - reflexivity.
  - reflexivity.
  - discriminate.
  - reflexivity.
  - reflexivity.
Defined.

(* ================================================================== *)
(** ** The daily note missing, created, or its folder missing *)
(* ================================================================== *)

(** X9. When the daily-notes folder is missing and the plugin may not create
    the note, the lookup throws and is caught: a notice is shown and the
    message logged; the routine then queues a call of itself and fails on
    the note it does not have, as it does when only the note is missing. *)
Theorem updateTrackedFiles_folder_missing (doWrite : bool) (s : State) :
  dailyFolder s = false ->
  automaticallyCreateDailyNote (settings s) = false ->
  updateTrackedFiles doWrite s
  = (Throw "TypeError: Cannot read properties of undefined (reading 'path')",
     with_queued (S (queued s))
       (with_trace
          (trace s
           ++ [ESaveData (settings s);
               ENotice "Unable to load daily note. See console for details.";
               EConsoleError "Failed to find daily notes folder"])%list s)).
Proof.
  intros Hfolder Hauto.
  unfold updateTrackedFiles, saveSettings, tryCatch, getDailyNote, notice,
    consoleError, bind, get, emit, modifyState, ret, throw; simpl.
  rewrite Hfolder; simpl. rewrite Hauto; simpl.
  rewrite <- !app_assoc. reflexivity.
Qed.

Lemma updateTrackedFiles_folder_missing_witness :
  updateTrackedFiles true noFolderExample
  = (Throw "TypeError: Cannot read properties of undefined (reading 'path')",
     with_queued (S (queued noFolderExample))
       (with_trace
          (trace noFolderExample
           ++ [ESaveData (settings noFolderExample);
               ENotice "Unable to load daily note. See console for details.";
               EConsoleError "Failed to find daily notes folder"])%list
          noFolderExample)).
Proof.
  apply (updateTrackedFiles_folder_missing true noFolderExample);
    reflexivity.
Defined.

Lemma find_app_none {A : Type} (f : A -> bool) (l1 l2 : list A) :
  find f l1 = None -> find f (l1 ++ l2) = find f l2.
Proof.
  induction l1 as [| x r IH]; simpl; [reflexivity |].
  destruct (f x); [discriminate | exact IH].
Qed.

Lemma resolveNote_creates (s : State) :
  noteToCreate s ->
  exists s1,
    resolveNote s = (Normal (Some (dailyNoteFile s)), s1)
    /\ files s1 = (files s ++ [dailyNoteFile s])%list
    /\ data s1 = store (path (dailyNoteFile s)) (dailyTemplate s) (data s)
    /\ queued s1 = S (queued s)
    /\ settings s1 = settings s
    /\ dailyFolder s1 = true
    /\ dailyNoteFile s1 = dailyNoteFile s
    /\ writes s1 = writes s.
Proof.
  intros (Hfolder & Hnote & Hauto).
  unfold resolveNote, saveSettings, tryCatch, getDailyNote, createDailyNote,
    displayNotice, notice, bind, get, emit, modifyState, ret; simpl.
  rewrite Hfolder. unfold getAbstractFileByPath in *; simpl.
  rewrite Hnote; simpl. rewrite Hauto; simpl.
  eexists. split; [reflexivity |]. simpl.
  repeat split; try assumption.
  unfold writes; simpl. rewrite !filter_app; simpl.
  rewrite !app_nil_r. reflexivity.
Qed.

(** X10. When today's note does not exist and the plugin may create it, the
    routine creates it from the template, goes on with it in the same
    call, and queues one call of itself; that call finds the note and
    queues no other, so the routine is retried once. *)
Theorem updateTrackedFiles_creates_note (doWrite : bool) (s : State) :
  noteToCreate s ->
  files (snd (updateTrackedFiles doWrite s))
  = (files s ++ [dailyNoteFile s])%list
  /\ getAbstractFileByPath (snd (updateTrackedFiles doWrite s))
       (path (dailyNoteFile s)) = Some (dailyNoteFile s)
  /\ queued (snd (updateTrackedFiles doWrite s)) = S (queued s)
  /\ forall again,
       queued (snd (updateTrackedFiles again
                      (with_queued (queued s)
                         (snd (updateTrackedFiles doWrite s)))))
       = queued s.
Proof.
  intros Hcreate.
  destruct (resolveNote_creates s Hcreate)
    as (s1 & Hr & Hfiles & _ & Hq & _ & Hfolder & Hdn & _).
  rewrite updateTrackedFiles_halves. unfold bind at 1 2 3 4. rewrite Hr.
  destruct (touches_writeNote doWrite (Some (dailyNoteFile s)) s1)
    as (t & d & H & _).
  rewrite H.
  assert (Hfind : getAbstractFileByPath
                    (with_data d (with_trace (trace s1 ++ t) s1))
                    (path (dailyNoteFile s)) = Some (dailyNoteFile s)).
  { unfold getAbstractFileByPath; simpl. rewrite Hfiles.
    destruct Hcreate as (_ & Hnone & _).
    unfold getAbstractFileByPath in Hnone.
    rewrite (find_app_none _ _ _ Hnone). simpl.
    rewrite String.eqb_refl. reflexivity. }
  repeat split.
  - exact Hfiles.
  - exact Hfind.
  - exact Hq.
  - intros again.
    destruct (updateTrackedFiles_found_frame again
                (with_queued (queued s)
                   (with_data d (with_trace (trace s1 ++ t) s1)))
                (dailyNoteFile s)) as (t' & d' & H').
    + exact Hfolder.
    + simpl. rewrite Hdn. exact Hfind.
    + rewrite H'. reflexivity.
Qed.

Lemma updateTrackedFiles_creates_note_witness :
  files (snd (updateTrackedFiles true autoCreateExample))
  = (files autoCreateExample ++ [dailyNoteFile autoCreateExample])%list
  /\ getAbstractFileByPath (snd (updateTrackedFiles true autoCreateExample))
       (path (dailyNoteFile autoCreateExample))
     = Some (dailyNoteFile autoCreateExample)
  /\ queued (snd (updateTrackedFiles true autoCreateExample))
     = S (queued autoCreateExample)
  /\ forall again,
       queued (snd (updateTrackedFiles again
                      (with_queued (queued autoCreateExample)
                         (snd (updateTrackedFiles true autoCreateExample)))))
       = queued autoCreateExample.
Proof.
  apply (updateTrackedFiles_creates_note true autoCreateExample).
  vm_compute. repeat split.
Defined.

(* ================================================================== *)
(** ** The settings are saved *)
(* ================================================================== *)

Lemma lastSaved_kept (c : ListModifiedSettings) (t : list Effect) :
  Forall (savesOnly c) t ->
  fold_left (fun acc e => match e with ESaveData c' => Some c' | _ => acc end)
            t (Some c) = Some c.
Proof.
  induction 1 as [| e r He _ IH]; simpl; [reflexivity |].
  destruct e; try exact IH. simpl in He. subst. exact IH.
Qed.

Lemma lastSaved_after (c : ListModifiedSettings) (a t : list Effect) :
  Forall (savesOnly c) t ->
  lastSaved (a ++ ESaveData c :: t) = Some c.
Proof.
  intros H. unfold lastSaved. rewrite fold_left_app. simpl.
  apply lastSaved_kept, H.
Qed.

Lemma resolveNote_trace (s : State) :
  exists t,
    trace (snd (resolveNote s)) = (trace s ++ ESaveData (settings s) :: t)%list
    /\ Forall (savesOnly (settings s)) t
    /\ settings (snd (resolveNote s)) = settings s.
Proof.
  unfold resolveNote, saveSettings, tryCatch, getDailyNote, createDailyNote,
    displayNotice, notice, consoleError, bind, get, emit, modifyState, ret;
    simpl.
  destruct (dailyFolder s); simpl.
  - destruct (getAbstractFileByPath _ _); simpl.
    + exists []. repeat split. constructor.
    + destruct (automaticallyCreateDailyNote (settings s)); simpl;
        eexists; (split; [rewrite <- ?app_assoc; reflexivity |]);
        split; try reflexivity; repeat constructor.
  - destruct (automaticallyCreateDailyNote (settings s)); simpl;
      eexists; (split; [rewrite <- ?app_assoc; reflexivity |]);
      split; try reflexivity; repeat constructor.
Qed.

(** Every call of the update routine leaves the current settings saved,
    however it ends: the last [saveData] call holds the settings the
    plugin has when the routine is over. *)
Lemma updateTrackedFiles_saved (doWrite : bool) (s : State) :
  settingsSaved (snd (updateTrackedFiles doWrite s)).
Proof.
  unfold settingsSaved. rewrite updateTrackedFiles_settings.
  rewrite updateTrackedFiles_halves. unfold bind.
  destruct (resolveNote_trace s) as (t1 & Htrace & Hsaves & Hset).
  destruct (resolveNote s) as [[dn | e] s1]; simpl in *.
  - destruct (touches_writeNote doWrite dn s1) as (t & d & H & Ht).
    rewrite H. simpl. rewrite Htrace, <- app_assoc. simpl.
    apply lastSaved_after. apply Forall_app. split; [exact Hsaves |].
    rewrite <- Hset. exact Ht.
  - rewrite Htrace. apply lastSaved_after, Hsaves.
Qed.

(** X11. The update routine, the delete and the rename of a tracked file, and
    the cache change of an ordinary file all end with the settings saved
    as they then are, whether the note could be written or not. *)
Theorem handlers_leave_settings_saved (s : State) :
  (forall doWrite, settingsSaved (snd (updateTrackedFiles doWrite s)))
  /\ (forall f,
         JS.includes (trackedFiles (settings s)) (path f) = true ->
         settingsSaved (snd (onVaultDelete (AFile f) s)))
  /\ (forall f oldPath,
         JS.includes (trackedFiles (settings s)) oldPath = true ->
         settingsSaved (snd (onVaultRename (AFile f) oldPath s)))
  /\ (forall file vaultFile currentFileTags,
         ordinaryChange s file vaultFile ->
         settingsSaved (snd (onCacheChange file currentFileTags s))).
Proof.
  repeat split.
  - intros doWrite. apply updateTrackedFiles_saved.
  - intros f Hi. rewrite (onVaultDelete_tracked f s Hi).
    apply updateTrackedFiles_saved.
  - intros f oldPath Hi. rewrite (onVaultRename_tracked f oldPath s Hi).
    destruct (JS.strIncludes (outputFormat (settings s)) "[[link]]");
      [| apply updateTrackedFiles_saved].
    unfold settingsSaved, saved; simpl.
    apply (lastSaved_after _ _ []). constructor.
  - intros file vaultFile currentFileTags Hord.
    rewrite (onCacheChange_ordinary file vaultFile currentFileTags s Hord).
    apply updateTrackedFiles_saved.
Qed.

(* ================================================================== *)
(** ** Rendering a template *)
(* ================================================================== *)

Lemma getSubstitution_noDollar (matched before after v : string) :
  noDollar v = true -> JS.getSubstitution matched before after v = v.
Proof.
  unfold noDollar. induction v as [| c r IH]; simpl; intros H; [reflexivity |].
  apply andb_true_iff in H as [Hc Hr]. apply negb_true_iff in Hc.
  rewrite Hc, (IH Hr). reflexivity.
Qed.

Lemma findFirst_absent (q : string) :
  q <> EmptyString ->
  forall s, occurrences q s = 0%nat -> JS.findFirst q s = None.
Proof.
  intros Hq. induction s as [| c s IH]; intros H.
  - cbn [JS.findFirst]. destruct q; [contradiction | reflexivity].
  - cbn [occurrences] in H. cbn [JS.findFirst].
    destruct (String.prefix q (String c s)); [discriminate |].
    rewrite (IH H). reflexivity.
Qed.

Lemma placeholder_not_empty (q : string) :
  In q placeholders -> q <> EmptyString.
Proof.
  simpl. intros [<- | [<- | [<- | [<- | []]]]]; discriminate.
Qed.

Lemma replace_absent (q v s : string) :
  In q placeholders -> occurrences q s = 0%nat -> JS.replace q v s = s.
Proof.
  intros Hq H. unfold JS.replace.
  rewrite (findFirst_absent q (placeholder_not_empty q Hq) s H). reflexivity.
Qed.

Lemma occurrences_other_placeholder (p q pre post v : string) :
  In p placeholders -> In q placeholders -> p <> q ->
  occurrences p (pre ++ v ++ post) = 0%nat ->
  occurrences p (pre ++ q ++ post) = 0%nat.
Proof.
  intros Hp Hq Hne H0.
  pose proof placeholders_clear as H.
  pose proof (proj1 (forallb_forall _ _) H p Hp) as H1.
  pose proof (proj1 (forallb_forall _ _) H1 q Hq) as H2.
  apply andb_true_iff in H2 as [H2 Hn].
  apply andb_true_iff in H2 as [Hb Ha].
  apply Nat.eqb_eq in Hn.
  destruct (String.eqb_spec p q) as [-> | _]; [contradiction |].
  pose proof (occurrences_block p q Hb Ha pre post) as Hblock.
  pose proof (occurrences_append_ge p pre (v ++ post)) as G1.
  pose proof (occurrences_append_ge p v post) as G2.
  lia.
Qed.

(** X28. A template without any placeholder is rendered as it is, for every
    file. *)
Theorem renderTemplate_without_placeholder (format : string) (file : TFile) :
  (forall ph, In ph placeholders -> occurrences ph format = 0%nat) ->
  renderTemplate format file = format.
Proof.
  intros H. unfold renderTemplate.
  rewrite (replace_absent "[[link]]") by (try apply H; simpl; auto).
  rewrite (replace_absent "[[name]]") by (try apply H; simpl; auto).
  rewrite (replace_absent "[[tags]]") by (try apply H; simpl; auto).
  rewrite (replace_absent "[[ctime]]") by (try apply H; simpl; auto 6).
  reflexivity.
Qed.

Lemma renderTemplate_without_placeholder_witness :
  renderTemplate "- a [note] costs $5" (plainFile "c") = "- a [note] costs $5".
Proof.
  apply (renderTemplate_without_placeholder "- a [note] costs $5"
           (plainFile "c")).
  simpl. intros ph [<- | [<- | [<- | [<- | []]]]]; reflexivity.
Defined.

(** X29. A template in which one placeholder occurs, between [pre] and [post],
    is rendered as [pre], the value of the placeholder for the file, and
    [post], provided the value holds no dollar sign and brings no
    placeholder of its own into the line. *)
Theorem renderTemplate_one_placeholder (format : string) (file : TFile)
  (ph pre post : string) :
  In ph placeholders ->
  JS.findFirst ph format = Some (pre, post) ->
  noDollar (placeholderValue ph file) = true ->
  (forall q, In q placeholders ->
             occurrences q (pre ++ placeholderValue ph file ++ post)
             = 0%nat) ->
  renderTemplate format file
  = (pre ++ placeholderValue ph file ++ post)%string.
Proof.
  intros Hph Hfind Hdollar Hclean.
  pose proof (findFirst_split ph format pre post Hfind) as Hformat.
  assert (Hhere : JS.replace ph (placeholderValue ph file) format
                  = (pre ++ placeholderValue ph file ++ post)%string).
  { unfold JS.replace. rewrite Hfind.
    rewrite (getSubstitution_noDollar _ _ _ _ Hdollar). reflexivity. }
  assert (Hbefore : forall q x, In q placeholders -> q <> ph ->
                                JS.replace q x format = format).
  { intros q x Hq Hne. apply (replace_absent q x format Hq).
    rewrite Hformat.
    apply (occurrences_other_placeholder q ph pre post
             (placeholderValue ph file) Hq Hph Hne (Hclean q Hq)). }
  assert (Hafter : forall q x, In q placeholders ->
             JS.replace q x (pre ++ placeholderValue ph file ++ post)
             = (pre ++ placeholderValue ph file ++ post)%string).
  { intros q x Hq. apply (replace_absent q x _ Hq), Hclean, Hq. }
  assert (Hl : In "[[link]]" placeholders) by (simpl; auto).
  assert (Hn : In "[[name]]" placeholders) by (simpl; auto).
  assert (Ht : In "[[tags]]" placeholders) by (simpl; auto).
  assert (Hc : In "[[ctime]]" placeholders) by (simpl; auto 6).
  unfold renderTemplate. simpl in Hph.
  destruct Hph as [<- | [<- | [<- | [<- | []]]]];
    cbn [placeholderValue String.eqb Ascii.eqb Bool.eqb] in *;
    rewrite ?(Hbefore "[[link]]") by (assumption || discriminate);
    rewrite ?Hhere;
    rewrite ?(Hbefore "[[name]]") by (assumption || discriminate);
    rewrite ?Hhere;
    rewrite ?(Hbefore "[[tags]]") by (assumption || discriminate);
    rewrite ?Hhere;
    rewrite ?(Hbefore "[[ctime]]") by (assumption || discriminate);
    rewrite ?Hhere;
    rewrite ?(Hafter "[[name]]") by assumption;
    rewrite ?(Hafter "[[tags]]") by assumption;
    rewrite ?(Hafter "[[ctime]]") by assumption;
    reflexivity.
Qed.

Lemma renderTemplate_one_placeholder_witness :
  renderTemplate "- [[link]] (changed)" (plainFile "c")
  = ("- " ++ placeholderValue "[[link]]" (plainFile "c") ++ " (changed)")%string.
Proof.
  apply (renderTemplate_one_placeholder "- [[link]] (changed)" (plainFile "c")
           "[[link]]" "- " " (changed)").
  - simpl. auto.
  - reflexivity.
  - reflexivity.
  - simpl. intros q [<- | [<- | [<- | [<- | []]]]]; reflexivity.
Defined.

(* ================================================================== *)
(** ** The folder filter is a prefix test *)
(* ================================================================== *)

Lemma prefix_iff_append (e s : string) :
  String.prefix e s = true <-> exists rest, s = (e ++ rest)%string.
Proof.
  split.
  - intros H. exists (JS.drop (String.length e) s). apply prefix_drop, H.
  - intros (rest & ->). apply prefix_self_append.
Qed.

(** X25. With a setting of excluded folders, a file of the vault is excluded
    exactly when the path of its parent folder begins with one of the
    entries: the test is on characters, not on folder names, so an entry
    also excludes the folders whose names merely begin like it. *)
Theorem pathIsExcluded_prefix_test (s : State) (p : string) (f : TFile) :
  getAbstractFileByPath s p = Some f ->
  excludedFolders (settings s) <> EmptyString ->
  pathIsExcluded p s = (Normal true, s)
  <-> exists e rest,
        In e (excludedFolderPaths (settings s))
        /\ parentPath f = (e ++ rest)%string.
Proof.
  intros Hf Hne. rewrite (pathIsExcluded_found s p f Hf).
  destruct (String.eqb_spec (excludedFolders (settings s)) EmptyString);
    [contradiction |].
  split.
  - intros H. injection H as H. apply existsb_exists in H as (e & He & Hp).
    apply prefix_iff_append in Hp as (rest & Hp). exists e, rest. auto.
  - intros (e & rest & He & Hp).
    replace (existsb _ _) with true; [reflexivity |].
    symmetry. apply existsb_exists. exists e. split; [exact He |].
    apply prefix_iff_append. exists rest. exact Hp.
Qed.

Lemma pathIsExcluded_prefix_test_witness :
  pathIsExcluded "ArchiveNotes/k.md" (excluding "Archive")
  = (Normal true, excluding "Archive")
  <-> exists e rest,
        In e (excludedFolderPaths (settings (excluding "Archive")))
        /\ parentPath notesFile = (e ++ rest)%string.
Proof.
  apply (pathIsExcluded_prefix_test (excluding "Archive")
           "ArchiveNotes/k.md" notesFile).
  - reflexivity.
  - discriminate.
Defined.

Example folder_with_a_longer_name_is_excluded :
  pathIsExcluded "ArchiveNotes/k.md" (excluding "Archive")
  = (Normal true, excluding "Archive").
Proof. reflexivity. Qed.

(* ================================================================== *)
(** ** The write an event triggers *)
(* ================================================================== *)








(* ================================================================== *)
(** ** The handlers cut at their awaits *)
(* ================================================================== *)

Lemma runAlone_bind {A : Type} (n : nat) (m : Async A) (f : A -> Async Task)
  (s : State) :
  runAlone (S n) (Resume (bind m f)) s
  = match m s with
    | (Normal x, s') => runAlone (S n) (Resume (f x)) s'
    | (Throw e, s') => Some (Throw e, s')
    end.
Proof.
  cbn [runAlone]. unfold bind. destruct (m s) as [[x | e] s']; reflexivity.
Qed.

Lemma runAlone_ret (n : nat) (t : Task) (s : State) :
  runAlone (S n) (Resume (ret t)) s = runAlone n t s.
Proof. reflexivity. Qed.

Lemma bind_at {A B : Type} (m : Async A) (k : A -> Async B) (s : State) :
  bind m k s
  = match m s with
    | (Normal a, s') => k a s'
    | (Throw e, s') => (Throw e, s')
    end.
Proof. reflexivity. Qed.

(** Run alone, the second half of the cut routine is [writeNote]. *)
Lemma updateRest_alone (n : nat) (doWrite : bool) (dailyNote : option TFile)
  (s : State) :
  runAlone (S (S (S (S (S n))))) (Resume (updateRest doWrite dailyNote)) s
  = Some (writeNote doWrite dailyNote s).
Proof.
  destruct dailyNote as [note |]; [| reflexivity].
  unfold updateRest, writeNote. rewrite runAlone_bind, bind_at.
  destruct (read note s) as [[text | e] s1]; [| reflexivity].
  rewrite runAlone_ret. cbv zeta.
  rewrite runAlone_bind, bind_at. unfold get. cbv beta iota.
  destruct (isUndefined (headingsOf (JS.split LF text))
            || String.eqb (heading (settings s1)) EmptyString)%bool.
  - unfold appendDefaultSection.
    rewrite runAlone_bind, bind_at.
    destruct (displayNotice _ s1) as [[[] | e] s2]; [| reflexivity].
    rewrite runAlone_bind, bind_at. unfold get. cbv beta iota.
    rewrite runAlone_bind, bind_at.
    destruct (renderTracked s2) as [[items | e] s3]; [| reflexivity].
    rewrite runAlone_bind, bind_at.
    destruct (append note _ s3) as [[[] | e] s4]; [| reflexivity].
    rewrite runAlone_ret, runAlone_bind.
    destruct (saveSettings s4) as [[[] | e] s5]; reflexivity.
  - destruct (negb (writeIntervalInMs s1 =? 0) && negb doWrite)%bool;
      [reflexivity |].
    rewrite runAlone_bind.
    destruct (replaceSections note _ _ s1) as [[[] | e] s2]; reflexivity.
Qed.

(** Run alone, the cut routine is [updateTrackedFiles]. *)
Lemma updateBody_alone (n : nat) (doWrite : bool) (s : State) :
  runAlone (8 + n) (Resume (updateBody doWrite)) s
  = Some (updateTrackedFiles doWrite s).
Proof.
  rewrite updateTrackedFiles_halves.
  unfold updateBody, resolveNote. cbn [Nat.add].
  rewrite runAlone_bind, !bind_at.
  destruct (saveSettings s) as [[[] | e] s1]; [| reflexivity].
  rewrite runAlone_ret, runAlone_bind, bind_at.
  destruct (tryCatch getDailyNote _ s1) as [[[f |] | e] s2];
    [| | reflexivity].
  - apply updateRest_alone.
  - rewrite runAlone_bind, !bind_at. unfold get. cbv beta iota.
    destruct (automaticallyCreateDailyNote (settings s2)).
    + rewrite runAlone_bind, !bind_at.
      destruct (displayNotice _ s2) as [[[] | e] s3]; [| reflexivity].
      rewrite runAlone_bind.
      destruct (createDailyNote s3) as [[created | e] s4]; [| reflexivity].
      rewrite runAlone_ret, runAlone_bind, !bind_at.
      unfold modifyState, ret, bind. apply updateRest_alone.
    + rewrite runAlone_bind, !bind_at. unfold modifyState, ret, bind.
      apply (updateRest_alone (S (S n))).
Qed.
Lemma awaitUpdate_alone (n : nat) (doWrite : bool) (s : State) :
  runAlone (9 + n) (AwaitUpdate doWrite Settle) s
  = Some (updateTrackedFiles doWrite s).
Proof.
  change (9 + n)%nat with (S (8 + n)). cbn [runAlone].
  rewrite updateBody_alone.
  destruct (updateTrackedFiles doWrite s) as [r s']. reflexivity.
Qed.

(** Run alone, the cut handlers are the handlers. *)
Lemma deleteBody_alone (n : nat) (file : TAbstractFile) (s : State) :
  runAlone (10 + n) (Resume (deleteBody file)) s
  = Some (onVaultDelete file s).
Proof.
  destruct file as [f | p]; [| reflexivity].
  unfold deleteBody, onVaultDelete.
  change (10 + n)%nat with (S (9 + n)).
  rewrite runAlone_bind, bind_at. unfold get. cbv beta iota.
  destruct (JS.includes (trackedFiles (settings s)) (path f)); [| reflexivity].
  rewrite runAlone_bind, bind_at. unfold setTrackedFiles, modifyState.
  rewrite runAlone_ret. apply awaitUpdate_alone.
Qed.

Lemma renameBody_alone (n : nat) (file : TAbstractFile) (oldPath : string)
  (s : State) :
  runAlone (11 + n) (Resume (renameBody file oldPath)) s
  = Some (onVaultRename file oldPath s).
Proof.
  destruct file as [f | p]; [| reflexivity].
  unfold renameBody, onVaultRename.
  change (11 + n)%nat with (S (S (9 + n))).
  rewrite runAlone_bind, bind_at. unfold get. cbv beta iota.
  destruct (JS.includes (trackedFiles (settings s)) oldPath); [| reflexivity].
  rewrite runAlone_bind, bind_at. unfold setTrackedFiles, modifyState.
  rewrite runAlone_bind, bind_at.
  destruct (saveSettings _) as [[[] | e] s1]; [| reflexivity].
  rewrite runAlone_ret, runAlone_bind, bind_at. cbv beta iota.
  destruct (negb (JS.strIncludes (outputFormat (settings s1)) "[[link]]"));
    [| reflexivity].
  rewrite runAlone_ret. apply awaitUpdate_alone.
Qed.

Lemma cacheChangeRest_alone (n : nat) (shared : bool)
  (trackedFiles0 : list string) (file : TFile)
  (currentFileTags : list string) (s : State) :
  runAlone (10 + n)
    (Resume (cacheChangeRest shared trackedFiles0 file currentFileTags)) s
  = Some (cacheChangeTail shared trackedFiles0 file currentFileTags s).
Proof.
  unfold cacheChangeRest, cacheChangeTail. cbv zeta.
  change (10 + n)%nat with (S (9 + n)).
  rewrite runAlone_bind, bind_at.
  destruct (getDailyNote s) as [[dailyNote | e] s1]; [| reflexivity].
  destruct (isDailyNote file dailyNote); [reflexivity |].
  rewrite runAlone_bind, bind_at. unfold get. cbv beta iota.
  rewrite runAlone_bind, bind_at.
  match goal with
  | |- context [match ?m s1 with _ => _ end] =>
      destruct (m s1) as [[add | e] s2]; [| reflexivity]
  end.
  rewrite runAlone_bind, bind_at.
  destruct (writeLocal shared _ s2) as [[[] | e] s3]; [| reflexivity].
  rewrite runAlone_bind, bind_at.
  match goal with
  | |- context [match ?m s3 with _ => _ end] =>
      destruct (m s3) as [[drop | e] s4]; [| reflexivity]
  end.
  rewrite runAlone_bind, bind_at.
  destruct (writeLocal shared _ s4) as [[[] | e] s5]; [| reflexivity].
  rewrite runAlone_ret. apply awaitUpdate_alone.
Qed.

(** The handler as its two parts: the rollover, then the tail. *)
Lemma onCacheChange_tail (file : TFile) (currentFileTags : list string)
  (s : State) :
  onCacheChange file currentFileTags s
  = if negb (String.eqb (lastTrackedDate (settings s)) (today s))
    then match updateTrackedFiles false s with
         | (Normal _, s1) =>
             cacheChangeTail false (trackedFiles (settings s)) file
               currentFileTags
               (with_settings
                  (with_lastTrackedDate (today s)
                     (with_trackedFiles [] (settings s1))) s1)
         | (Throw e, s1) => (Throw e, s1)
         end
    else cacheChangeTail true (trackedFiles (settings s)) file
           currentFileTags s.
Proof.
  unfold onCacheChange, cacheChangeTail.
  rewrite bind_at. unfold get at 1. cbv beta iota zeta.
  rewrite bind_at.
  destruct (negb (String.eqb (lastTrackedDate (settings s)) (today s))).
  - rewrite !bind_at.
    destruct (updateTrackedFiles false s) as [[[] | e] s1]; reflexivity.
  - reflexivity.
Qed.

Lemma cacheChangeBody_alone (n : nat) (file : TFile)
  (currentFileTags : list string) (s : State) :
  runAlone (12 + n) (Resume (cacheChangeBody file currentFileTags)) s
  = Some (onCacheChange file currentFileTags s).
Proof.
  rewrite onCacheChange_tail. unfold cacheChangeBody.
  change (12 + n)%nat with (S (S (10 + n))).
  rewrite runAlone_bind. unfold get at 1. cbv beta iota zeta.
  destruct (negb (String.eqb (lastTrackedDate (settings s)) (today s))).
  - rewrite runAlone_ret. cbn [runAlone].
    change (10 + n)%nat with (8 + (2 + n))%nat.
    rewrite updateBody_alone.
    pose proof (updateTrackedFiles_settings false s) as Hset.
    destruct (updateTrackedFiles false s) as [[[] | e] s1]; [| reflexivity].
    simpl in Hset.
    change (8 + (2 + n))%nat with (S (S (S (S (S (S (S (S (S (S n))))))))))%nat.
    rewrite runAlone_bind. unfold get at 1. cbv beta iota zeta.
    rewrite runAlone_bind. unfold setTrackedFiles at 1.
    unfold modifyState at 1. cbv beta iota.
    rewrite runAlone_bind. unfold modifyState at 1. cbv beta iota.
    rewrite Hset. apply (cacheChangeRest_alone n false).
  - apply (cacheChangeRest_alone (S (S n)) true).
Qed.
(* ================================================================== *)
(** ** The queues of the four wrappers *)
(* ================================================================== *)

Lemma length_setNth {A : Type} (i : nat) (x : A) (l : list A) :
  List.length (setNth i x l) = List.length l.
Proof.
  revert i. induction l as [| y r IH]; intros [| k]; simpl;
    try reflexivity.
  rewrite IH. reflexivity.
Qed.

Lemma nth_error_setNth_same {A : Type} (i : nat) (x y : A) (l : list A) :
  nth_error l i = Some y -> nth_error (setNth i x l) i = Some x.
Proof.
  revert i. induction l as [| z r IH]; intros [| k] H; simpl in *;
    try discriminate; [reflexivity | apply IH, H].
Qed.

Lemma nth_error_setNth_other {A : Type} (i j : nat) (x : A) (l : list A) :
  i <> j -> nth_error (setNth i x l) j = nth_error l j.
Proof.
  revert i j. induction l as [| z r IH]; intros [| k] [| m] H; simpl;
    try reflexivity; [contradiction |].
  apply IH. intros ->. apply H. reflexivity.
Qed.

Lemma wrapper_eqb_refl (w : Wrapper) : wrapper_eqb w w = true.
Proof. destruct w; reflexivity. Qed.

Lemma queueFree_settled (w : Wrapper) (l : list Invocation) (i k : nat)
  (a : Invocation) :
  queueFree w (firstn i l) = true ->
  (k < i)%nat -> nth_error l k = Some a -> wrapper a = w ->
  isSettled a = true.
Proof.
  intros Hfree Hlt Ha Hw.
  assert (Hin : In a (firstn i l)).
  { apply (nth_error_In _ k). rewrite nth_error_firstn.
    destruct (Nat.ltb_spec k i); [exact Ha | lia]. }
  apply (proj1 (forallb_forall _ _) Hfree) in Hin.
  rewrite Hw, wrapper_eqb_refl in Hin. exact Hin.
Qed.

(** The invariant is kept when one invocation that has not settled goes
    on, started only if it was or if its queue is free, and calls that
    have not started join the pool. *)
Lemma serialPerWrapper_update (c : Config) (i : nat)
  (inv inv' : Invocation) (extra : list Invocation) (s : State) :
  serialPerWrapper c ->
  nth_error (pool c) i = Some inv ->
  wrapper inv' = wrapper inv ->
  isSettled inv = false ->
  (started inv' = true ->
   started inv = true
   \/ queueFree (wrapper inv) (firstn i (pool c)) = true) ->
  Forall (fun x => started x = false) extra ->
  serialPerWrapper (mkConfig (setNth i inv' (pool c) ++ extra) s).
Proof.
  intros Hinv Hi Hw Hopen Hstart Hextra i1 j1 a b Hlt Ha Hb Hab Hs.
  cbn [pool] in Ha, Hb.
  assert (Hj : (j1 < List.length (pool c))%nat).
  { destruct (Nat.ltb_spec j1 (List.length (pool c))) as [H | H];
      [exact H | exfalso].
    rewrite nth_error_app2 in Hb by (rewrite length_setNth; exact H).
    apply nth_error_In in Hb.
    apply (proj1 (Forall_forall _ _) Hextra) in Hb. congruence. }
  rewrite nth_error_app1 in Ha by (rewrite length_setNth; lia).
  rewrite nth_error_app1 in Hb by (rewrite length_setNth; lia).
  destruct (Nat.eq_dec i i1) as [<- | Hi1].
  - (* the earlier call is the one that went on *)
    rewrite nth_error_setNth_other in Hb by lia.
    assert (Hold : isSettled inv = true).
    { apply (Hinv i j1 inv b); try assumption.
      rewrite (nth_error_setNth_same i inv' inv _ Hi) in Ha.
      injection Ha as <-. congruence. }
    congruence.
  - rewrite nth_error_setNth_other in Ha by exact Hi1.
    destruct (Nat.eq_dec i j1) as [<- | Hj1].
    + (* the later call is the one that went on *)
      rewrite (nth_error_setNth_same i inv' inv _ Hi) in Hb.
      injection Hb as <-.
      destruct (Hstart Hs) as [Hwas | Hfree].
      * apply (Hinv i1 i a inv); try assumption. congruence.
      * apply (queueFree_settled (wrapper inv) (pool c) i i1);
          try assumption. congruence.
    + rewrite nth_error_setNth_other in Hb by exact Hj1.
      apply (Hinv i1 j1 a b); assumption.
Qed.

Lemma serialPerWrapper_calls (c : Config) (extra : list Invocation)
  (s : State) :
  serialPerWrapper c ->
  Forall (fun x => started x = false) extra ->
  serialPerWrapper (mkConfig (pool c ++ extra) s).
Proof.
  intros Hinv Hextra i1 j1 a b Hlt Ha Hb Hab Hs. cbn [pool] in Ha, Hb.
  assert (Hj : (j1 < List.length (pool c))%nat).
  { destruct (Nat.ltb_spec j1 (List.length (pool c))) as [H | H];
      [exact H | exfalso].
    rewrite nth_error_app2 in Hb by exact H.
    apply nth_error_In in Hb.
    apply (proj1 (Forall_forall _ _) Hextra) in Hb. congruence. }
  rewrite nth_error_app1 in Ha by lia.
  rewrite nth_error_app1 in Hb by lia.
  apply (Hinv i1 j1 a b); assumption.
Qed.

Lemma notStarted_repeat (w : Wrapper) (ext : bool) (body : Async Task)
  (n : nat) :
  Forall (fun x => started x = false) (repeat (newCall w ext body) n).
Proof.
  apply Forall_forall. intros x Hx. apply repeat_spec in Hx. subst x.
  reflexivity.
Qed.

Lemma serialPerWrapper_suspend (c : Config) (i : nat) (inv : Invocation)
  (t : Task) (s : State) :
  serialPerWrapper c ->
  nth_error (pool c) i = Some inv ->
  isSettled inv = false ->
  started inv = true
  \/ queueFree (wrapper inv) (firstn i (pool c)) = true ->
  serialPerWrapper (suspend i inv t s c).
Proof.
  intros Hinv Hi Hopen Hstart.
  unfold suspend, flushQueued.
  destruct t as [r | seg | doWrite k]; cbn [pool plugin].
  - apply (serialPerWrapper_update c i inv); auto using notStarted_repeat.
  - apply (serialPerWrapper_update c i inv); auto using notStarted_repeat.
  - rewrite <- app_assoc.
    apply (serialPerWrapper_update c i inv); auto.
    apply Forall_app. split.
    + repeat constructor.
    + apply notStarted_repeat.
Qed.

Lemma serialPerWrapper_step (a : Action) (c c' : Config) :
  serialPerWrapper c -> step a c = Some c' -> serialPerWrapper c'.
Proof.
  intros Hinv Hstep. destruct a as [ev | i]; cbn [step] in Hstep.
  - injection Hstep as <-.
    apply serialPerWrapper_calls; [exact Hinv | repeat constructor].
  - destruct (nth_error (pool c) i) as [inv |] eqn:Hi; [| discriminate].
    destruct (task inv) as [r | seg | doWrite k] eqn:Ht; [discriminate | |].
    + destruct (started inv || queueFree (wrapper inv) (firstn i (pool c)))%bool
        eqn:Hgo; [| discriminate].
      apply orb_true_iff in Hgo.
      assert (Hopen : isSettled inv = false)
        by (unfold isSettled; rewrite Ht; reflexivity).
      destruct (seg (plugin c)) as [[t | e] s]; injection Hstep as <-.
      * apply serialPerWrapper_suspend; assumption.
      * apply (serialPerWrapper_suspend c i inv (Settle (Throw e)) s);
          assumption.
    + destruct (awaited inv) as [n |]; [| discriminate].
      destruct (nth_error (pool c) n) as [callee |]; [| discriminate].
      destruct (task callee) as [r | |]; try discriminate.
      injection Hstep as <-.
      rewrite <- (app_nil_r (setNth _ _ _)).
      apply (serialPerWrapper_update c i inv); auto.
      unfold isSettled. rewrite Ht. reflexivity.
Qed.

Lemma serialPerWrapper_schedule (acts : list Action) :
  forall c c',
    serialPerWrapper c -> schedule acts c = Some c' -> serialPerWrapper c'.
Proof.
  induction acts as [| a r IH]; intros c c' Hinv Hrun; cbn [schedule] in Hrun.
  - injection Hrun as <-. exact Hinv.
  - destruct (step a c) as [c1 |] eqn:Hstep; [| discriminate].
    apply (IH c1 c'); [| exact Hrun].
    apply (serialPerWrapper_step a c c1 Hinv Hstep).
Qed.

(** C2 (as the code has it). Whatever the events and the ticks, and in
    whatever order the event loop runs the invocations, two calls made
    through the same wrapper never run at the same time: the one made
    later does not start before the one made earlier has settled, so the
    calls of one wrapper run in the order they were made. This holds for
    each of the three handlers and for the update routine, whose calls by
    the handlers, by itself and by the interval share one queue. *)
Theorem calls_of_one_wrapper_are_serial (acts : list Action) (s : State)
  (c : Config) :
  schedule acts (idle s) = Some c -> serialPerWrapper c.
Proof.
  apply serialPerWrapper_schedule.
  intros i j a b _ Ha. destruct i; discriminate Ha.
Qed.

Lemma not_serialAcrossWrappers (c : Config) (i j : nat) (a b : Invocation) :
  (i < j)%nat ->
  nth_error (pool c) i = Some a ->
  nth_error (pool c) j = Some b ->
  external a = true -> external b = true ->
  started b = true -> isSettled a = false ->
  ~ serialAcrossWrappers c.
Proof.
  intros Hlt Ha Hb Hea Heb Hs Hopen H.
  rewrite (H i j a b Hlt Ha Hb Hea Heb Hs) in Hopen. discriminate Hopen.
Qed.

Lemma callStates_nth (c : Config) (i : nat) (w : Wrapper) (e s t : bool) :
  nth_error (callStates c) i = Some (w, e, s, t) ->
  exists inv,
    nth_error (pool c) i = Some inv
    /\ wrapper inv = w /\ external inv = e /\ started inv = s
    /\ isSettled inv = t.
Proof.
  unfold callStates. rewrite nth_error_map.
  destruct (nth_error (pool c) i) as [inv |]; [| discriminate].
  intros H. injection H as <- <- <- <-. exists inv. repeat split.
Qed.

(** C2, the claim refuted: a cache change of [c.md] arrives on a new day
    and its handler awaits the update routine called at the rollover;
    the rename of [a.md] arrives next, and its handler starts at once,
    because its wrapper has a queue of its own: it changes the tracked
    set while the call made before it has neither settled nor gone past
    line 56. Run to the end, the write made as a last effort for the old
    day lists the renamed set. *)
Lemma rename_starts_while_cache_change_waits :
  exists c c',
    schedule renameDuringRollover (idle renamedVault) = Some c
    /\ callStates c
       = [(WCacheChange, true, true, false); (WUpdate, false, true, false);
          (WRename, true, true, false)]
    /\ trackedFiles (settings (plugin c)) = ["b.md"; "d.md"]
    /\ ~ serialAcrossWrappers c
    /\ schedule renameDuringRolloverToTheEnd (idle renamedVault) = Some c'
    /\ forallb (fun st => snd st) (callStates c') = true
    /\ writes (plugin c')
       = [EModify "2024-01-02.md" (JS.join NL ["# Heading"; "- b"; "- d"]);
          EModify "2024-01-02.md" "# Heading";
          EModify "2024-01-02.md" "# Heading"].
Proof.
  assert (H1 : option_map
                 (fun c => (callStates c, trackedFiles (settings (plugin c))))
                 (schedule renameDuringRollover (idle renamedVault))
               = Some ([(WCacheChange, true, true, false);
                        (WUpdate, false, true, false);
                        (WRename, true, true, false)], ["b.md"; "d.md"]))
    by (vm_compute; reflexivity).
  assert (H2 : option_map
                 (fun c => (forallb (fun st => snd st) (callStates c),
                            writes (plugin c)))
                 (schedule renameDuringRolloverToTheEnd (idle renamedVault))
               = Some (true,
                       [EModify "2024-01-02.md"
                          (JS.join NL ["# Heading"; "- b"; "- d"]);
                        EModify "2024-01-02.md" "# Heading";
                        EModify "2024-01-02.md" "# Heading"]))
    by (vm_compute; reflexivity).
  destruct (schedule renameDuringRollover (idle renamedVault)) as [c |];
    [| discriminate H1].
  destruct (schedule renameDuringRolloverToTheEnd (idle renamedVault))
    as [c' |]; [| discriminate H2].
  cbn [option_map] in H1, H2.
  injection H1 as Hstates Htracked. injection H2 as Hall Hwrites.
  exists c, c'. repeat split; try assumption.
  destruct (callStates_nth c 0 WCacheChange true true false) as (a & Ha & _ & Hea & _ & Hopen);
    [rewrite Hstates; reflexivity |].
  destruct (callStates_nth c 2 WRename true true false) as (b & Hb & _ & Heb & Hsb & _);
    [rewrite Hstates; reflexivity |].
  apply (not_serialAcrossWrappers c 0 2 a b); auto.
Qed.

Lemma calls_of_one_wrapper_are_serial_witness :
  exists c,
    schedule renameDuringRolloverToTheEnd (idle renamedVault) = Some c
    /\ serialPerWrapper c.
Proof.
  destruct (schedule renameDuringRolloverToTheEnd (idle renamedVault))
    as [c |] eqn:Hrun.
  - exists c. split; [reflexivity |].
    apply (calls_of_one_wrapper_are_serial renameDuringRolloverToTheEnd
             renamedVault c Hrun).
  - exfalso.
    assert (H : match schedule renameDuringRolloverToTheEnd
                        (idle renamedVault) with
                | Some _ => true
                | None => false
                end = true) by (vm_compute; reflexivity).
    rewrite Hrun in H. discriminate H.
Defined.

(** The event loop cannot start the second of two cache changes while the
    first awaits the update routine. *)
Example second_cache_change_waits :
  schedule secondChangeTooEarly (idle renamedVault) = None.
Proof. vm_compute. reflexivity. Qed.

(* ================================================================== *)
(** ** Writing twice, and the cache of headings *)
(* ================================================================== *)

(** With the headings of the text that is read, the routine given a cache
    is the routine. *)
Lemma updateTrackedFilesCached_in_step (doWrite : bool) (s : State)
  (note : TFile) (text : string) :
  noteResolved s note text ->
  updateTrackedFilesCached (headingsOf (JS.split LF text)) doWrite s
  = updateTrackedFiles doWrite s.
Proof.
  intros (Hfolder & Hnote & Htext).
  rewrite updateTrackedFiles_halves. unfold updateTrackedFilesCached, bind.
  rewrite (resolveNote_found s note Hfolder Hnote).
  unfold writeNoteCached, writeNote, bind, read.
  change (data (saved s)) with (data s). rewrite Htext. reflexivity.
Qed.

Lemma split_append (a b : string) :
  JS.split LF (a ++ String LF b) = JS.split LF a ++ JS.split LF b.
Proof.
  induction a as [| c r IH]; [reflexivity |].
  cbn [String.append JS.split]. rewrite IH.
  destruct (Ascii.eqb c LF); [reflexivity |].
  pose proof (split_not_nil r) as Hne.
  destruct (JS.split LF r) as [| l ls]; [contradiction | reflexivity].
Qed.

Lemma join_of_split (s : string) : JS.join NL (JS.split LF s) = s.
Proof.
  induction s as [| c r IH]; [reflexivity |].
  cbn [JS.split]. pose proof (split_not_nil r) as Hne.
  destruct (Ascii.eqb c LF) eqn:Hc.
  - apply Ascii.eqb_eq in Hc. subst c.
    destruct (JS.split LF r) as [| l ls]; [contradiction |].
    change (JS.join NL (EmptyString :: l :: ls))
      with (String LF (JS.join NL (l :: ls))).
    rewrite IH. reflexivity.
  - destruct (JS.split LF r) as [| l ls]; [contradiction |].
    destruct ls; cbn [JS.join String.concat String.append] in *;
      rewrite IH; reflexivity.
Qed.

(** The lines of a note to which a section was appended. *)
Lemma split_defaultSection (text name : string) (items : list string) :
  noLF name = true -> items <> [] -> forallb noLF items = true ->
  JS.split LF (text ++ NL ++ "# " ++ name ++ NL ++ JS.join NL items)
  = JS.split LF text ++ ("# " ++ name)%string :: items.
Proof.
  intros Hname Hne Hitems.
  change (text ++ NL ++ "# " ++ name ++ NL ++ JS.join NL items)%string
    with (text ++ String LF (("# " ++ name)
                             ++ String LF (JS.join NL items)))%string.
  rewrite split_append, split_line_LF, split_join by (assumption || exact Hname).
  reflexivity.
Qed.

Lemma headingsFrom_none (lines : list string) :
  forall k, headingsFrom k lines = [] ->
            forallb (fun l => negb (isHeadingLine l)) lines = true.
Proof.
  induction lines as [| l r IH]; intros k H; [reflexivity |].
  cbn [headingsFrom] in H. cbn [forallb]. unfold isHeadingLine at 1.
  destruct (headingOfLine l) as [[n t] |]; [discriminate |].
  apply (IH _ H).
Qed.

Lemma plain_not_named (name : string) (lines : list string) :
  forallb (fun l => negb (isHeadingLine l)) lines = true ->
  forallb (fun l => negb (lineNamed name l)) lines = true.
Proof.
  intros H. apply forallb_forall. intros l Hl.
  apply (proj1 (forallb_forall _ _) H) in Hl.
  unfold isHeadingLine in Hl. unfold lineNamed.
  destruct (headingOfLine l) as [[n t] |]; [discriminate | reflexivity].
Qed.

(** The first run appends a section to a note without headings; the second
    finds the heading it appended, or finds none with the configured text,
    and leaves the text as it is. *)
Lemma second_write_after_append (s : State) (note : TFile) (text : string)
  (items : list string) :
  noteResolved s note text ->
  heading (settings s) <> EmptyString ->
  rendered s = Normal items ->
  forallb plainLine items = true ->
  headingsOf (JS.split LF text) = None ->
  items <> [] ->
  noLF (heading (settings s)) = true ->
  fst (updateTrackedFiles true s) = Normal tt
  /\ fst (updateTrackedFiles true (snd (updateTrackedFiles true s)))
     = Normal tt
  /\ noteText (snd (updateTrackedFiles true (snd (updateTrackedFiles true s))))
     = noteText (snd (updateTrackedFiles true s)).
Proof.
  intros Hres Hname Hr Hplain Hnone Hne Hlf.
  assert (Hpath : path note = path (dailyNoteFile s)).
  { destruct Hres as (_ & Hnote & _).
    apply (getAbstractFileByPath_path s _ _ Hnote). }
  assert (Hitems_lf : forallb noLF items = true).
  { apply forallb_forall. intros l Hl.
    apply (proj1 (forallb_forall _ _) Hplain) in Hl.
    unfold plainLine in Hl. apply andb_true_iff in Hl as [Hl _]. exact Hl. }
  assert (Hitems_h : forallb (fun l => negb (isHeadingLine l)) items = true).
  { apply forallb_forall. intros l Hl.
    apply (proj1 (forallb_forall _ _) Hplain) in Hl.
    unfold plainLine in Hl. apply andb_true_iff in Hl as [_ Hl]. exact Hl. }
  (* the first run *)
  rewrite (updateTrackedFiles_resolved true s note text Hres). cbv zeta.
  rewrite Hnone. cbn [isUndefined orb].
  rewrite (appendDefaultSection_normal note (saved s) text items);
    [| apply Hres
     | rewrite <- (rendered_sameVault s (saved s));
       [exact Hr | repeat split]].
  cbn [fst snd]. split; [reflexivity |].
  set (text1 := (text ++ defaultSection (settings (saved s)) items)%string).
  match goal with
  | |- context [updateTrackedFiles true ?st] => set (s1 := st)
  end.
  set (hl := ("# " ++ heading (settings s))%string).
  assert (Hsplit1 : JS.split LF text1 = JS.split LF text ++ hl :: items).
  { apply split_defaultSection; assumption. }
  assert (Hres1 : noteResolved s1 note text1).
  { destruct Hres as (Hfolder & Hnote & _).
    repeat split; [exact Hfolder | exact Hnote |].
    unfold s1; simpl. apply lookup_store. }
  assert (Htext1 : noteText s1 = Some text1).
  { unfold noteText, s1; simpl. rewrite <- Hpath. apply lookup_store. }
  assert (Hpre : forallb (fun l => negb (isHeadingLine l)) (JS.split LF text)
                 = true).
  { apply (headingsFrom_none _ 0). unfold headingsOf in Hnone.
    destruct (headingsFrom 0 (JS.split LF text)); [reflexivity | discriminate]. }
  assert (Hhl : headingOfLine hl = Some (1%nat, dropSpaces (heading (settings s))))
    by reflexivity.
  destruct (String.eqb (dropSpaces (heading (settings s)))
                       (heading (settings s))) eqn:Hsame.
  - (* the appended line is the configured heading *)
    assert (Hsec : sectionAt (heading (settings s1)) (JS.split LF text) hl
                     items [] = true).
    { unfold sectionAt. change (settings s1) with (settings s).
      unfold lineNamed at 1. rewrite Hhl, Hsame.
      rewrite (plain_not_named _ _ Hpre), Hitems_h. reflexivity. }
    assert (Hr1 : rendered s1 = Normal items).
    { rewrite <- (rendered_sameVault s s1); [exact Hr | repeat split]. }
    assert (Hsplit1' : JS.split LF text1
                       = JS.split LF text ++ hl :: items ++ []).
    { rewrite app_nil_r. exact Hsplit1. }
    rewrite (updateTrackedFiles_section true s1 note text1 (JS.split LF text)
               hl items [] items Hres1 Hsplit1' Hsec Hname
               (andb_false_r _) Hr1).
    cbn [fst snd]. split; [reflexivity |].
    rewrite noteText_written by exact Hpath.
    rewrite Htext1. cbn [kept]. rewrite !app_nil_r.
    rewrite <- Hsplit1, join_of_split. reflexivity.
  - (* no heading has the configured text: nothing is written *)
    rewrite (updateTrackedFiles_resolved true s1 note text1 Hres1). cbv zeta.
    rewrite Hsplit1.
    assert (Hhs : headingsFrom 0 (JS.split LF text ++ hl :: items)
                  = [Cache.mkHeading (dropSpaces (heading (settings s))) 1
                       (0 + Z.of_nat (List.length (JS.split LF text)))
                       (0 + Z.of_nat (List.length (JS.split LF text)))]).
    { rewrite headingsFrom_app, (headingsFrom_plain _ _ Hpre).
      cbn [headingsFrom app]. rewrite Hhl.
      rewrite (headingsFrom_plain _ _ Hitems_h). reflexivity. }
    unfold headingsOf. rewrite Hhs. cbn [isUndefined orb].
    change (settings (saved s1)) with (settings s).
    change (settings s1) with (settings s).
    destruct (String.eqb_spec (heading (settings s)) EmptyString);
      [contradiction |].
    rewrite andb_false_r.
    rewrite replaceSections_no_match.
    + cbn [fst snd]. split; reflexivity.
    + cbn [existsb]. unfold headingIs. cbn [Cache.heading].
      change (settings (saved s1)) with (settings s).
      rewrite Hsame. reflexivity.
Qed.
(** C6 (as the code has it). Two successive writes, the first on a cache
    in step with the note, leave the note after the second as it was after
    the first when: a heading name is configured; the rendered lines are
    plain lines; the cache hands to the second write the headings of the
    text the first one wrote; and either the first write finds the
    configured heading, once in the note, above a section that runs to the
    end of the note or is not empty, or the note has no heading at all, a
    file is tracked and the heading name holds no line feed, in which case
    the first write appends the section and the second finds it as it
    is. *)
Theorem second_write_changes_nothing (s : State) (note : TFile)
  (text : string) (pre : list string) (hl : string)
  (region post items : list string) (cached : option (list HeadingCache)) :
  noteResolved s note text ->
  heading (settings s) <> EmptyString ->
  rendered s = Normal items ->
  forallb plainLine items = true ->
  (JS.split LF text = pre ++ hl :: region ++ post
   /\ sectionAt (heading (settings s)) pre hl region post = true
   /\ (post = [] \/ region <> []))
  \/ (headingsOf (JS.split LF text) = None
      /\ items <> []
      /\ noLF (heading (settings s)) = true) ->
  (forall text1,
      noteText (snd (updateTrackedFiles true s)) = Some text1 ->
      cached = headingsOf (JS.split LF text1)) ->
  fst (updateTrackedFiles true s) = Normal tt
  /\ fst (updateTrackedFilesCached cached true
            (snd (updateTrackedFiles true s))) = Normal tt
  /\ noteText (snd (updateTrackedFilesCached cached true
                      (snd (updateTrackedFiles true s))))
     = noteText (snd (updateTrackedFiles true s)).
Proof.
  intros Hres Hname Hr Hplain Hshape Hcache.
  assert (Hpath : path note = path (dailyNoteFile s)).
  { destruct Hres as (_ & Hnote & _).
    apply (getAbstractFileByPath_path s _ _ Hnote). }
  assert (Htwice :
            fst (updateTrackedFiles true s) = Normal tt
            /\ fst (updateTrackedFiles true (snd (updateTrackedFiles true s)))
               = Normal tt
            /\ noteText (snd (updateTrackedFiles true
                                (snd (updateTrackedFiles true s))))
               = noteText (snd (updateTrackedFiles true s))).
  { destruct Hshape as [(Hsplit & Hsec & Hend) | (Hnone & Hne & Hlf)].
    - apply (second_write_section s note text pre hl region post items);
        assumption.
    - apply (second_write_after_append s note text items); assumption. }
  destruct Htwice as (H1 & H2 & H3). split; [exact H1 |].
  (* the state the first run leaves has the note, with a text *)
  pose proof (updateTrackedFiles_found_frame true s note
                (proj1 Hres) (proj1 (proj2 Hres))) as (t & d & Hs1).
  destruct (noteText (snd (updateTrackedFiles true s))) as [text1 |] eqn:Ht1.
  - assert (Hres1 : noteResolved (snd (updateTrackedFiles true s)) note text1).
    { rewrite Hs1 in Ht1 |- *. destruct Hres as (Hfolder & Hnote & _).
      repeat split; [exact Hfolder | exact Hnote |].
      unfold noteText in Ht1. cbn [data with_data dailyNoteFile] in Ht1 |- *.
      rewrite Hpath. exact Ht1. }
    rewrite (Hcache text1 eq_refl).
    rewrite (updateTrackedFilesCached_in_step true _ note text1 Hres1).
    split; [exact H2 | exact H3].
  - (* the second run of the routine found the text it returned on *)
    exfalso. rewrite Hs1 in H2, Ht1.
    assert (Hgone : lookup (path note) (data (with_data d
                       (with_trace (trace s ++ t) s))) = None).
    { unfold noteText in Ht1. cbn [data with_data dailyNoteFile] in Ht1 |- *.
      rewrite Hpath. exact Ht1. }
    rewrite updateTrackedFiles_halves in H2. unfold bind in H2.
    rewrite (resolveNote_found _ note) in H2;
      [| apply Hres | apply Hres].
    unfold writeNote, bind, read in H2.
    change (data (saved (with_data d (with_trace (trace s ++ t) s))))
      with (data (with_data d (with_trace (trace s ++ t) s))) in H2.
    rewrite Hgone in H2. discriminate H2.
Qed.

(** C6, the claim refuted: with no heading name configured every write
    appends a new section, whatever the cache holds, so the second write
    changes the note again. *)
Lemma second_write_appends_again :
  let s1 := snd (updateTrackedFiles true unnamedExample) in
  let s2 := snd (updateTrackedFiles true s1) in
  noteLines s1 = Some ["x"; "# "; "- c"]
  /\ noteLines s2 = Some ["x"; "# "; "- c"; "# "; "- c"]
  /\ noteText s2 <> noteText s1
  /\ forall cached,
       noteLines (snd (updateTrackedFilesCached cached true s1))
       = Some ["x"; "# "; "- c"; "# "; "- c"].
Proof.
  split; [reflexivity |]. split; [reflexivity |]. split.
  - vm_compute. discriminate.
  - intros [hs |]; reflexivity.
Qed.

(** The section of the note is rewritten with two lines in place of one;
    a second write that is still handed the headings of the old text
    deletes one line where two were put, and the list grows by a line. *)
Example stale_cache_adds_a_line :
  let s1 := snd (updateTrackedFiles true staleExample) in
  let stale := headingsOf ["# Heading"; "old1"; "old2"; "# Next"] in
  noteLines s1 = Some ["# Heading"; "- a"; "- b"; "old2"; "# Next"]
  /\ noteLines (snd (updateTrackedFilesCached stale true s1))
     = Some ["# Heading"; "- a"; "- b"; "- b"; "old2"; "# Next"].
Proof. split; reflexivity. Qed.

Lemma second_write_changes_nothing_witness :
  (fst (updateTrackedFiles true regionExample) = Normal tt
   /\ fst (updateTrackedFilesCached
             (headingsOf ["# Heading"; "- c"; "old2"; "# Next"; "x"]) true
             (snd (updateTrackedFiles true regionExample))) = Normal tt
   /\ noteText (snd (updateTrackedFilesCached
                       (headingsOf ["# Heading"; "- c"; "old2"; "# Next"; "x"])
                       true (snd (updateTrackedFiles true regionExample))))
      = noteText (snd (updateTrackedFiles true regionExample)))
  /\ (fst (updateTrackedFiles true firstRunExample) = Normal tt
      /\ fst (updateTrackedFilesCached
                (headingsOf ["intro"; "# Heading"; "- c"]) true
                (snd (updateTrackedFiles true firstRunExample))) = Normal tt
      /\ noteText (snd (updateTrackedFilesCached
                          (headingsOf ["intro"; "# Heading"; "- c"]) true
                          (snd (updateTrackedFiles true firstRunExample))))
         = noteText (snd (updateTrackedFiles true firstRunExample))).
Proof.
  split.
  - apply (second_write_changes_nothing regionExample dailyFile
             (JS.join NL ["# Heading"; "old1"; "old2"; "# Next"; "x"])
             [] "# Heading" ["old1"; "old2"] ["# Next"; "x"] ["- c"]).
    + vm_compute. repeat split.
    + discriminate.
    + reflexivity.
    + reflexivity.
    + left. repeat split. right. discriminate.
    + intros text1 H. vm_compute in H. injection H as <-. reflexivity.
  - apply (second_write_changes_nothing firstRunExample dailyFile "intro"
             [] EmptyString [] [] ["- c"]).
    + vm_compute. repeat split.
    + discriminate.
    + reflexivity.
    + reflexivity.
    + right. repeat split. discriminate.
    + intros text1 H. vm_compute in H. injection H as <-. reflexivity.
Defined.

(* ================================================================== *)
(** ** The first occurrence of each placeholder *)
(* ================================================================== *)

Section SubstituteFirsts.
Local Open Scope string_scope.
Local Open Scope nat_scope.
Variable val : string -> string.

Lemma substituteFirsts_nil (k : nat) (s : string) :
  substituteFirsts val [] k s = JS.drop k s.
Proof.
  revert k. induction s as [| c r IH]; intros [| k]; simpl;
    try reflexivity.
  - rewrite IH. reflexivity.
  - apply IH.
Qed.

Lemma substituteFirsts_skip (todo : list string) (k : nat) (s : string) :
  substituteFirsts val todo k s = substituteFirsts val todo 0 (JS.drop k s).
Proof.
  revert k. induction s as [| c r IH]; intros [| k]; try reflexivity.
  cbn [substituteFirsts JS.drop]. apply IH.
Qed.

Lemma drop_prefix (q : string) (c : ascii) (r : string) :
  q <> EmptyString ->
  JS.drop (String.length q) (String c r) = JS.drop (String.length q - 1) r.
Proof.
  destruct q as [| a q]; [contradiction |]. intros _. simpl.
  rewrite Nat.sub_0_r. reflexivity.
Qed.

Lemma find_none_all {A : Type} (f : A -> bool) (l : list A) :
  (forall x, In x l -> f x = false) -> find f l = None.
Proof.
  induction l as [| x r IH]; intros H; [reflexivity |]. simpl.
  rewrite (H x (or_introl eq_refl)). apply IH. intros y Hy. apply H.
  right. exact Hy.
Qed.

Lemma find_app {A : Type} (f : A -> bool) (l1 l2 : list A) :
  find f (l1 ++ l2)
  = match find f l1 with Some x => Some x | None => find f l2 end.
Proof.
  induction l1 as [| x r IH]; [reflexivity |]. simpl.
  destruct (f x); [reflexivity | exact IH].
Qed.

(** One pattern: the scan is [replace] with the value taken as it is. *)
Lemma substituteFirsts_one (q s : string) :
  q <> EmptyString ->
  substituteFirsts val [q] 0 s
  = match JS.findFirst q s with
    | Some (pre, post) => pre ++ val q ++ post
    | None => s
    end.
Proof.
  intros Hq. induction s as [| c r IH].
  - simpl. destruct q; [contradiction | reflexivity].
  - cbn [substituteFirsts JS.findFirst find].
    destruct (String.prefix q (String c r)) eqn:Hp.
    + cbn [JS.remove filter]. rewrite String.eqb_refl. cbn [negb].
      rewrite substituteFirsts_nil, (drop_prefix q c r Hq). reflexivity.
    + rewrite IH. destruct (JS.findFirst q r) as [[pre post] |]; reflexivity.
Qed.

Lemma replace_substituteFirsts (q s : string) :
  q <> EmptyString ->
  (occurrences q s <> 0 -> noDollar (val q) = true) ->
  JS.replace q (val q) s = substituteFirsts val [q] 0 s.
Proof.
  intros Hq Hd. rewrite (substituteFirsts_one q s Hq). unfold JS.replace.
  destruct (JS.findFirst q s) as [[pre post] |] eqn:Hf; [| reflexivity].
  rewrite getSubstitution_noDollar; [reflexivity |].
  apply Hd. intros H0. rewrite (findFirst_absent q Hq s H0) in Hf.
  discriminate Hf.
Qed.

Lemma occurrences_cons (q : string) (c : ascii) (r : string) :
  occurrences q (String c r)
  = (if String.prefix q (String c r) then 1 else 0) + occurrences q r.
Proof. reflexivity. Qed.

Lemma occurrences_append_r (q x y : string) :
  occurrences q y <= occurrences q (x ++ y).
Proof. pose proof (occurrences_append_ge q x y). lia. Qed.

(** No occurrence of [q] starts in [x]: the scan for [q] copies [x]. *)
Lemma substituteFirsts_past (q x y : string) :
  occurrences q (x ++ y) <= occurrences q y ->
  substituteFirsts val [q] 0 (x ++ y) = x ++ substituteFirsts val [q] 0 y.
Proof.
  induction x as [| c x IH]; intros H; [reflexivity |].
  cbn [String.append] in *. rewrite occurrences_cons in H.
  pose proof (occurrences_append_r q x y) as Hge.
  cbn [substituteFirsts find].
  destruct (String.prefix q (String c (x ++ y))); [lia |].
  rewrite IH by lia. reflexivity.
Qed.

Lemma substituteFirsts_at (q w : string) :
  q <> EmptyString ->
  substituteFirsts val [q] 0 (q ++ w) = val q ++ w.
Proof.
  intros Hq. rewrite (substituteFirsts_one q _ Hq).
  destruct q as [| a q]; [contradiction |].
  cbn [String.append JS.findFirst].
  change (String a (q ++ w)) with (String a q ++ w).
  rewrite prefix_self_append, drop_append. reflexivity.
Qed.

Lemma occurrences_prefix (p v : string) :
  v <> EmptyString -> String.prefix p v = true -> 1 <= occurrences p v.
Proof.
  destruct v as [| c r]; [contradiction |]. intros _ H.
  rewrite occurrences_cons, H. lia.
Qed.

(** An occurrence of [q] is copied by the scan for patterns that are
    apart from [q]. *)
Lemma substituteFirsts_copy (todo : list string) (q w : string) :
  apart q todo ->
  forall u v, q = u ++ v ->
    substituteFirsts val todo 0 (v ++ w)
    = v ++ substituteFirsts val todo 0 w.
Proof.
  intros (Hq & Hap) u v. revert u.
  induction v as [| c v IH]; intros u Hquv; [reflexivity |].
  cbn [String.append substituteFirsts].
  rewrite find_none_all.
  - rewrite (IH (u ++ String c EmptyString)); [reflexivity |].
    rewrite Hquv, append_assoc. reflexivity.
  - intros p Hp. destruct (Hap p Hp) as (Hpne & _ & _ & _ & _ & Hca & Ho).
    destruct (String.prefix p (String c (v ++ w))) eqn:Hpre; [| reflexivity].
    exfalso. change (String c (v ++ w)) with (String c v ++ w) in Hpre.
    destruct (prefix_append_inv _ _ _ Hpre) as [Hin | (p' & Hne & Heq & _)].
    + pose proof (occurrences_prefix p (String c v) ltac:(discriminate) Hin).
      pose proof (occurrences_append_ge p u (String c v)).
      rewrite <- Hquv in *. lia.
    + assert (Hi : In (String.length u) (seq 0 (String.length q))).
      { apply in_seq. rewrite Hquv, length_append. simpl. lia. }
      apply (proj1 (forallb_forall _ _) Hca) in Hi.
      rewrite Hquv, drop_append in Hi.
      rewrite Heq, prefix_self_append, length_append in Hi.
      apply negb_true_iff, andb_false_iff in Hi.
      destruct Hi as [Hi | Hi]; [discriminate |].
      apply Nat.ltb_ge in Hi. destruct p'; [contradiction |].
      simpl in Hi. lia.
Qed.

Lemma apart_remove (q : string) (todo : list string) (p : string) :
  apart q todo -> apart q (JS.remove todo p).
Proof.
  intros (Hq & Hap). split; [exact Hq |]. intros x Hx. apply Hap.
  unfold JS.remove in Hx. apply filter_In in Hx. apply Hx.
Qed.

Lemma find_prefix_In (todo : list string) (s p : string) :
  find (fun ph => String.prefix ph s) todo = Some p ->
  In p todo /\ String.prefix p s = true.
Proof. intros H. apply find_some in H. exact H. Qed.

(** The scan for patterns apart from [q] takes no occurrence of [q]
    away. *)
Lemma substituteFirsts_keeps (q : string) :
  forall s todo k,
    apart q todo ->
    occurrences q (JS.drop k s)
    <= occurrences q (substituteFirsts val todo k s).
Proof.
  induction s as [| c r IH]; intros todo k Hap.
  - destruct k; simpl; lia.
  - destruct k as [| k]; [| cbn [JS.drop substituteFirsts]; apply IH, Hap].
    cbn [JS.drop substituteFirsts].
    destruct (find (fun ph => String.prefix ph (String c r)) todo)
      as [p |] eqn:Hfind.
    + destruct (find_prefix_In _ _ _ Hfind) as [Hin Hpre].
      destruct Hap as (Hq & Hall).
      destruct (Hall p Hin) as (Hpne & _ & Hcb & Hca & Ho & _ & _).
      pose proof (IH (JS.remove todo p) (String.length p - 1)
                     (apart_remove q todo p (conj Hq Hall))) as Hrec.
      rewrite <- (drop_prefix p c r Hpne) in Hrec.
      rewrite (prefix_drop p _ Hpre) at 1.
      pose proof (occurrences_block q p Hcb Hca EmptyString
                    (JS.drop (String.length p) (String c r))) as Hblock.
      cbn [String.append occurrences] in Hblock.
      pose proof (occurrences_append_r q (val p)
                    (substituteFirsts val (JS.remove todo p)
                       (String.length p - 1) r)).
      lia.
    + rewrite !occurrences_cons.
      pose proof (IH todo 0 Hap) as Hrec. cbn [JS.drop] in Hrec.
      destruct (String.prefix q (String c r)) eqn:Hp; [| lia].
      assert (Hcopy : String.prefix q
                        (String c (substituteFirsts val todo 0 r)) = true).
      { assert (Hs : String c (substituteFirsts val todo 0 r)
                     = substituteFirsts val todo 0 (String c r)).
        { cbn [substituteFirsts]. rewrite Hfind. reflexivity. }
        rewrite Hs, (prefix_drop q _ Hp).
        rewrite (substituteFirsts_copy todo q _ Hap EmptyString q eq_refl).
        apply prefix_self_append. }
      rewrite Hcopy. lia.
Qed.

Lemma remove_app (l1 l2 : list string) (x : string) :
  JS.remove (l1 ++ l2) x = (JS.remove l1 x ++ JS.remove l2 x)%list.
Proof. unfold JS.remove. apply filter_app. Qed.

Lemma remove_absent (l : list string) (x : string) :
  (forall p, In p l -> p <> x) -> JS.remove l x = l.
Proof.
  intros H. apply remove_not_included.
  destruct (JS.includes l x) eqn:Hi; [| reflexivity].
  apply includes_In in Hi. exfalso. apply (H x Hi). reflexivity.
Qed.

(** When the scan for [todo] has brought no occurrence of [q] into the
    line, scanning the result for [q] is scanning the text for [todo] and
    [q] together. *)
Lemma substituteFirsts_then (q : string) :
  forall s todo k,
    apart q todo ->
    occurrences q (substituteFirsts val todo k s)
    <= occurrences q (JS.drop k s) ->
    substituteFirsts val [q] 0 (substituteFirsts val todo k s)
    = substituteFirsts val (todo ++ [q]) k s.
Proof.
  induction s as [| c r IH]; intros todo k Hap Hle; [reflexivity |].
  destruct k as [| k];
    [| cbn [JS.drop substituteFirsts] in *; apply IH; assumption].
  assert (Hq : q <> EmptyString) by (destruct Hap as [H _]; exact H).
  cbn [JS.drop substituteFirsts] in *. rewrite find_app.
  destruct (find (fun ph => String.prefix ph (String c r)) todo)
    as [p |] eqn:Hfind.
  - destruct (find_prefix_In _ _ _ Hfind) as [Hin Hpre].
    destruct (proj2 Hap p Hin) as (Hpne & Hpq & Hcb & Hca & Ho & _ & _).
    set (z := substituteFirsts val (JS.remove todo p)
                (String.length p - 1) r) in *.
    pose proof (substituteFirsts_keeps q r (JS.remove todo p)
                  (String.length p - 1) (apart_remove q todo p Hap)) as Hkeep.
    fold z in Hkeep.
    rewrite (prefix_drop p _ Hpre) in Hle.
    pose proof (occurrences_block q p Hcb Hca EmptyString
                  (JS.drop (String.length p) (String c r))) as Hblock.
    cbn [String.append occurrences] in Hblock.
    rewrite (drop_prefix p c r Hpne) in Hblock, Hle.
    pose proof (occurrences_append_r q (val p) z) as Hge.
    rewrite substituteFirsts_past by lia.
    rewrite remove_app.
    assert (Hrq : JS.remove [q] p = [q]).
    { apply remove_absent. intros x [<- | []]. congruence. }
    rewrite Hrq. unfold z. rewrite IH;
      [reflexivity | apply apart_remove, Hap | fold z; lia].
  - cbn [find].
    pose proof (substituteFirsts_keeps q r todo 0 Hap) as Hkeep.
    cbn [JS.drop] in Hkeep.
    destruct (String.prefix q (String c r)) eqn:Hp.
    + (* the first occurrence of [q] is here *)
      assert (Hs : String c (substituteFirsts val todo 0 r)
                   = substituteFirsts val todo 0 (String c r)).
      { cbn [substituteFirsts]. rewrite Hfind. reflexivity. }
      rewrite Hs. rewrite (prefix_drop q _ Hp) at 1.
      rewrite (substituteFirsts_copy todo q _ Hap EmptyString q eq_refl).
      rewrite (substituteFirsts_at q _ Hq).
      rewrite remove_app.
      rewrite (remove_absent todo q)
        by (intros x Hx; apply (proj2 Hap x Hx)).
      cbn [JS.remove filter]. rewrite String.eqb_refl. cbn [negb].
      rewrite app_nil_r.
      rewrite (substituteFirsts_skip todo (String.length q - 1) r).
      rewrite (drop_prefix q c r Hq). reflexivity.
    + rewrite !occurrences_cons, Hp in Hle.
      cbn [substituteFirsts find].
      destruct (String.prefix q (String c (substituteFirsts val todo 0 r)));
        [lia |].
      rewrite IH by (assumption || (cbn [JS.drop]; lia)). reflexivity.
Qed.

End SubstituteFirsts.
Lemma apart_placeholders (q : string) (todo : list string) :
  In (q, todo)
     [("[[name]]", ["[[link]]"]);
      ("[[tags]]", ["[[link]]"; "[[name]]"]);
      ("[[ctime]]", ["[[link]]"; "[[name]]"; "[[tags]]"])] ->
  apart q todo.
Proof.
  intros [H | [H | [H | []]]]; injection H as <- <-;
    (split; [discriminate |]);
    intros p Hp; simpl in Hp;
    repeat (destruct Hp as [<- | Hp]; [repeat split; discriminate || reflexivity |]);
    contradiction.
Qed.

(** The chain of [getFormattedOutput] and the line the claim describes are
    the same when the substitutions do not disturb one another. *)
Lemma renderTemplate_substituteFirsts (format : string) (file : TFile) :
  undisturbed format file ->
  renderTemplate format file
  = substituteFirsts (fun ph => placeholderValue ph file) placeholders 0
      format.
Proof.
  intros (Hdollar & Hname & Htags & Hctime).
  set (val := fun ph => placeholderValue ph file).
  assert (Hl : In "[[link]]" placeholders) by (simpl; auto).
  assert (Hn : In "[[name]]" placeholders) by (simpl; auto).
  assert (Ht : In "[[tags]]" placeholders) by (simpl; auto).
  assert (Hc : In "[[ctime]]" placeholders) by (simpl; auto 6).
  assert (H1 : afterLink format file
               = substituteFirsts val ["[[link]]"] 0 format).
  { unfold afterLink.
    apply (replace_substituteFirsts val "[[link]]" format);
      [discriminate | apply (Hdollar _ Hl)]. }
  assert (H2 : afterName format file
               = substituteFirsts val ["[[link]]"; "[[name]]"] 0 format).
  { unfold afterName.
    change (basename file) with (val "[[name]]").
    rewrite (replace_substituteFirsts val "[[name]]");
      [| discriminate
       | rewrite Hname; apply (Hdollar _ Hn)].
    rewrite H1 in Hname |- *.
    apply (substituteFirsts_then val "[[name]]" format ["[[link]]"] 0).
    - apply apart_placeholders. simpl. auto.
    - cbn [JS.drop]. rewrite Hname. apply Nat.le_refl. }
  assert (H3 : afterTags format file
               = substituteFirsts val ["[[link]]"; "[[name]]"; "[[tags]]"] 0
                   format).
  { unfold afterTags.
    change (JS.join ", " (map (fun tag => String "\" tag) (allTags file)))
      with (val "[[tags]]").
    rewrite (replace_substituteFirsts val "[[tags]]");
      [| discriminate
       | rewrite Htags; apply (Hdollar _ Ht)].
    rewrite H2 in Htags |- *.
    apply (substituteFirsts_then val "[[tags]]" format
             ["[[link]]"; "[[name]]"] 0).
    - apply apart_placeholders. simpl. auto.
    - cbn [JS.drop]. rewrite Htags. apply Nat.le_refl. }
  change (renderTemplate format file)
    with (JS.replace "[[ctime]]" (val "[[ctime]]") (afterTags format file)).
  rewrite (replace_substituteFirsts val "[[ctime]]");
    [| discriminate
     | rewrite Hctime; apply (Hdollar _ Hc)].
  rewrite H3 in Hctime |- *.
  apply (substituteFirsts_then val "[[ctime]]" format
           ["[[link]]"; "[[name]]"; "[[tags]]"] 0).
  - apply apart_placeholders. simpl. auto.
  - cbn [JS.drop]. rewrite Hctime. apply Nat.le_refl.
Qed.

(** C10 (as the code has it). For a tracked path that is in the vault, and
    with today's daily note in hand, [getFormattedOutput] returns the
    template with the first occurrence of each placeholder replaced by the
    value of the file, and every second or later occurrence left as
    literal text, when the substitutions do not disturb one another: no
    value put in the line holds a dollar sign, and none brings in an
    occurrence of a placeholder whose turn is still to come, the order
    being [[link]], [[name]], [[tags]], [[ctime]]. *)
Theorem getFormattedOutput_replaces_one_occurrence (s : State) (p : string)
  (note file : TFile) :
  dailyFolder s = true ->
  getAbstractFileByPath s (path (dailyNoteFile s)) = Some note ->
  getAbstractFileByPath s p = Some file ->
  undisturbed (outputFormat (settings s)) file ->
  getFormattedOutput p s
  = (Normal
       (substituteFirsts (fun ph => placeholderValue ph file) placeholders 0
          (outputFormat (settings s))), s).
Proof.
  intros Hfolder Hnote Hfile Hund.
  rewrite getFormattedOutput_formatted. unfold formatted.
  rewrite Hfolder, Hnote, Hfile.
  rewrite (renderTemplate_substituteFirsts _ file Hund). reflexivity.
Qed.

(** C10, the claim refuted: the note is called [name] and its link is
    [[[name]]]. The template holds [[[name]]] once, at its end. The link
    is put first, and the substitution of the name then finds the link:
    the occurrence of the template is left as it is, where the claim has
    it replaced. *)
Lemma name_of_the_template_is_not_substituted :
  outputFormat (settings nameExample) = "- [[link]] / [[name]]"
  /\ JS.findFirst "[[name]]" "- [[link]] / [[name]]"
     = Some ("- [[link]] / ", EmptyString)
  /\ mdLink (plainFile "name") = "[[name]]"
  /\ basename (plainFile "name") = "name"
  /\ getFormattedOutput "name.md" nameExample
     = (Normal "- name / [[name]]", nameExample)
  /\ substituteFirsts (fun ph => placeholderValue ph (plainFile "name"))
       placeholders 0 "- [[link]] / [[name]]"
     = "- [[name]] / name"
  /\ fst (getFormattedOutput "name.md" nameExample)
     <> Normal
          (substituteFirsts (fun ph => placeholderValue ph (plainFile "name"))
             placeholders 0 (outputFormat (settings nameExample))).
Proof.
  repeat split; try reflexivity. vm_compute. discriminate.
Qed.

Lemma getFormattedOutput_replaces_one_occurrence_witness :
  getFormattedOutput "Note.md" fullExample
  = (Normal "- [[Note]] (Note, \#a, \#b, 2023-05-01) see [[link]]",
     fullExample)
  /\ getFormattedOutput "Note.md" twoNames
     = (Normal "Note and [[name]]", twoNames).
Proof.
  split.
  - apply (getFormattedOutput_replaces_one_occurrence fullExample "Note.md"
             dailyFile taggedNote).
    + reflexivity.
    + reflexivity.
    + reflexivity.
    + split; [| repeat split].
      intros ph Hph _. simpl in Hph.
      repeat (destruct Hph as [<- | Hph]; [reflexivity |]). contradiction.
  - apply (getFormattedOutput_replaces_one_occurrence twoNames "Note.md"
             dailyFile (plainFile "Note")).
    + reflexivity.
    + reflexivity.
    + reflexivity.
    + split; [| repeat split].
      intros ph Hph _. simpl in Hph.
      repeat (destruct Hph as [<- | Hph]; [reflexivity |]). contradiction.
Defined.

(* ================================================================== *)
(** ** The filters on characters above the ASCII range *)
(* ================================================================== *)

(** The title filter lowers the accented capital too. *)
Example noteTitle_accented_capital :
  noteTitleContainsIgnoredText
    (with_ignoredNameContains ("caf" ++ smallEacute) baseSettings)
    ("CAF" ++ capitalEacute) = true.
Proof. reflexivity. Qed.

(** A no-break space is white space: it is taken out of the setting, and
    the entry that is left is not in a title that holds the space. *)
Example noteTitle_no_break_space :
  noteTitleContainsIgnoredText
    (with_ignoredNameContains ("foo" ++ nbsp ++ "bar") baseSettings)
    ("foo" ++ nbsp ++ "bar") = false
  /\ noteTitleContainsIgnoredText
       (with_ignoredNameContains ("foo" ++ nbsp ++ "bar") baseSettings)
       "foobar" = true.
Proof. split; reflexivity. Qed.

(** The separator of the folder setting takes the no-break spaces before
    the comma with it. *)
Example replaceCommaSpace_no_break_space :
  replaceCommaSpace ("x" ++ nbsp ++ ", b") = "x,b"
  /\ excludedFolderPaths
       (with_excludedFolders ("Archive" ++ nbsp ++ ", X") baseSettings)
     = ["Archive"; "X"]
  /\ excludedFolderPaths
       (with_excludedFolders ("A " ++ nbsp ++ ",B, ,C") baseSettings)
     = ["A"; "B"; " "; "C"].
Proof. repeat split; reflexivity. Qed.
